(** * The request engine of the Vercel API client (package client)

    A shallow embedding of the request-execution core of the provider's
    [client] package: the URL builder [makeURL], the status predicates
    [NotFound] / [noContent], the request executor [_doRequest] and the
    rate-limit retry loop [doRequest].

    Go values are embedded as follows.
    - [string] is a sequence of 8-bit characters, as a Go string is a sequence
      of bytes; [[]byte] is [list byte], and [string(b)] is
      [string_of_list_byte].
    - [int] is a 64-bit signed integer, embedded in [Z]; the one place where
      the ord does arithmetic that could leave the range (the conversion of
      a delay to a [time.Duration]) has its wrap-around written out.
    - [http.Header] is a [gmap] from canonical header names to value lists.
    - [error] is an inductive type with one constructor per dynamic type the
      engine can meet; a nil error is [None].
    - The transport, the context and the timers are the environment: what
      they answer is read from an [Env], what the engine did to them is
      recorded in a [World]. *)

From Stdlib Require Import ZArith String Ascii List Lia Bool DecimalString.
From Stdlib Require Strings.Byte.
From stdpp Require Import base gmap strings list.

Open Scope Z_scope.

(** ** Characters and strings *)

Definition ord (c : ascii) : N := N_of_ascii c.

Definition between (lo hi c : ascii) : bool :=
  (ord lo <=? ord c)%N && (ord c <=? ord hi)%N.

Definition mem_char (c : ascii) (s : string) : bool :=
  existsb (Ascii.eqb c) (list_ascii_of_string s).

(** A string in which no character is a percent sign. *)
Definition noPercent (s : string) : bool := negb (mem_char "%" s).

(** ** net/url: escaping of one path segment

    [PathEscape] and [PathUnescape] belong to Go's standard library;
    the definitions follow package net/url in mode [encodePathSegment]. *)
Module net_url.

Definition upperhex : string := "0123456789ABCDEF".

Definition isAlnum (c : ascii) : bool :=
  between "a" "z" c || between "A" "Z" c || between "0" "9" c.

(** [shouldEscape(c, encodePathSegment)]. *)
Definition shouldEscape (c : ascii) : bool :=
  if isAlnum c then false
  else if mem_char c "-_.~" then false
  else if mem_char c "$&+,/:;=?@" then mem_char c "/;,?"
  else true.

Definition hexDigit (n : N) : ascii :=
  match String.get (N.to_nat n) upperhex with
  | Some d => d
  | None => "0"%char
  end.

(** [escape(s, encodePathSegment)]: a byte that must be escaped becomes
    ['%'], [upperhex[c>>4]], [upperhex[c&15]]. *)
Fixpoint PathEscape (s : string) : string :=
  match s with
  | EmptyString => EmptyString
  | String c rest =>
      if shouldEscape c
      then String "%" (String (hexDigit (N.shiftr (ord c) 4))
                        (String (hexDigit (N.land (ord c) 15))
                           (PathEscape rest)))
      else String c (PathEscape rest)
  end.

Definition ishex (c : ascii) : bool :=
  between "0" "9" c || between "a" "f" c || between "A" "F" c.

Definition unhex (c : ascii) : N :=
  if between "0" "9" c then ord c - ord "0"
  else if between "a" "f" c then ord c - ord "a" + 10
  else if between "A" "F" c then ord c - ord "A" + 10
  else 0.

(** [unescape(s, encodePathSegment)]: [None] is the [EscapeError] of a
    percent sign that is not followed by two hexadecimal digits; a plus
    sign is kept as it is in this mode. *)
Fixpoint PathUnescape (s : string) : option string :=
  match s with
  | EmptyString => Some EmptyString
  | String "%" (String h (String l rest)) =>
      if ishex h && ishex l
      then option_map
             (String (ascii_of_N (N.lor (N.shiftl (unhex h) 4) (unhex l))))
             (PathUnescape rest)
      else None
  | String "%" _ => None
  | String c rest => option_map (String c) (PathUnescape rest)
  end.

End net_url.

(** ** fmt: the formatting directives the client uses

    [fmt.Sprintf] for operands that are all strings.  The model covers
    literal text, the verbs [%s] and [%v], the escape [%%], a missing operand,
    a percent sign that ends the format, and operands left over at the end.
    [None] stands for a format that uses a directive outside this fragment
    (flags, widths, explicit indexes, other verbs). *)
Module fmt.

Fixpoint joinExtra (args : list string) : string :=
  match args with
  | [] => EmptyString
  | [a] => "string=" +:+ a
  | a :: rest => "string=" +:+ a +:+ ", " +:+ joinExtra rest
  end.

(** What is appended for the operands that no verb consumed. *)
Definition extra (args : list string) : string :=
  match args with
  | [] => EmptyString
  | _ => "%!(EXTRA " +:+ joinExtra args +:+ ")"
  end.

Fixpoint Sprintf (format : string) (args : list string) : option string :=
  match format with
  | EmptyString => Some (extra args)
  | String "%" EmptyString => Some ("%!(NOVERB)" +:+ extra args)
  | String "%" (String v rest) =>
      if (Ascii.eqb v "s" || Ascii.eqb v "v")%bool then
        match args with
        | a :: args' => option_map (String.append a) (Sprintf rest args')
        | [] =>
            option_map
              (String.append ("%!" +:+ String v "(MISSING)"))
              (Sprintf rest [])
        end
      else if Ascii.eqb v "%" then
        option_map (String "%") (Sprintf rest args)
      else None
  | String c rest => option_map (String c) (Sprintf rest args)
  end.

End fmt.

(** ** The client and its URL builder (client.go) *)

(** [Team] (team.go): what the API returns for a team. *)
Record Team := {
  ID : string;
  SensitiveEnvironmentVariablePolicy : option string
}.

Record Client := {
  token : string;
  team : Team;
  baseURL : string
}.

(** [New] creates a client for a given API token. *)
Definition New (tok : string) : Client :=
  {| token := tok; team := {| ID := EmptyString;
             SensitiveEnvironmentVariablePolicy := None |};
     baseURL := "https://api.vercel.com" |}.

(** [teamID] returns an explicitly passed team id if it is defined and falls
    back to the one configured on the client. *)
Definition teamID (c : Client) (explicit : string) : string :=
  if negb (String.eqb explicit EmptyString) then explicit else ID (team c).

(** The loop of [makeURL]: one [append] of the escaped value per value. *)
Definition escapeAll (urlPathValues : list string) : list string :=
  fold_left (fun escaped val => escaped ++ [net_url.PathEscape val])
            urlPathValues [].

(** [makeURL]: the base URL and the path specifier are joined first, and the
    result is the format that receives the escaped values. *)
Definition makeURL (c : Client) (urlPathSpecifier : string)
    (urlPathValues : list string) : option string :=
  match fmt.Sprintf "%s%s" [baseURL c; urlPathSpecifier] with
  | Some format => fmt.Sprintf format (escapeAll urlPathValues)
  | None => None
  end.

(** A path template with one placeholder per segment value: literal text,
    then for each segment a [%s] followed by literal text. *)
Fixpoint template (lit : string) (segments : list string) : string :=
  match segments with
  | [] => lit
  | next :: rest => lit +:+ "%s" +:+ template next rest
  end.

(** The template with its placeholders replaced, in order, by [vals]. *)
Fixpoint fill (lit : string) (segments vals : list string) : string :=
  match segments, vals with
  | next :: rest, v :: vals' => lit +:+ v +:+ fill next rest vals'
  | _, _ => lit
  end.


(** ** Integers *)

(** Go's [int] and [int64] on the supported platforms: 64 bits, signed. *)
Definition minInt64 : Z := - 2 ^ 63.
Definition maxInt64 : Z := 2 ^ 63 - 1.

Definition inInt64 (n : Z) : bool := (minInt64 <=? n) && (n <=? maxInt64).

(** The value a 64-bit signed register holds after an operation whose exact
    result is [n]. *)
Definition wrap64 (n : Z) : Z := (n + 2 ^ 63) mod 2 ^ 64 - 2 ^ 63.

(** What the verb [%d] prints. *)
Definition itoa (n : Z) : string := NilZero.string_of_int (Z.to_int n).

(** ** strconv.Atoi

    Go's standard library: an optional sign and at least one decimal digit;
    [None] is the syntax error or the range error. *)
Module strconv.

Definition digit (c : ascii) : option Z :=
  if between "0" "9" c then Some (Z.of_N (ord c - ord "0")) else None.

Fixpoint digits (s : string) (acc : Z) : option Z :=
  match s with
  | EmptyString => Some acc
  | String c rest =>
      match digit c with
      | Some d => digits rest (acc * 10 + d)
      | None => None
      end
  end.

Definition unsigned (s : string) : option Z :=
  match s with
  | EmptyString => None
  | _ => digits s 0
  end.

Definition Atoi (s : string) : option Z :=
  let signed :=
    match s with
    | String "-" rest => option_map Z.opp (unsigned rest)
    | String "+" rest => unsigned rest
    | _ => unsigned s
    end in
  match signed with
  | Some n => if inInt64 n then Some n else None
  | None => None
  end.

End strconv.

(** ** time *)
Module time.

(** A [time.Duration] is a number of nanoseconds in an [int64]. *)
Definition Second : Z := 1000000000.

(** [time.Duration(n) * time.Second]. *)
Definition seconds (n : Z) : Z := wrap64 (n * Second).

End time.

(** ** Errors (request.go, error.go) *)

(** [APIError] exposes additional information about why an API request
    failed.  The zero value of each field is the empty string, 0 or the nil
    slice, which as a byte sequence is the empty one. *)
Record APIError := {
  Code : string;
  Message : string;
  StatusCode : Z;
  RawMessage : list Byte.byte;
  retryAfter : Z
}.

(** The two values [ctx.Err()] can have once [ctx.Done()] is closed. *)
Inductive ContextError := Canceled | DeadlineExceeded.

(** An [error] value that is not nil, by dynamic type: a [*APIError], an
    error of package context, an error made by another package (net/http, io,
    encoding/json: none of them holds a [*APIError]), or the result of
    [fmt.Errorf] with one [%w] operand. *)
Inductive error :=
| ErrAPI (e : APIError)
| ErrContext (r : ContextError)
| ErrForeign (msg : string)
| ErrWrap (msg : string) (cause : error).

(** The method [Error]; for an [APIError] it is [Code - Message]. *)
Definition Error (err : error) : string :=
  match err with
  | ErrAPI e => Code e +:+ " - " +:+ Message e
  | ErrContext Canceled => "context canceled"
  | ErrContext DeadlineExceeded => "context deadline exceeded"
  | ErrForeign msg => msg
  | ErrWrap msg _ => msg
  end.

(** [fmt.Errorf(text + ": %w", cause)] once the other verbs of the format
    have been printed into [text]. *)
Definition Errorf (text : string) (cause : error) : error :=
  ErrWrap (text +:+ ": " +:+ Error cause) cause.

(** [errors.As(err, &apiErr)] for [apiErr] of type [*APIError]: the first
    error of that type on the chain of [Unwrap]. *)
Fixpoint errors_As (err : error) : option APIError :=
  match err with
  | ErrAPI e => Some e
  | ErrWrap _ cause => errors_As cause
  | ErrContext _ | ErrForeign _ => None
  end.

Definition StatusNoContent : Z := 204.
Definition StatusNotFound : Z := 404.
Definition StatusTooManyRequests : Z := 429.

Definition hasStatus (err : option error) (statusCode : Z) : bool :=
  match err with
  | None => false
  | Some err' =>
      match errors_As err' with
      | Some apiErr => StatusCode apiErr =? statusCode
      | None => false
      end
  end.

(** [NotFound] detects if an error returned by the API was the result of an
    entity not existing. *)
Definition NotFound (err : option error) : bool := hasStatus err StatusNotFound.

Definition noContent (err : option error) : bool :=
  hasStatus err StatusNoContent.

(** The relation behind [errors.As], stated on its own: [err] is, or wraps at
    some depth, the API error [e]. *)
Inductive UnwrapsTo : error -> APIError -> Prop :=
| unwraps_here e : UnwrapsTo (ErrAPI e) e
| unwraps_cause msg cause e :
    UnwrapsTo cause e -> UnwrapsTo (ErrWrap msg cause) e.

(** ** net/http: headers, requests and what comes back *)

(** [http.Header] is a [map[string][]string] keyed by canonical header names;
    every name the client uses is written in its canonical form. *)
Abbreviation Header := (gmap string (list string)).

(** [Header.Get]: the first value of the key, the empty string without one. *)
Definition Header_Get (h : Header) (key : string) : string :=
  match h !! key with
  | Some (v :: _) => v
  | _ => EmptyString
  end.

(** [Header.Set] replaces the values of the key. *)
Definition Header_Set (h : Header) (key value : string) : Header :=
  <[key := [value]]> h.

(** [Header.Add] appends to the values of the key. *)
Definition Header_Add (h : Header) (key value : string) : Header :=
  <[key := default [] (h !! key) ++ [value]]> h.

Record Request := {
  Method : string;
  URL : string;
  Body : string;
  Hdr : Header
}.

(** What [c.http().Do(req)] followed by [io.ReadAll(resp.Body)] comes to:
    [Do] returns an error, or it returns a response whose body cannot be
    read to the end, or status, headers and the whole body are there. *)
Inductive Exchange :=
| DoFails (msg : string)
| ReadFails (msg : string)
| Responds (status : Z) (header : Header) (body : list Byte.byte).

(** How a [select] over [ctx.Done()] and a timer's channel ends: the timer
    fires, or the context is done [after] nanoseconds into the wait. *)
Inductive Select :=
| TimerWins
| DoneWins (after : Z).

(** The environment of one call: the answer of the transport to the
    [n]-th request it is handed, the outcome of the [n]-th [select] given
    the timer's duration, and the error of the context once it is done. *)
Record Env := {
  transport : nat -> Request -> Exchange;
  select : nat -> Z -> Select;
  ctxErr : ContextError
}.

(** What the engine did, latest first. *)
Inductive Event :=
| Sent (r : Request)
| Logged (msg : string) (apiErr : APIError) (delay : Z)
| TimerStarted (d : Z)
| TimerFired
| TimerStopped.

Record World := {
  requests : nat;
  waits : nat;
  waited : Z;
  journal : list Event
}.

Definition start : World :=
  {| requests := 0; waits := 0; waited := 0; journal := [] |}.

Definition record (ev : Event) (w : World) : World :=
  {| requests := requests w; waits := waits w; waited := waited w;
     journal := ev :: journal w |}.

(** Handing a request to the transport. *)
Definition send (r : Request) (w : World) : World :=
  {| requests := S (requests w); waits := waits w; waited := waited w;
     journal := Sent r :: journal w |}.

(** Leaving a [select] after [t] nanoseconds. *)
Definition wait (t : Z) (ev : Event) (w : World) : World :=
  {| requests := requests w; waits := S (waits w); waited := waited w + t;
     journal := ev :: journal w |}.

(** ** The request engine (request.go) *)

(** [version] is the tagged version of the repository. *)
Definition version : string := "dev".

Record clientRequest := {
  method : string;
  url : string;
  body : string;
  errorOnNoContent : bool
}.

(** The error synthesised for a 204 when the request asks for it. *)
Definition noContentError (status : Z) : APIError :=
  {| Code := "no_content"; Message := "No content"; StatusCode := status;
     RawMessage := []; retryAfter := 0 |}.

(** [&APIError{StatusCode: status}]. *)
Definition bareError (status : Z) : APIError :=
  {| Code := EmptyString; Message := EmptyString; StatusCode := status;
     RawMessage := []; retryAfter := 0 |}.

(** The default written into [retryAfter]; the source comments it as
    a sensible default for retrying, in milliseconds. *)
Definition defaultRetryAfter : Z := 1000.

(** Lines 143 to 151 of [_doRequest]: the delay of an error response. *)
Definition retryAfterOf (status : Z) (header : Header) : Z :=
  if status =? StatusTooManyRequests then
    let retryAfterRaw := Header_Get header "Retry-After" in
    if negb (String.eqb retryAfterRaw EmptyString) then
      match strconv.Atoi retryAfterRaw with
      | Some n => if 0 <? n then n else defaultRetryAfter
      | None => defaultRetryAfter
      end
    else defaultRetryAfter
  else defaultRetryAfter.

Section Engine.

(** The type behind the caller's output slot [v]. *)
Context {V : Type}.

(** [json.Unmarshal] of a body into the envelope whose field [error] points
    at [errorResponse]: the text of its error, or [errorResponse] as the
    decoder leaves it. *)
Variable unmarshalEnvelope : list Byte.byte -> APIError -> string + APIError.

(** [json.Unmarshal] of a body into the output slot: the slot as the decoder
    leaves it, and the text of its error if it has one. *)
Variable unmarshalValue : list Byte.byte -> V -> V * option string.

(** What [http.NewRequestWithContext] objects to in a method and a URL. *)
Variable newRequestError : string -> string -> option string.

Variable env : Env.

Definition toHTTPRequest (cr : clientRequest) : error + Request :=
  match newRequestError (method cr) (url cr) with
  | Some msg => inl (ErrForeign msg)
  | None =>
      let h := Header_Set ∅ "User-Agent"
                 ("terraform-provider-vercel/" +:+ version) in
      let h := if negb (String.eqb (body cr) EmptyString)
               then Header_Set h "Content-Type" "application/json"
               else h in
      inr {| Method := method cr; URL := url cr; Body := body cr; Hdr := h |}
  end.

(** Lines 125 to 153 of [_doRequest]: the error for a response whose status
    is 300 or more. *)
Definition errorFromResponse (status : Z) (header : Header)
    (responseBody : list Byte.byte) : error :=
  if String.eqb (string_of_list_byte responseBody) EmptyString then
    ErrAPI (bareError status)
  else
    match unmarshalEnvelope responseBody (bareError 0) with
    | inl msg =>
        Errorf ("error unmarshaling response for status code " +:+ itoa status)
               (ErrForeign msg)
    | inr errorResponse =>
        ErrAPI {| Code := Code errorResponse;
                  Message := Message errorResponse;
                  StatusCode := status;
                  RawMessage := responseBody;
                  retryAfter := retryAfterOf status header |}
    end.

(** Line 113 of [_doRequest]: the request with the bearer token added. *)
Definition authorize (c : Client) (req : Request) : Request :=
  {| Method := Method req; URL := URL req; Body := Body req;
     Hdr := Header_Add (Hdr req) "Authorization" ("Bearer " +:+ token c) |}.

(** [_doRequest]: the result is the error (nil is [None]), the output slot
    (nil is [None]) as the call leaves it, and the world.  The shared
    [http.Client] that [c.http()] creates on first use, with its timeout of
    five minutes, is part of the transport of the environment. *)
Definition _doRequest (c : Client) (req : Request) (v : option V)
    (errorOnNoContent : bool) (w : World) : option error * option V * World :=
  let req := authorize c req in
  let w' := send req w in
  match transport env (requests w) req with
  | DoFails msg =>
      (Some (Errorf "error doing http request" (ErrForeign msg)), v, w')
  | ReadFails msg =>
      (Some (Errorf "error reading response body" (ErrForeign msg)), v, w')
  | Responds status header responseBody =>
      if 300 <=? status then
        (Some (errorFromResponse status header responseBody), v, w')
      else
        match v with
        | None => (None, v, w')
        | Some slot =>
            if errorOnNoContent && (status =? StatusNoContent) then
              (Some (ErrAPI (noContentError status)), v, w')
            else
              match unmarshalValue responseBody slot with
              | (slot', Some msg) =>
                  (Some (Errorf ("error unmarshaling response "
                                   +:+ string_of_list_byte responseBody)
                                (ErrForeign msg)),
                   Some slot', w')
              | (slot', None) => (None, Some slot', w')
              end
        end
  end.

(** The condition of the [if] in the loop of [doRequest]: the API error to
    retry after, if [err] is one. *)
Definition rateLimited (err : option error) : option APIError :=
  match err with
  | None => None
  | Some err' =>
      match errors_As err' with
      | Some apiErr =>
          if (StatusCode apiErr =? StatusTooManyRequests)
             && (0 <? retryAfter apiErr)
             && (retryAfter apiErr <? 5 * 60)
          then Some apiErr
          else None
      | None => None
      end
  end.

(** The loop of [doRequest] with [budget] iterations left, that is with
    [retries = 3 - budget].  [err] is the variable declared before the loop.
    Inside the [if], [r, err := req.toHTTPRequest()] declares a second [err]
    whose scope is that block ([err'] here): the result of the retry is
    assigned to it, and the [err] that the loop tests and that the function
    returns at its end keeps the value it had before the loop. *)
Fixpoint retryLoop (budget : nat) (c : Client) (req : clientRequest)
    (err : option error) (v : option V) (w : World)
    : option error * option V * World :=
  match budget with
  | O => (err, v, w)
  | S budget' =>
      match rateLimited err with
      | Some apiErr =>
          let d := time.seconds (retryAfter apiErr) in
          let w := record (Logged "Rate limit was hit" apiErr
                             (retryAfter apiErr)) w in
          let w := record (TimerStarted d) w in
          match select env (waits w) d with
          | DoneWins t =>
              (Some (ErrContext (ctxErr env)), v, wait t TimerStopped w)
          | TimerWins =>
              let w := wait d TimerFired w in
              match toHTTPRequest req with
              | inl err' => (Some err', v, w)
              | inr r =>
                  match _doRequest c r v (errorOnNoContent req) w with
                  | (None, v, w) => (None, v, w)
                  | (Some err', v, w) => retryLoop budget' c req err v w
                  end
              end
          end
      | None => (err, v, w)
      end
  end.

(** [doRequest]: one attempt, then the loop with [retries] from 0 to 2. *)
Definition doRequest (c : Client) (req : clientRequest) (v : option V)
    (w : World) : option error * option V * World :=
  let '(err, v, w) :=
    match toHTTPRequest req with
    | inl err => (Some err, v, w)
    | inr r => _doRequest c r v (errorOnNoContent req) w
    end in
  retryLoop 3 c req err v w.

End Engine.

(** ** Vocabulary of the properties *)

(** A character that needs no escaping in a path segment, or the percent
    sign of an escape. *)
Definition inert (c : ascii) : bool :=
  negb (net_url.shouldEscape c) || Ascii.eqb c "%".

(** The error is, or wraps, an API error with this status code and this raw
    body. *)
Definition carries (err : error) (status : Z) (raw : list Byte.byte) : Prop :=
  exists e, errors_As err = Some e /\ StatusCode e = status /\ RawMessage e = raw.

(** An exchange after which [_doRequest] returns an error whatever the output
    slot is: no response, no body, or a status of 300 or more. *)
Definition refuses (x : Exchange) : bool :=
  match x with
  | Responds status _ _ => 300 <=? status
  | DoFails _ | ReadFails _ => true
  end.

(** The world once the loop has logged the rate limit [apiErr] and started
    the timer for its delay. *)
Definition armed (apiErr : APIError) (w : World) : World :=
  record (TimerStarted (time.seconds (retryAfter apiErr)))
    (record (Logged "Rate limit was hit" apiErr (retryAfter apiErr)) w).

(** The three components of what the engine returns. *)
Definition errOf {V} (r : option error * option V * World) : option error :=
  fst (fst r).
Definition slotOf {V} (r : option error * option V * World) : option V :=
  snd (fst r).
Definition worldOf {V} (r : option error * option V * World) : World :=
  snd r.

(** The result holds the decoding of [responseBody] into [slot] and no API
    error. *)
Definition decodedWithoutAPIError {V}
    (unmarshalValue : list Byte.byte -> V -> V * option string)
    (responseBody : list Byte.byte) (slot : V)
    (r : option error * option V * World) : Prop :=
  slotOf r = Some (fst (unmarshalValue responseBody slot))
  /\ forall err, errOf r = Some err -> errors_As err = None.

(** ** Fixtures: a decoder, bodies and environments for the examples

    [encoding/json] is a parameter of the engine.  The examples instantiate
    it with a decoder that answers as [encoding/json] does on the bodies
    they use: the canonical error envelopes of [knownErrors], a team with an
    id, and the text [oops], which is not JSON. *)
Module Fixture.

Definition dq : string := String "034"%char EmptyString.

Definition quoted (s : string) : string := dq +:+ s +:+ dq.

(** The envelope [{ error: { code, message } }] as the API writes it. *)
Definition envelopeJSON (code message : string) : list Byte.byte :=
  list_byte_of_string
    ("{" +:+ quoted "error" +:+ ":{" +:+ quoted "code" +:+ ":" +:+ quoted code
     +:+ "," +:+ quoted "message" +:+ ":" +:+ quoted message +:+ "}}").

Definition knownErrors : list (string * string) :=
  [("rate_limited", "Too many requests");
   ("internal_server_error", "Something went wrong");
   ("not_found", "Team not found")].

Definition sameBytes (a b : list Byte.byte) : bool :=
  String.eqb (string_of_list_byte a) (string_of_list_byte b).

(** The text of the decoder's error for a body that is empty, and for one
    whose first character cannot begin a JSON value. *)
Definition rejection (b : list Byte.byte) : string :=
  match string_of_list_byte b with
  | EmptyString => "unexpected end of JSON input"
  | String c _ =>
      "invalid character '" +:+ String c "' looking for beginning of value"
  end.

Definition notJSON : string :=
  "invalid character 'o' looking for beginning of value".

Definition unmarshalEnvelope (b : list Byte.byte) (errorResponse : APIError)
    : string + APIError :=
  match find (fun cm => sameBytes b (envelopeJSON (fst cm) (snd cm)))
             knownErrors with
  | Some (code, message) =>
      inr {| Code := code; Message := message;
             StatusCode := StatusCode errorResponse;
             RawMessage := RawMessage errorResponse;
             retryAfter := retryAfter errorResponse |}
  | None => inl (rejection b)
  end.

(** The body [{ id: team_1 }]. *)
Definition teamJSON : list Byte.byte :=
  list_byte_of_string ("{" +:+ quoted "id" +:+ ":" +:+ quoted "team_1" +:+ "}").

Definition unmarshalValue (b : list Byte.byte) (slot : Team)
    : Team * option string :=
  if sameBytes b teamJSON then
    ({| ID := "team_1";
        SensitiveEnvironmentVariablePolicy :=
          SensitiveEnvironmentVariablePolicy slot |}, None)
  else (slot, Some (rejection b)).

(** Methods and URLs of the examples are well formed. *)
Definition newRequestError (method url : string) : option string := None.

Definition oops : list Byte.byte := list_byte_of_string "oops".

Definition rateLimited : list Byte.byte :=
  envelopeJSON "rate_limited" "Too many requests".

Definition serverError : list Byte.byte :=
  envelopeJSON "internal_server_error" "Something went wrong".

Definition retryAfterHeader (seconds : string) : Header :=
  {[ "Retry-After" := [seconds] ]}.

(** A 429 that asks to retry after [seconds]. *)
Definition tooManyRequests (seconds : string) : Exchange :=
  Responds 429 (retryAfterHeader seconds) rateLimited.

(** An environment whose transport gives the [n]-th answer of a script (and
    the last one from then on), whose context is done only where [done]
    says so, and whose context error is [Canceled]. *)
Definition scripted (answers : list Exchange) (last : Exchange)
    (done : nat -> Z -> Select) : Env :=
  {| transport := fun n _ => nth n answers last;
     select := done;
     ctxErr := Canceled |}.

Definition neverDone : nat -> Z -> Select := fun _ _ => TimerWins.

Definition client : Client := New "secret".

Definition getTeam : clientRequest :=
  {| method := "GET"; url := "https://api.vercel.com/v2/teams/team_1";
     body := EmptyString; errorOnNoContent := false |}.

Definition getSchema : clientRequest :=
  {| method := "GET";
     url := "https://api.vercel.com/v1/edge-config/ecfg_1/schema";
     body := EmptyString; errorOnNoContent := true |}.

Definition emptyTeam : Team :=
  {| ID := EmptyString; SensitiveEnvironmentVariablePolicy := None |}.

(** [doRequest] with the fixture decoder, from the initial world. *)
Definition run (e : Env) (req : clientRequest) (v : option Team)
    : option error * option Team * World :=
  doRequest unmarshalEnvelope unmarshalValue newRequestError e client req v
            start.

(** The executor with the fixture decoder. *)
Definition exec (e : Env) (r : Request) (v : option Team) (eo : bool)
    (w : World) : option error * option Team * World :=
  _doRequest unmarshalEnvelope unmarshalValue e client r v eo w.

(** The request [toHTTPRequest] builds for [cr]. *)
Definition httpRequest (cr : clientRequest) : Request :=
  {| Method := method cr; URL := url cr; Body := body cr;
     Hdr := Header_Set ∅ "User-Agent" "terraform-provider-vercel/dev" |}.

(** The API error of a 429 whose body is [rateLimited]. *)
Definition rateLimitError (delay : Z) : APIError :=
  {| Code := "rate_limited"; Message := "Too many requests";
     StatusCode := 429; RawMessage := rateLimited; retryAfter := delay |}.

(** The API error of a 500 whose body is [serverError]. *)
Definition serverErrorError : APIError :=
  {| Code := "internal_server_error"; Message := "Something went wrong";
     StatusCode := 500; RawMessage := serverError; retryAfter := 1000 |}.

(** Every answer is a 429, asking for 1, 2, 3 and then 4 seconds. *)
Definition growingDelays : Env :=
  scripted [tooManyRequests "1"; tooManyRequests "2"; tooManyRequests "3"]
           (tooManyRequests "4") neverDone.

(** A 429 asking for 1 second, then a 500 every time. *)
Definition limitedThenBroken : Env :=
  scripted [tooManyRequests "1"] (Responds 500 ∅ serverError) neverDone.

(** Every answer is a 429 with an error envelope and these headers. *)
Definition limitedWith (header : Header) : Env :=
  scripted [] (Responds 429 header rateLimited) neverDone.

(** A 429 asking for 2 seconds, then a 429 asking for 400 every time. *)
Definition limitedThenCeiling : Env :=
  scripted [tooManyRequests "2"] (tooManyRequests "400") neverDone.


Definition answering (x : Exchange) : Env := scripted [] x neverDone.

End Fixture.

(** ** What a call sent *)

(** The requests handed to the transport, latest first. *)
Fixpoint sentRequests (j : list Event) : list Request :=
  match j with
  | [] => []
  | Sent r :: rest => r :: sentRequests rest
  | _ :: rest => sentRequests rest
  end.

(** ** More fixtures *)
Module Sample.

(** Every answer is a 429 asking for 2 seconds; the context is cancelled in
    the second wait, half a second into it or when the timer is due if that
    is earlier. *)
Definition cancelledEarly : Env :=
  Fixture.scripted [] (Fixture.tooManyRequests "2")
    (fun n d => if (n =? 1)%nat then DoneWins (Z.min d 500000000)
                else TimerWins).

(** A 429 asking for 2 seconds, then the team. *)
Definition limitedThenFound : Env :=
  Fixture.scripted [Fixture.tooManyRequests "2"]
    (Responds 200 ∅ Fixture.teamJSON) Fixture.neverDone.

End Sample.

(** ** Templates whose placeholders are whole path segments *)

Definition slashLed (s : string) : bool :=
  match s with
  | String "/" _ => true
  | _ => false
  end.

(** Every literal between two placeholders begins with a slash; the literal
    after the last placeholder is free. *)
Fixpoint separated (segments : list string) : bool :=
  match segments with
  | [] => true
  | [_] => true
  | next :: rest => slashLed next && separated rest
  end.

(** ** The callers of the engine (client.go, team.go, edge_config.go,
    project_domain.go)

    A call of the client runs in a session: the world of the engine and the
    lines the call wrote to the logger of its context, latest first. *)

Inductive Level := LevelTrace | LevelInfo | LevelWarn.

Record LogLine := {
  level : Level;
  message : string;
  fields : list (string * string)
}.

Record Session := {
  net : World;
  logbook : list LogLine
}.

Definition tflog (l : Level) (msg : string) (fs : list (string * string))
    (s : Session) : Session :=
  {| net := net s;
     logbook := {| level := l; message := msg; fields := fs |} :: logbook s |}.

(** The session once the engine has left the world [w]. *)
Definition landed (w : World) (s : Session) : Session :=
  {| net := w; logbook := logbook s |}.

(** [WithTeam] stores the team in the client and returns the client. *)
Definition WithTeam (c : Client) (t : Team) : Client :=
  {| token := token c; team := t; baseURL := baseURL c |}.

Definition zeroTeam : Team :=
  {| ID := EmptyString; SensitiveEnvironmentVariablePolicy := None |}.

(** A slot type without values: the output slot of a call that passes nil. *)
Definition nilSlot (b : list Byte.byte) (slot : Empty_set)
    : Empty_set * option string :=
  match slot with end.

(** The lines that every caller with a team repeats: the query parameter
    teamId is added when the resolved team is not empty. *)
Definition scoped (c : Client) (u team' : string) : option string :=
  if negb (String.eqb (teamID c team') EmptyString)
  then fmt.Sprintf "%s?teamId=%s" [u; teamID c team']
  else Some u.

Module EdgeConfig.
Record t := { Slug : string; ID : string; TeamID : string }.
Definition zero : t :=
  {| Slug := EmptyString; ID := EmptyString; TeamID := EmptyString |}.
End EdgeConfig.

Module EdgeConfigSchema.
(** [Definition] holds any JSON value; nil is [None]. *)
Record t (J : Type) := {
  ID : string;
  Definition_ : option J;
  TeamID : string
}.
Arguments ID {J}.
Arguments Definition_ {J}.
Arguments TeamID {J}.
Definition zero {J : Type} : t J :=
  {| ID := EmptyString; Definition_ := None; TeamID := EmptyString |}.
End EdgeConfigSchema.

Module ProjectDomainResponse.
Record t := {
  Name : string;
  ProjectID : string;
  TeamID : string;
  Redirect : option string;
  RedirectStatusCode : option Z;
  GitBranch : option string
}.
Definition zero : t :=
  {| Name := EmptyString; ProjectID := EmptyString; TeamID := EmptyString;
     Redirect := None; RedirectStatusCode := None; GitBranch := None |}.
End ProjectDomainResponse.

(** The error [GetEdgeConfigSchema] returns for a schema that is not there. *)
Definition schemaNotFound : APIError :=
  {| Code := "not_found"; Message := "Edge Config Schema not found";
     StatusCode := 404; RawMessage := []; retryAfter := 0 |}.

Section API.

(** The decoded JSON values that a schema definition can hold. *)
Context {J : Type}.

Variable unmarshalEnvelope : list Byte.byte -> APIError -> string + APIError.
Variable newRequestError : string -> string -> option string.
Variable env : Env.

(** [json.Unmarshal] into each of the result types. *)
Variable unmarshalTeam : list Byte.byte -> Team -> Team * option string.
Variable unmarshalEdgeConfig :
  list Byte.byte -> EdgeConfig.t -> EdgeConfig.t * option string.
Variable unmarshalSchema :
  list Byte.byte -> EdgeConfigSchema.t J
  -> EdgeConfigSchema.t J * option string.
Variable unmarshalProjectDomain :
  list Byte.byte -> ProjectDomainResponse.t
  -> ProjectDomainResponse.t * option string.

(** [string(mustMarshal(request))] for a schema; [mustMarshal] is not among
    the sources. *)
Variable mustMarshalSchema : EdgeConfigSchema.t J -> string.

(** A call of [doRequest] with the address of a result as its output slot:
    the result, the error and the session afterwards. *)
Definition into {V : Type}
    (unmarshalValue : list Byte.byte -> V -> V * option string)
    (c : Client) (req : clientRequest) (zero : V) (s : Session)
    : V * option error * Session :=
  let '(err, slot, w) :=
    doRequest unmarshalEnvelope unmarshalValue newRequestError env c req
              (Some zero) (net s) in
  (default zero slot, err, landed w s).

(** A call of [doRequest] with nil as its output slot. *)
Definition discarding (c : Client) (req : clientRequest) (s : Session)
    : option error * Session :=
  let '(err, _, w) :=
    doRequest unmarshalEnvelope nilSlot newRequestError env c req None
              (net s) in
  (err, landed w s).

(** [GetTeam] returns information about an existing team. *)
Definition GetTeam (c : Client) (idOrSlug : string) (s : Session)
    : option (Team * option error * Session) :=
  u ← makeURL c "/v2/teams/%s" [idOrSlug];
  let s := tflog LevelInfo "getting team" [("url", u)] s in
  Some (into unmarshalTeam c
          {| method := "GET"; url := u; body := EmptyString;
             errorOnNoContent := false |} zeroTeam s).

(** [DeleteTeam] deletes an existing team. *)
Definition DeleteTeam (c : Client) (team' : string) (s : Session)
    : option (option error * Session) :=
  u ← makeURL c "/v1/teams/%s" [team'];
  let s := tflog LevelInfo "deleting team" [("url", u)] s in
  Some (discarding c
          {| method := "DELETE"; url := u; body := EmptyString;
             errorOnNoContent := false |} s).

(** The method [Team] of the client: the team of the given id, or the team
    configured on the client when the id is empty. *)
Definition Client_Team (c : Client) (team' : string) (s : Session)
    : option (Team * option error * Session) :=
  if negb (String.eqb team' EmptyString) then GetTeam c team' s
  else Some (team c, None, s).

Definition GetEdgeConfig (c : Client) (id team' : string) (s : Session)
    : option (EdgeConfig.t * option error * Session) :=
  u ← makeURL c "/v1/edge-config/%s" [id];
  u ← scoped c u team';
  let s := tflog LevelInfo "reading edge config" [("url", u)] s in
  Some (into unmarshalEdgeConfig c
          {| method := "GET"; url := u; body := EmptyString;
             errorOnNoContent := false |} EdgeConfig.zero s).

Definition DeleteEdgeConfig (c : Client) (id team' : string) (s : Session)
    : option (option error * Session) :=
  u ← makeURL c "/v1/edge-config/%s" [id];
  u ← scoped c u team';
  let s := tflog LevelInfo "deleting edge config" [("url", u)] s in
  Some (discarding c
          {| method := "DELETE"; url := u; body := EmptyString;
             errorOnNoContent := false |} s).

Definition UpsertEdgeConfigSchema (c : Client)
    (request : EdgeConfigSchema.t J) (s : Session)
    : option (EdgeConfigSchema.t J * option error * Session) :=
  u ← makeURL c "/v1/edge-config/%s/schema" [EdgeConfigSchema.ID request];
  u ← scoped c u (EdgeConfigSchema.TeamID request);
  let payload := mustMarshalSchema request in
  let s := tflog LevelInfo "creating edge config schema"
             [("url", u); ("payload", payload)] s in
  let '(e, err, s) :=
    into unmarshalSchema c
      {| method := "POST"; url := u; body := payload;
         errorOnNoContent := false |} EdgeConfigSchema.zero s in
  Some ({| EdgeConfigSchema.ID := EdgeConfigSchema.ID request;
           EdgeConfigSchema.Definition_ := EdgeConfigSchema.Definition_ e;
           EdgeConfigSchema.TeamID :=
             teamID c (EdgeConfigSchema.TeamID request) |},
        err, s).

Definition GetEdgeConfigSchema (c : Client) (id team' : string) (s : Session)
    : option (EdgeConfigSchema.t J * option error * Session) :=
  u ← makeURL c "/v1/edge-config/%s/schema" [id];
  u ← scoped c u team';
  let s := tflog LevelInfo "getting edge config schema" [("url", u)] s in
  let '(e, err, s) :=
    into unmarshalSchema c
      {| method := "GET"; url := u; body := EmptyString;
         errorOnNoContent := true |} EdgeConfigSchema.zero s in
  if noContent err then Some (e, Some (ErrAPI schemaNotFound), s)
  else
    Some ({| EdgeConfigSchema.ID := id;
             EdgeConfigSchema.Definition_ := EdgeConfigSchema.Definition_ e;
             EdgeConfigSchema.TeamID := teamID c team' |},
          err, s).

Definition DeleteEdgeConfigSchema (c : Client) (id team' : string)
    (s : Session) : option (option error * Session) :=
  u ← makeURL c "/v1/edge-config/%s/schema" [id];
  u ← scoped c u team';
  let s := tflog LevelInfo "deleting edge config schema" [("url", u)] s in
  Some (discarding c
          {| method := "DELETE"; url := u; body := EmptyString;
             errorOnNoContent := false |} s).

(** [GetProjectDomain] retrieves information about a project domain. *)
Definition GetProjectDomain (c : Client) (projectID domain team' : string)
    (s : Session) : option (ProjectDomainResponse.t * option error * Session) :=
  u ← makeURL c "/v8/projects/%s/domains/%s" [projectID; domain];
  u ← scoped c u team';
  let s := tflog LevelInfo "getting project domain" [("url", u)] s in
  let '(r, err, s) :=
    into unmarshalProjectDomain c
      {| method := "GET"; url := u; body := EmptyString;
         errorOnNoContent := false |} ProjectDomainResponse.zero s in
  Some ({| ProjectDomainResponse.Name := ProjectDomainResponse.Name r;
           ProjectDomainResponse.ProjectID :=
             ProjectDomainResponse.ProjectID r;
           ProjectDomainResponse.TeamID := teamID c team';
           ProjectDomainResponse.Redirect := ProjectDomainResponse.Redirect r;
           ProjectDomainResponse.RedirectStatusCode :=
             ProjectDomainResponse.RedirectStatusCode r;
           ProjectDomainResponse.GitBranch :=
             ProjectDomainResponse.GitBranch r |},
        err, s).

(** [DeleteProjectDomain] removes the association of a domain name with a
    project. *)
Definition DeleteProjectDomain (c : Client) (projectID domain team' : string)
    (s : Session) : option (option error * Session) :=
  u ← makeURL c "/v8/projects/%s/domains/%s" [projectID; domain];
  u ← scoped c u team';
  let s := tflog LevelInfo "deleting project domain" [("url", u)] s in
  Some (discarding c
          {| method := "DELETE"; url := u; body := EmptyString;
             errorOnNoContent := false |} s).

End API.

(** The request [toHTTPRequest] builds when the method and the URL are
    accepted. *)
Definition requestOf (cr : clientRequest) : Request :=
  {| Method := method cr; URL := url cr; Body := body cr;
     Hdr := if negb (String.eqb (body cr) EmptyString)
            then Header_Set
                   (Header_Set ∅ "User-Agent"
                      ("terraform-provider-vercel/" +:+ version))
                   "Content-Type" "application/json"
            else Header_Set ∅ "User-Agent"
                   ("terraform-provider-vercel/" +:+ version) |}.

(** What [scoped] appends to a URL. *)
Definition teamQuery (c : Client) (team' : string) : string :=
  if String.eqb (teamID c team') EmptyString then EmptyString
  else "?teamId=" +:+ teamID c team'.

(** ** strings.Split for a separator of one byte

    Go's standard library: the substrings between the separators, one more
    than there are separators. *)
Module strings.

Fixpoint SplitByte (sep : ascii) (s : string) : list string :=
  match s with
  | EmptyString => [EmptyString]
  | String c rest =>
      if Ascii.eqb c sep then EmptyString :: SplitByte sep rest
      else
        match SplitByte sep rest with
        | first :: others => String c first :: others
        | [] => [String c EmptyString]
        end
  end.

(** [strings.Join] with a separator of one byte. *)
Fixpoint JoinByte (sep : ascii) (parts : list string) : string :=
  match parts with
  | [] => EmptyString
  | [p] => p
  | p :: rest => p +:+ String sep (JoinByte sep rest)
  end.

End strings.

Fixpoint countChar (c : ascii) (s : string) : nat :=
  match s with
  | EmptyString => 0
  | String d rest => (if Ascii.eqb d c then 1 else 0) + countChar c rest
  end.

(** ** The import id of a shared environment variable
    (resource_shared_environment_variable.go) *)

(** [splitSharedEnvironmentVariableID] splits an import id into its parts and
    checks its format. *)
Definition splitSharedEnvironmentVariableID (id : string)
    : string * string * bool :=
  match strings.SplitByte "/" id with
  | [teamID'; envID] => (teamID', envID, true)
  | _ => (EmptyString, EmptyString, false)
  end.

(** ** Ignored files (package file) *)

Definition defaultIgnores : list string :=
  [".hg"; ".git"; ".gitmodules"; ".svn"; ".cache"; ".next"; ".now";
   ".vercel"; ".npmignore"; ".dockerignore"; ".gitignore"; ".*.swp";
   ".DS_Store"; ".wafpicke-*"; ".lock-wscript"; ".env.local";
   ".env.*.local"; ".venv"; "npm-debug.log"; "config.gypi"; "node_modules";
   "__pycache__"; "venv"; "CVS"; ".vercel_build_output"; ".terraform*";
   "*.tfstate"; "*.tfstate.backup"].

(** An open file as [GetIgnores] uses it: the tokens that the scanner
    yields until [Scan] returns false, the error the scanner stopped on, if
    any, and the error of [Close], if any. *)
Record IgnoreFile := {
  tokens : list string;
  scanErr : option string;
  closeErr : option string
}.

(** What [os.Open] gives: an error that is [fs.ErrNotExist], another error,
    or the file. *)
Inductive OpenResult :=
| NotExist
| OpenFails (msg : string)
| Opened (f : IgnoreFile).

Section Ignores.

(** [filepath.Join] and [os.Open]. *)
Variable filepath_Join : string -> string -> string.
Variable os_Open : string -> OpenResult.

(** [GetIgnores] parses the .vercelignore file of a directory and combines
    it with the default set of ignored files.  The result is the list (nil
    is the empty list), the error, and the lines logged. *)
Definition GetIgnores (path : string)
    : list string * option error * list LogLine :=
  let ignoreFilePath := filepath_Join path ".vercelignore" in
  match os_Open ignoreFilePath with
  | NotExist => (defaultIgnores, None, [])
  | OpenFails msg =>
      ([], Some (Errorf "unable to read .vercelignore file" (ErrForeign msg)),
       [])
  | Opened f =>
      let ignores :=
        fold_left (fun ignores text => ignores ++ [text]) (tokens f) [] in
      let ignores := ignores ++ defaultIgnores in
      (ignores, None,
       match closeErr f with
       | Some msg =>
           [{| level := LevelWarn; message := "error closing file";
               fields := [("error", msg); ("filename", ignoreFilePath)] |}]
       | None => []
       end)
  end.

End Ignores.

(** ** Fixtures for the callers *)
Module Scene.

Definition session : Session := {| net := start; logbook := [] |}.

(** Decoders that leave the result as it is; the scenes below answer with
    bodies that are never decoded. *)
Definition unmarshalSchema (b : list Byte.byte) (e : EdgeConfigSchema.t unit)
    : EdgeConfigSchema.t unit * option string :=
  (e, Some (Fixture.rejection b)).

Definition unmarshalProjectDomain (b : list Byte.byte)
    (r : ProjectDomainResponse.t)
    : ProjectDomainResponse.t * option string :=
  (r, Some (Fixture.rejection b)).

(** The world after the first request for the team. *)
Definition afterFirst : World :=
  send (authorize Fixture.client (Fixture.httpRequest Fixture.getTeam)) start.

Definition team1 : Team :=
  {| ID := "team_1"; SensitiveEnvironmentVariablePolicy := None |}.

End Scene.

(** ** The provider's view of a shared environment variable
    (resource_shared_environment_variable.go)

    The values of the plugin framework that the resource handles: an
    attribute is null, unknown or known. *)
Module types.

Inductive String_ := StringNull | StringUnknown | StringValue (s : string).

(** [ValueString] is the empty string for a null or unknown value. *)
Definition ValueString (x : String_) : string :=
  match x with
  | StringValue s => s
  | StringNull | StringUnknown => EmptyString
  end.

Inductive Bool_ := BoolNull | BoolUnknown | BoolValue (b : bool).

(** [ValueBool] is false for a null or unknown value. *)
Definition ValueBool (x : Bool_) : bool :=
  match x with
  | BoolValue b => b
  | BoolNull | BoolUnknown => false
  end.

Definition IsNull (x : Bool_) : bool :=
  match x with BoolNull => true | _ => false end.

Definition IsUnknown (x : Bool_) : bool :=
  match x with BoolUnknown => true | _ => false end.

(** A set of strings, by its elements in the order they were given. *)
Inductive Set_ := SetNull | SetUnknown | SetValue (elems : list String_).

End types.

(** Diagnostics of the plugin framework. *)
Module diag.

Inductive Severity := SeverityError | SeverityWarning.

Record Diagnostic := {
  severity : Severity;
  summary : string;
  detail : string;
  attribute : option string
}.

Definition isError (d : Diagnostic) : bool :=
  match severity d with SeverityError => true | SeverityWarning => false end.

(** [Diagnostics.HasError]. *)
Definition HasError (ds : list Diagnostic) : bool := existsb isError ds.

Definition Equal (a b : Diagnostic) : bool :=
  match severity a, severity b with
  | SeverityError, SeverityError | SeverityWarning, SeverityWarning =>
      String.eqb (summary a) (summary b)
      && String.eqb (detail a) (detail b)
      && match attribute a, attribute b with
         | Some p, Some q => String.eqb p q
         | None, None => true
         | _, _ => false
         end
  | _, _ => false
  end.

(** [Diagnostics.Append] leaves out a diagnostic that is already there. *)
Definition Append (ds new : list Diagnostic) : list Diagnostic :=
  fold_left (fun acc d => if existsb (Equal d) acc then acc else acc ++ [d])
            new ds.

Definition AddError (ds : list Diagnostic) (summary' detail' : string)
    : list Diagnostic :=
  Append ds [{| severity := SeverityError; summary := summary';
                detail := detail'; attribute := None |}].

Definition AddAttributeError (ds : list Diagnostic) (path : string)
    (summary' detail' : string) : list Diagnostic :=
  Append ds [{| severity := SeverityError; summary := summary';
                detail := detail'; attribute := Some path |}].

End diag.

Module SharedEnvironmentVariable.
Record t := {
  Target : types.Set_;
  Key : types.String_;
  Value : types.String_;
  TeamID : types.String_;
  ProjectIDs : types.Set_;
  ID : types.String_;
  Sensitive : types.Bool_
}.
End SharedEnvironmentVariable.

(** The request and response types of the client for these variables, as
    the resource uses their fields. *)
Module SharedEnvVarRequest.
Record t := { Key : string; Value : string }.
End SharedEnvVarRequest.

Module SharedEnvironmentVariableRequest.
Record t := {
  Target : list string;
  Type_ : string;
  ProjectIDs : list string;
  EnvironmentVariables : list SharedEnvVarRequest.t
}.
Definition zero : t :=
  {| Target := []; Type_ := EmptyString; ProjectIDs := [];
     EnvironmentVariables := [] |}.
End SharedEnvironmentVariableRequest.

Module CreateSharedEnvironmentVariableRequest.
Record t := {
  EnvironmentVariable : SharedEnvironmentVariableRequest.t;
  TeamID : string
}.
Definition zero : t :=
  {| EnvironmentVariable := SharedEnvironmentVariableRequest.zero;
     TeamID := EmptyString |}.
End CreateSharedEnvironmentVariableRequest.

Module UpdateSharedEnvironmentVariableRequest.
Record t := {
  Value : string;
  Target : list string;
  Type_ : string;
  TeamID : string;
  EnvID : string;
  ProjectIDs : list string
}.
Definition zero : t :=
  {| Value := EmptyString; Target := []; Type_ := EmptyString;
     TeamID := EmptyString; EnvID := EmptyString; ProjectIDs := [] |}.
End UpdateSharedEnvironmentVariableRequest.

Module SharedEnvironmentVariableResponse.
Record t := {
  Target : list string;
  ProjectIDs : list string;
  Value : string;
  Type_ : string;
  Key : string;
  TeamID : string;
  ID : string
}.
End SharedEnvironmentVariableResponse.

(** What the plan of a [ModifyPlan] request gives: whether its raw value is
    null, and the diagnostics and the value of [Plan.Get]. *)
Record PlanRequest := {
  rawIsNull : bool;
  planGet : list diag.Diagnostic * SharedEnvironmentVariable.t
}.

(** The error of [ModifyPlan] for a team that forces sensitive variables. *)
Definition policyViolation : diag.Diagnostic :=
  {| diag.severity := diag.SeverityError;
     diag.summary := "Shared Environment Variable Invalid";
     diag.detail :=
       "This team has a policy that forces all environment variables to be sensitive. Please remove the `sensitive` field or set the `sensitive` field to `true` in your configuration.";
     diag.attribute := Some "sensitive" |}.

Section SharedEnvironmentVariables.

(** [Set.ElementsAs] into a slice of strings: its diagnostics and the slice
    it leaves. *)
Variable ElementsAs : types.Set_ -> list diag.Diagnostic * list string.

(** [toTeamID] is not among the sources. *)
Variable toTeamID : string -> types.String_.

(** The type sent for a variable: sensitive when the flag is known and
    true, encrypted in every other case. *)
Definition envVariableType (sensitive : types.Bool_) : string :=
  if types.ValueBool sensitive then "sensitive" else "encrypted".

Definition toCreateSharedEnvironmentVariableRequest
    (e : SharedEnvironmentVariable.t) (diags : list diag.Diagnostic)
    : CreateSharedEnvironmentVariableRequest.t * bool :=
  let '(ds, target) := ElementsAs (SharedEnvironmentVariable.Target e) in
  let diags := diags ++ ds in
  if diag.HasError diags
  then (CreateSharedEnvironmentVariableRequest.zero, false)
  else
    let '(ds, projectIDs) :=
      ElementsAs (SharedEnvironmentVariable.ProjectIDs e) in
    let diags := diags ++ ds in
    if diag.HasError diags
    then (CreateSharedEnvironmentVariableRequest.zero, false)
    else
      ({| CreateSharedEnvironmentVariableRequest.EnvironmentVariable :=
            {| SharedEnvironmentVariableRequest.Target := target;
               SharedEnvironmentVariableRequest.Type_ :=
                 envVariableType (SharedEnvironmentVariable.Sensitive e);
               SharedEnvironmentVariableRequest.ProjectIDs := projectIDs;
               SharedEnvironmentVariableRequest.EnvironmentVariables :=
                 [{| SharedEnvVarRequest.Key :=
                       types.ValueString (SharedEnvironmentVariable.Key e);
                     SharedEnvVarRequest.Value :=
                       types.ValueString
                         (SharedEnvironmentVariable.Value e) |}] |};
          CreateSharedEnvironmentVariableRequest.TeamID :=
            types.ValueString (SharedEnvironmentVariable.TeamID e) |},
       true).

Definition toUpdateSharedEnvironmentVariableRequest
    (e : SharedEnvironmentVariable.t) (diags : list diag.Diagnostic)
    : UpdateSharedEnvironmentVariableRequest.t * bool :=
  let '(ds, target) := ElementsAs (SharedEnvironmentVariable.Target e) in
  let diags := diags ++ ds in
  if diag.HasError diags
  then (UpdateSharedEnvironmentVariableRequest.zero, false)
  else
    let '(ds, projectIDs) :=
      ElementsAs (SharedEnvironmentVariable.ProjectIDs e) in
    let diags := diags ++ ds in
    if diag.HasError diags
    then (UpdateSharedEnvironmentVariableRequest.zero, false)
    else
      ({| UpdateSharedEnvironmentVariableRequest.Value :=
            types.ValueString (SharedEnvironmentVariable.Value e);
          UpdateSharedEnvironmentVariableRequest.Target := target;
          UpdateSharedEnvironmentVariableRequest.Type_ :=
            envVariableType (SharedEnvironmentVariable.Sensitive e);
          UpdateSharedEnvironmentVariableRequest.TeamID :=
            types.ValueString (SharedEnvironmentVariable.TeamID e);
          UpdateSharedEnvironmentVariableRequest.EnvID :=
            types.ValueString (SharedEnvironmentVariable.ID e);
          UpdateSharedEnvironmentVariableRequest.ProjectIDs := projectIDs |},
       true).

(** [convertResponseToSharedEnvironmentVariable] populates the state from a
    response; where that is not possible, the value of the plan is used. *)
Definition convertResponseToSharedEnvironmentVariable
    (response : SharedEnvironmentVariableResponse.t) (v : types.String_)
    : SharedEnvironmentVariable.t :=
  let target :=
    fold_left (fun target t' => target ++ [types.StringValue t'])
              (SharedEnvironmentVariableResponse.Target response) [] in
  let projectIDs :=
    fold_left (fun projectIDs t' => projectIDs ++ [types.StringValue t'])
              (SharedEnvironmentVariableResponse.ProjectIDs response) [] in
  let value :=
    if String.eqb (SharedEnvironmentVariableResponse.Type_ response)
                  "sensitive"
    then v
    else types.StringValue (SharedEnvironmentVariableResponse.Value response)
  in
  {| SharedEnvironmentVariable.Target := types.SetValue target;
     SharedEnvironmentVariable.Key :=
       types.StringValue (SharedEnvironmentVariableResponse.Key response);
     SharedEnvironmentVariable.Value := value;
     SharedEnvironmentVariable.TeamID :=
       toTeamID (SharedEnvironmentVariableResponse.TeamID response);
     SharedEnvironmentVariable.ProjectIDs := types.SetValue projectIDs;
     SharedEnvironmentVariable.ID :=
       types.StringValue (SharedEnvironmentVariableResponse.ID response);
     SharedEnvironmentVariable.Sensitive :=
       types.BoolValue
         (String.eqb (SharedEnvironmentVariableResponse.Type_ response)
                     "sensitive") |}.

End SharedEnvironmentVariables.

Section Plan.

Variable unmarshalEnvelope : list Byte.byte -> APIError -> string + APIError.
Variable newRequestError : string -> string -> option string.
Variable env : Env.
Variable unmarshalTeam : list Byte.byte -> Team -> Team * option string.

(** [ModifyPlan] of the shared environment variable: the diagnostics of the
    response and the session as the call leaves them. *)
Definition ModifyPlan (c : Client) (req : PlanRequest)
    (diagnostics : list diag.Diagnostic) (s : Session)
    : option (list diag.Diagnostic * Session) :=
  if rawIsNull req then Some (diagnostics, s)
  else
    let '(diags, config) := planGet req in
    let diagnostics := diag.Append diagnostics diags in
    if diag.HasError diagnostics then Some (diagnostics, s)
    else if negb (String.eqb
                    (types.ValueString (SharedEnvironmentVariable.ID config))
                    EmptyString)
    then Some (diagnostics, s)
    else if types.IsUnknown (SharedEnvironmentVariable.Sensitive config)
            || types.IsNull (SharedEnvironmentVariable.Sensitive config)
            || types.ValueBool (SharedEnvironmentVariable.Sensitive config)
    then Some (diagnostics, s)
    else
      '(team', err, s) ←
        Client_Team unmarshalEnvelope newRequestError env unmarshalTeam c
          (types.ValueString (SharedEnvironmentVariable.TeamID config)) s;
      match err with
      | Some err' =>
          Some (diag.AddError diagnostics
                  "Error validating shared environment variable"
                  ("Could not validate shared environment variable, unexpected error: "
                   +:+ Error err'),
                s)
      | None =>
          match SensitiveEnvironmentVariablePolicy team' with
          | Some policy =>
              if negb (String.eqb policy "on") then Some (diagnostics, s)
              else
                Some (diag.Append diagnostics [policyViolation], s)
          | None => Some (diagnostics, s)
          end
      end.

End Plan.

(** Fixtures for the resource. *)
Module Plans.

(** A set converts to its known elements; a set that is null or unknown, or
    holds a null or unknown element, gives an error. *)
Definition conversionError : diag.Diagnostic :=
  {| diag.severity := diag.SeverityError;
     diag.summary := "Value Conversion Error";
     diag.detail := "unhandled null or unknown value";
     diag.attribute := None |}.

Fixpoint known (elems : list types.String_) : option (list string) :=
  match elems with
  | [] => Some []
  | types.StringValue s :: rest => option_map (cons s) (known rest)
  | _ :: _ => None
  end.

Definition ElementsAs (x : types.Set_) : list diag.Diagnostic * list string :=
  match x with
  | types.SetValue elems =>
      match known elems with
      | Some l => ([], l)
      | None => ([conversionError], [])
      end
  | types.SetNull => ([], [])
  | types.SetUnknown => ([conversionError], [])
  end.

Definition toTeamID (v : string) : types.String_ :=
  if String.eqb v EmptyString then types.StringNull else types.StringValue v.

(** A new variable for production whose plan says it is not sensitive. *)
Definition plain (team' : string) : SharedEnvironmentVariable.t :=
  {| SharedEnvironmentVariable.Target :=
       types.SetValue [types.StringValue "production"];
     SharedEnvironmentVariable.Key := types.StringValue "API_URL";
     SharedEnvironmentVariable.Value := types.StringValue "https://example.com";
     SharedEnvironmentVariable.TeamID :=
       if String.eqb team' EmptyString then types.StringNull
       else types.StringValue team';
     SharedEnvironmentVariable.ProjectIDs :=
       types.SetValue [types.StringValue "prj_1"];
     SharedEnvironmentVariable.ID := types.StringUnknown;
     SharedEnvironmentVariable.Sensitive := types.BoolValue false |}.

(** The same variable, sensitive. *)
Definition secret : SharedEnvironmentVariable.t :=
  {| SharedEnvironmentVariable.Target :=
       types.SetValue [types.StringValue "production"];
     SharedEnvironmentVariable.Key := types.StringValue "API_TOKEN";
     SharedEnvironmentVariable.Value := types.StringValue "s3cr3t";
     SharedEnvironmentVariable.TeamID := types.StringNull;
     SharedEnvironmentVariable.ProjectIDs :=
       types.SetValue [types.StringValue "prj_1"];
     SharedEnvironmentVariable.ID := types.StringUnknown;
     SharedEnvironmentVariable.Sensitive := types.BoolValue true |}.

(** What the API answers for [secret]: the value is not given back. *)
Definition secretResponse : SharedEnvironmentVariableResponse.t :=
  {| SharedEnvironmentVariableResponse.Target := ["production"];
     SharedEnvironmentVariableResponse.ProjectIDs := ["prj_1"];
     SharedEnvironmentVariableResponse.Value := EmptyString;
     SharedEnvironmentVariableResponse.Type_ := "sensitive";
     SharedEnvironmentVariableResponse.Key := "API_TOKEN";
     SharedEnvironmentVariableResponse.TeamID := EmptyString;
     SharedEnvironmentVariableResponse.ID := "env_1" |}.

Definition strict : Team :=
  {| ID := "team_1"; SensitiveEnvironmentVariablePolicy := Some "on" |}.

Definition creating (config : SharedEnvironmentVariable.t) : PlanRequest :=
  {| rawIsNull := false; planGet := ([], config) |}.

End Plans.

(** ** Reading a data source (configurer.go, data_source_edge_config.go) *)

(** The provider's model of an Edge Config, by the attributes of the data
    source: the name, the id and the team. *)
Module EdgeConfigModel.
Record t := {
  Name : types.String_;
  ID : types.String_;
  TeamID : types.String_
}.
(** [EdgeConfig{}]: the zero value of an attribute is null. *)
Definition zero : t :=
  {| Name := types.StringNull; ID := types.StringNull;
     TeamID := types.StringNull |}.
End EdgeConfigModel.

(** A read request gives the diagnostics and the value of [Config.Get]. *)
Record ReadRequest (T : Type) := { configGet : list diag.Diagnostic * T }.
Arguments configGet {T}.

(** A read response: its diagnostics, and the values handed to [State.Set],
    latest first. *)
Record ReadResponse (T : Type) := {
  Diagnostics : list diag.Diagnostic;
  stateSets : list T
}.
Arguments Diagnostics {T}.
Arguments stateSets {T}.

Definition reporting {T} (resp : ReadResponse T) (ds : list diag.Diagnostic)
    : ReadResponse T :=
  {| Diagnostics := diag.Append (Diagnostics resp) ds;
     stateSets := stateSets resp |}.

(** [resp.State.Set(ctx, result)] followed by the append of its
    diagnostics. *)
Definition setting {T} (stateSet : T -> list diag.Diagnostic)
    (resp : ReadResponse T) (result : T) : ReadResponse T :=
  {| Diagnostics := diag.Append (Diagnostics resp) (stateSet result);
     stateSets := result :: stateSets resp |}.

(** The detail of the error for an Edge Config that could not be read. *)
Definition couldNotGetEdgeConfig (team' id : string) (err : error) : string :=
  default EmptyString
    (fmt.Sprintf "Could not get Edge Config %s %s, unexpected error: %s"
       [team'; id; Error err]).

(** A call returns, or it panics with the runtime error of a nil pointer
    dereference. *)
Inductive Run (A : Type) := Returns (a : A) | Panics.
Arguments Returns {A}.
Arguments Panics {A}.

(** [ProviderData], a value of any type, as [Configure] tells its values
    apart: nil; a [*client.Client], where [None] is the nil pointer; a value
    of another type, by the name of that type. *)
Inductive ProviderData :=
  | NoData
  | ClientPointer (c : option Client)
  | OtherData (typeName : string).

(** [dataSourceConfigurer] (configurer.go); a nil [client] is [None]. *)
Module dataSourceConfigurer.

Record t := {
  client : option Client;
  dataSourceNameSuffix : string
}.

Definition Metadata (d : t) (providerTypeName : string) : string :=
  providerTypeName +:+ dataSourceNameSuffix d.

(** [Configure]: the verb [%T] prints the name of the type. *)
Definition Configure (d : t) (providerData : ProviderData)
    (diagnostics : list diag.Diagnostic) : t * list diag.Diagnostic :=
  match providerData with
  | NoData => (d, diagnostics)
  | ClientPointer c =>
      ({| client := c; dataSourceNameSuffix := dataSourceNameSuffix d |},
       diagnostics)
  | OtherData typeName =>
      (d,
       diag.AddError diagnostics "Unexpected Data Source Configure Type"
         ("Expected *client.Client, got: " +:+ typeName
          +:+ ". Please report this issue to the provider developers."))
  end.

End dataSourceConfigurer.

(** [reader[T]] (configurer.go): a client of its own, nil for [None], and
    the function that fetches and maps. *)
Module reader.

Record t (T : Type) := {
  client : option Client;
  readFunc :
    T -> option Client -> ReadResponse T -> Session
    -> option (Run (T * option error * ReadResponse T * Session))
}.
Arguments client {T}.
Arguments readFunc {T}.

(** [Read]: [readFunc] is given [r.client], the client of the reader. *)
Definition Read {T : Type} (stateSet : T -> list diag.Diagnostic) (r : t T)
    (req : ReadRequest T) (resp : ReadResponse T) (s : Session)
    : option (Run (ReadResponse T * Session)) :=
  let '(diags, config) := configGet req in
  let resp := reporting resp diags in
  if diag.HasError (Diagnostics resp) then Some (Returns (resp, s))
  else
    out ← readFunc r config (client r) resp s;
    match out with
    | Panics => Some Panics
    | Returns (result, Some _, resp, s) => Some (Returns (resp, s))
    | Returns (result, None, resp, s) =>
        Some (Returns (setting stateSet resp result, s))
    end.

End reader.

Section ThroughAPointer.

Variable unmarshalEnvelope : list Byte.byte -> APIError -> string + APIError.
Variable newRequestError : string -> string -> option string.
Variable env : Env.
Variable unmarshalEdgeConfig :
  list Byte.byte -> EdgeConfig.t -> EdgeConfig.t * option string.

(** [c.GetEdgeConfig(...)] for a pointer [c].  The first use the method
    makes of its receiver is [c.baseURL], in [makeURL], before any log line
    or request: there a nil pointer panics. *)
Definition GetEdgeConfig_through (c : option Client) (id team' : string)
    (s : Session) : option (Run (EdgeConfig.t * option error * Session)) :=
  match c with
  | None => Some Panics
  | Some c =>
      Returns <$>
        GetEdgeConfig unmarshalEnvelope newRequestError env
          unmarshalEdgeConfig c id team' s
  end.

End ThroughAPointer.

(** The Edge Config data source that is built on [reader]
    (data_source_edge_config.go, with [reader]). *)
Module ReaderBased.

(** [edgeConfigDataSource] embeds a [*dataSourceConfigurer] and a
    [*reader[EdgeConfig]], two objects. *)
Record edgeConfigDataSource := {
  configurer : dataSourceConfigurer.t;
  reader_ : reader.t EdgeConfigModel.t
}.

Section WithEnv.

Variable unmarshalEnvelope : list Byte.byte -> APIError -> string + APIError.
Variable newRequestError : string -> string -> option string.
Variable env : Env.
Variable unmarshalEdgeConfig :
  list Byte.byte -> EdgeConfig.t -> EdgeConfig.t * option string.

(** [responseToEdgeConfig] is not among the sources. *)
Variable responseToEdgeConfig : EdgeConfig.t -> EdgeConfigModel.t.

(** The diagnostics of [State.Set] for a value. *)
Variable stateSet : EdgeConfigModel.t -> list diag.Diagnostic.

(** The [readFunc] that [newEdgeConfigDataSource] gives to its reader. *)
Definition readFunc (config : EdgeConfigModel.t) (c : option Client)
    (resp : ReadResponse EdgeConfigModel.t) (s : Session)
    : option (Run (EdgeConfigModel.t * option error
                   * ReadResponse EdgeConfigModel.t * Session)) :=
  out ←
    GetEdgeConfig_through unmarshalEnvelope newRequestError env
      unmarshalEdgeConfig c
      (types.ValueString (EdgeConfigModel.ID config))
      (types.ValueString (EdgeConfigModel.TeamID config)) s;
  match out with
  | Panics => Some Panics
  | Returns (out, Some err, s) =>
      Some (Returns
              (EdgeConfigModel.zero, None,
               {| Diagnostics :=
                    diag.AddError (Diagnostics resp)
                      "Error reading EdgeConfig"
                      (couldNotGetEdgeConfig
                         (types.ValueString (EdgeConfigModel.TeamID config))
                         (types.ValueString (EdgeConfigModel.ID config))
                         err);
                  stateSets := stateSets resp |},
               s))
  | Returns (out, None, s) =>
      let result := responseToEdgeConfig out in
      let s :=
        tflog LevelInfo "read edge config"
          [("team_id", types.ValueString (EdgeConfigModel.TeamID result));
           ("edge_config_id", types.ValueString (EdgeConfigModel.ID result))]
          s in
      Some (Returns (result, None, resp, s))
  end.

(** [newEdgeConfigDataSource]: the fields that the literals leave out are
    nil. *)
Definition newEdgeConfigDataSource : edgeConfigDataSource :=
  {| configurer :=
       {| dataSourceConfigurer.client := None;
          dataSourceConfigurer.dataSourceNameSuffix := "_edge_config" |};
     reader_ := {| reader.client := None; reader.readFunc := readFunc |} |}.

(** [Configure] is the method of the embedded [*dataSourceConfigurer]. *)
Definition Configure (ds : edgeConfigDataSource)
    (providerData : ProviderData) (diagnostics : list diag.Diagnostic)
    : edgeConfigDataSource * list diag.Diagnostic :=
  let '(d, diagnostics) :=
    dataSourceConfigurer.Configure (configurer ds) providerData diagnostics in
  ({| configurer := d; reader_ := reader_ ds |}, diagnostics).

(** [Read] is the method of the embedded [*reader[EdgeConfig]]. *)
Definition Read (ds : edgeConfigDataSource)
    (req : ReadRequest EdgeConfigModel.t)
    (resp : ReadResponse EdgeConfigModel.t) (s : Session)
    : option (Run (ReadResponse EdgeConfigModel.t * Session)) :=
  reader.Read stateSet (reader_ ds) req resp s.

End WithEnv.

End ReaderBased.

(** The Edge Config data source that reads by itself
    (data_source_edge_config.go, without [reader]). *)
Module Direct.

Record edgeConfigDataSource := {
  configurer : dataSourceConfigurer.t
}.

Definition newEdgeConfigDataSource : edgeConfigDataSource :=
  {| configurer :=
       {| dataSourceConfigurer.client := None;
          dataSourceConfigurer.dataSourceNameSuffix := "_edge_config" |} |}.

(** [Configure] is the method of the embedded [*dataSourceConfigurer]. *)
Definition Configure (ds : edgeConfigDataSource)
    (providerData : ProviderData) (diagnostics : list diag.Diagnostic)
    : edgeConfigDataSource * list diag.Diagnostic :=
  let '(d, diagnostics) :=
    dataSourceConfigurer.Configure (configurer ds) providerData diagnostics in
  ({| configurer := d |}, diagnostics).

Section WithEnv.

Variable unmarshalEnvelope : list Byte.byte -> APIError -> string + APIError.
Variable newRequestError : string -> string -> option string.
Variable env : Env.
Variable unmarshalEdgeConfig :
  list Byte.byte -> EdgeConfig.t -> EdgeConfig.t * option string.
Variable responseToEdgeConfig : EdgeConfig.t -> EdgeConfigModel.t.
Variable stateSet : EdgeConfigModel.t -> list diag.Diagnostic.

(** [Read]: [d.client] is the client of the embedded configurer.  The test
    of the diagnostics after [State.Set] is followed by nothing. *)
Definition Read (d : edgeConfigDataSource)
    (req : ReadRequest EdgeConfigModel.t)
    (resp : ReadResponse EdgeConfigModel.t) (s : Session)
    : option (Run (ReadResponse EdgeConfigModel.t * Session)) :=
  let '(diags, config) := configGet req in
  let resp := reporting resp diags in
  if diag.HasError (Diagnostics resp) then Some (Returns (resp, s))
  else
    out ←
      GetEdgeConfig_through unmarshalEnvelope newRequestError env
        unmarshalEdgeConfig (dataSourceConfigurer.client (configurer d))
        (types.ValueString (EdgeConfigModel.ID config))
        (types.ValueString (EdgeConfigModel.TeamID config)) s;
    match out with
    | Panics => Some Panics
    | Returns (out, Some err, s) =>
        Some (Returns
                ({| Diagnostics :=
                      diag.AddError (Diagnostics resp)
                        "Error reading EdgeConfig"
                        (couldNotGetEdgeConfig
                           (types.ValueString (EdgeConfigModel.TeamID config))
                           (types.ValueString (EdgeConfigModel.ID config))
                           err);
                    stateSets := stateSets resp |},
                 s))
    | Returns (out, None, s) =>
        let result := responseToEdgeConfig out in
        let s :=
          tflog LevelInfo "read edge config"
            [("team_id", types.ValueString (EdgeConfigModel.TeamID result));
             ("edge_config_id",
              types.ValueString (EdgeConfigModel.ID result))]
            s in
        Some (Returns (setting stateSet resp result, s))
    end.

End WithEnv.

End Direct.

(** A read of the Edge Config ecfg_1 of team_1, for the examples. *)
Module Reads.

Definition unmarshalEdgeConfig (b : list Byte.byte) (e : EdgeConfig.t)
    : EdgeConfig.t * option string :=
  (e, Some (Fixture.rejection b)).

Definition responseToEdgeConfig (e : EdgeConfig.t) : EdgeConfigModel.t :=
  {| EdgeConfigModel.Name := types.StringValue (EdgeConfig.Slug e);
     EdgeConfigModel.ID := types.StringValue (EdgeConfig.ID e);
     EdgeConfigModel.TeamID := types.StringValue (EdgeConfig.TeamID e) |}.

Definition stateSet (_ : EdgeConfigModel.t) : list diag.Diagnostic := [].

Definition config : EdgeConfigModel.t :=
  {| EdgeConfigModel.Name := types.StringNull;
     EdgeConfigModel.ID := types.StringValue "ecfg_1";
     EdgeConfigModel.TeamID := types.StringValue "team_1" |}.

Definition request : ReadRequest EdgeConfigModel.t :=
  {| configGet := ([], config) |}.

Definition fresh : ReadResponse EdgeConfigModel.t :=
  {| Diagnostics := []; stateSets := [] |}.

End Reads.

(** * Properties *)

(** ** Path escaping *)

Ltac each_ascii c :=
  destruct c as [[] [] [] [] [] [] [] []].

Lemma hex_roundtrip (c : ascii) :
  let h := net_url.hexDigit (N.shiftr (ord c) 4) in
  let l := net_url.hexDigit (N.land (ord c) 15) in
  net_url.ishex h && net_url.ishex l = true
  /\ ascii_of_N (N.lor (N.shiftl (net_url.unhex h) 4) (net_url.unhex l)) = c.
Proof. each_ascii c; split; reflexivity. Qed.

Lemma kept_not_percent (c : ascii) :
  net_url.shouldEscape c = false -> c <> "%"%char.
Proof. intros H ->. discriminate H. Qed.

Lemma PathUnescape_plain (c : ascii) (rest : string) :
  c <> "%"%char ->
  net_url.PathUnescape (String c rest)
  = option_map (String c) (net_url.PathUnescape rest).
Proof. intros H. each_ascii c; try reflexivity. now destruct H. Qed.

Lemma PathUnescape_PathEscape (s : string) :
  net_url.PathUnescape (net_url.PathEscape s) = Some s.
Proof.
  induction s as [|c rest IH]; [reflexivity|].
  cbn [net_url.PathEscape].
  destruct (net_url.shouldEscape c) eqn:E.
  - destruct (hex_roundtrip c) as [Hhex Hval]. cbv zeta in Hhex, Hval.
    cbn [net_url.PathUnescape]. rewrite Hhex, Hval. fold net_url.PathUnescape.
    now rewrite IH.
  - rewrite PathUnescape_plain by now apply kept_not_percent.
    now rewrite IH.
Qed.

Lemma hexDigit_inert (c : ascii) :
  inert (net_url.hexDigit (N.shiftr (ord c) 4)) = true
  /\ inert (net_url.hexDigit (N.land (ord c) 15)) = true.
Proof. each_ascii c; split; reflexivity. Qed.

Lemma PathEscape_inert (s : string) :
  forallb inert (list_ascii_of_string (net_url.PathEscape s)) = true.
Proof.
  induction s as [|c rest IH]; [reflexivity|].
  cbn [net_url.PathEscape].
  destruct (net_url.shouldEscape c) eqn:E.
  - destruct (hexDigit_inert c) as [Hh Hl].
    cbn [list_ascii_of_string forallb]. now rewrite Hh, Hl, IH.
  - cbn [list_ascii_of_string forallb]. unfold inert at 1. now rewrite E, IH.
Qed.

Lemma inert_no_delimiter (d : ascii) (s : string) :
  inert d = false ->
  forallb inert (list_ascii_of_string s) = true ->
  mem_char d s = false.
Proof.
  intros Hd. unfold mem_char.
  induction s as [|c rest IH]; [reflexivity|].
  cbn [list_ascii_of_string forallb existsb].
  intros [Hc Hrest]%andb_prop. rewrite (IH Hrest), orb_false_r.
  destruct (Ascii.eqb_spec d c) as [->|]; congruence.
Qed.

(** ** Formatting *)

Lemma Sprintf_plain (c : ascii) (rest : string) (args : list string) :
  c <> "%"%char ->
  fmt.Sprintf (String c rest) args
  = option_map (String c) (fmt.Sprintf rest args).
Proof. intros H. each_ascii c; try reflexivity. now destruct H. Qed.

Lemma noPercent_cons (c : ascii) (s : string) :
  noPercent (String c s) = true -> c <> "%"%char /\ noPercent s = true.
Proof.
  unfold noPercent, mem_char. cbn [list_ascii_of_string existsb].
  rewrite negb_orb. intros [Hc Hs]%andb_prop. split; [|exact Hs].
  intros ->. discriminate Hc.
Qed.

Lemma option_map_compose {A B C} (f : B -> C) (g : A -> B) (o : option A) :
  option_map f (option_map g o) = option_map (fun x => f (g x)) o.
Proof. now destruct o. Qed.

Lemma Sprintf_literal (lit format : string) (args : list string) :
  noPercent lit = true ->
  fmt.Sprintf (lit +:+ format) args
  = option_map (String.append lit) (fmt.Sprintf format args).
Proof.
  induction lit as [|c lit IH]; intros H.
  - change (EmptyString +:+ format) with format.
    destruct (fmt.Sprintf format args); reflexivity.
  - apply noPercent_cons in H as [Hc Hlit].
    change (String c lit +:+ format) with (String c (lit +:+ format)).
    rewrite Sprintf_plain by exact Hc.
    rewrite (IH Hlit), option_map_compose. reflexivity.
Qed.

Lemma append_empty_r (s : string) : s +:+ EmptyString = s.
Proof.
  induction s as [|c s IH]; [reflexivity|].
  change (String c s +:+ EmptyString) with (String c (s +:+ EmptyString)).
  now rewrite IH.
Qed.

Lemma Sprintf_template (segments vals : list string) (lit : string) :
  noPercent lit = true ->
  forallb noPercent segments = true ->
  length segments = length vals ->
  fmt.Sprintf (template lit segments) vals = Some (fill lit segments vals).
Proof.
  revert vals lit.
  induction segments as [|next rest IH]; intros [|v vals] lit Hlit Hsegs Hlen;
    try discriminate Hlen.
  - cbn [template fill].
    rewrite <- (append_empty_r lit) at 1.
    rewrite Sprintf_literal by exact Hlit. cbn. now rewrite append_empty_r.
  - cbn [forallb] in Hsegs. apply andb_prop in Hsegs as [Hnext Hrest].
    cbn [template fill]. rewrite Sprintf_literal by exact Hlit.
    change (fmt.Sprintf ("%s" +:+ template next rest) (v :: vals))
      with (option_map (String.append v)
              (fmt.Sprintf (template next rest) vals)).
    rewrite IH; [reflexivity|exact Hnext|exact Hrest|].
    now injection Hlen.
Qed.

Lemma escapeAll_map (vals : list string) :
  escapeAll vals = map net_url.PathEscape vals.
Proof.
  unfold escapeAll.
  enough (forall acc,
             fold_left (fun escaped val => escaped ++ [net_url.PathEscape val])
                       vals acc
             = acc ++ map net_url.PathEscape vals) as H by apply (H []).
  induction vals as [|v vals IH]; intros acc; cbn [fold_left map].
  - now rewrite app_nil_r.
  - rewrite IH, <- app_assoc. reflexivity.
Qed.

Lemma makeURL_format (c : Client) (urlPathSpecifier : string)
    (vals : list string) :
  makeURL c urlPathSpecifier vals
  = fmt.Sprintf (baseURL c +:+ urlPathSpecifier) (escapeAll vals).
Proof.
  unfold makeURL.
  change (fmt.Sprintf "%s%s" [baseURL c; urlPathSpecifier])
    with (Some (baseURL c +:+ (urlPathSpecifier +:+ EmptyString))).
  now rewrite append_empty_r.
Qed.

(** ** The URL builder *)

Example makeURL_project_domain :
  makeURL (New "t") "/v8/projects/%s/domains/%s" ["a/b?c"; "my site.dev"]
  = Some "https://api.vercel.com/v8/projects/a%2Fb%3Fc/domains/my%20site.dev".
Proof. reflexivity. Qed.

Example makeURL_missing_value :
  makeURL (New "t") "/v8/projects/%s/domains/%s" ["p"]
  = Some "https://api.vercel.com/v8/projects/p/domains/%!s(MISSING)".
Proof. reflexivity. Qed.

(** C8. For a client whose base URL has no percent sign and a path template
    with one [%s] per segment value (and no other percent sign), [makeURL]
    returns the base URL followed by the template in which the i-th
    placeholder is replaced by the escaped i-th value; and for every value,
    unescaping the escaped value gives the value back, and the escaped value
    contains no slash, no question mark and no space. *)
Theorem makeURL_escapes_each_segment (c : Client) (lit : string)
    (segments vals : list string) :
  noPercent (baseURL c) = true ->
  noPercent lit = true ->
  forallb noPercent segments = true ->
  length segments = length vals ->
  makeURL c (template lit segments) vals
  = Some (baseURL c +:+ fill lit segments (map net_url.PathEscape vals))
  /\ (forall v : string,
        net_url.PathUnescape (net_url.PathEscape v) = Some v
        /\ mem_char "/" (net_url.PathEscape v) = false
        /\ mem_char "?" (net_url.PathEscape v) = false
        /\ mem_char " " (net_url.PathEscape v) = false).
Proof.
  intros Hbase Hlit Hsegs Hlen. split.
  - rewrite makeURL_format, escapeAll_map, Sprintf_literal by exact Hbase.
    rewrite Sprintf_template; [reflexivity|exact Hlit|exact Hsegs|].
    now rewrite length_map.
  - intros v. split; [apply PathUnescape_PathEscape|].
    repeat split; apply inert_no_delimiter;
      solve [reflexivity | apply PathEscape_inert].
Qed.

Lemma makeURL_escapes_each_segment_witness :
  makeURL (New "t") (template "/v8/projects/" ["/domains/"; ""])
          ["a/b?c"; "my site.dev"]
  = Some (baseURL (New "t")
          +:+ fill "/v8/projects/" ["/domains/"; ""]
                (map net_url.PathEscape ["a/b?c"; "my site.dev"]))
  /\ (forall v : string,
        net_url.PathUnescape (net_url.PathEscape v) = Some v
        /\ mem_char "/" (net_url.PathEscape v) = false
        /\ mem_char "?" (net_url.PathEscape v) = false
        /\ mem_char " " (net_url.PathEscape v) = false).
Proof.
  apply (makeURL_escapes_each_segment (New "t") "/v8/projects/"
           ["/domains/"; ""] ["a/b?c"; "my site.dev"]); reflexivity.
Defined.

(** ** Status predicates *)

Lemma errors_As_UnwrapsTo (err : error) (e : APIError) :
  errors_As err = Some e <-> UnwrapsTo err e.
Proof.
  split.
  - induction err as [e'| | |msg cause IH]; cbn [errors_As]; intros H;
      try discriminate H.
    + injection H as ->. constructor.
    + constructor. now apply IH.
  - induction 1; cbn [errors_As]; auto.
Qed.

Lemma hasStatus_iff (err : option error) (statusCode : Z) :
  hasStatus err statusCode = true
  <-> exists err' e,
        err = Some err' /\ UnwrapsTo err' e /\ StatusCode e = statusCode.
Proof.
  unfold hasStatus. split.
  - destruct err as [err'|]; [|discriminate].
    destruct (errors_As err') as [e|] eqn:E; [|discriminate].
    intros H%Z.eqb_eq. exists err', e.
    rewrite <- errors_As_UnwrapsTo. auto.
  - intros (err' & e & -> & H%errors_As_UnwrapsTo & Hs).
    rewrite H. now apply Z.eqb_eq.
Qed.

(** C9. [NotFound] is true exactly for the errors that are, or wrap, an API
    error whose status code is 404: it is false for the nil error, for the
    errors of other types, and for an API error with another status. *)
Theorem NotFound_iff_unwraps_to_404 :
  (forall err : option error,
      NotFound err = true
      <-> exists err' e,
            err = Some err' /\ UnwrapsTo err' e /\ StatusCode e = 404)
  /\ NotFound None = false
  /\ (forall msg, NotFound (Some (ErrForeign msg)) = false)
  /\ (forall r, NotFound (Some (ErrContext r)) = false)
  /\ (forall msg cause,
        errors_As cause = None -> NotFound (Some (ErrWrap msg cause)) = false)
  /\ (forall e, StatusCode e <> 404 -> NotFound (Some (ErrAPI e)) = false).
Proof.
  split; [intros err; apply hasStatus_iff|].
  repeat split; try reflexivity.
  - intros msg cause H. unfold NotFound, hasStatus. cbn [errors_As].
    now rewrite H.
  - intros e H. unfold NotFound, hasStatus. cbn [errors_As].
    now apply Z.eqb_neq.
Qed.

Example NotFound_wrapped_404 :
  NotFound (Some (Errorf "getting team" (ErrAPI (bareError 404)))) = true.
Proof. reflexivity. Qed.

Example NotFound_204 : NotFound (Some (ErrAPI (noContentError 204))) = false.
Proof. reflexivity. Qed.

(** ** The scope resolver and the delay of an error response *)

Example teamID_explicit :
  teamID (New "t") "team-x" = "team-x" /\ teamID (New "t") EmptyString = EmptyString.
Proof. split; reflexivity. Qed.

Lemma teamID_resolves (c : Client) (explicit : string) :
  teamID c explicit = if String.eqb explicit EmptyString then ID (team c) else explicit.
Proof. unfold teamID. now destruct (String.eqb explicit EmptyString). Qed.

Example Atoi_values :
  strconv.Atoi "120" = Some 120
  /\ strconv.Atoi "+7" = Some 7
  /\ strconv.Atoi "-5" = Some (-5)
  /\ strconv.Atoi "soon" = None
  /\ strconv.Atoi "1.5" = None
  /\ strconv.Atoi EmptyString = None
  /\ strconv.Atoi "9223372036854775807" = Some maxInt64
  /\ strconv.Atoi "9223372036854775808" = None.
Proof. repeat split; reflexivity. Qed.

Example retryAfterOf_values :
  retryAfterOf 429 {[ "Retry-After" := ["2"] ]} = 2
  /\ retryAfterOf 429 {[ "Retry-After" := ["400"] ]} = 400
  /\ retryAfterOf 429 {[ "Retry-After" := ["0"] ]} = 1000
  /\ retryAfterOf 429 ∅ = 1000
  /\ retryAfterOf 503 {[ "Retry-After" := ["2"] ]} = 1000.
Proof. repeat split; vm_compute; reflexivity. Qed.

(** ** The request executor *)

Lemma empty_body (b : list Byte.byte) :
  String.eqb (string_of_list_byte b) EmptyString = (if b is [] then true else false).
Proof. destruct b; reflexivity. Qed.

Section Executor.

Context {V : Type}.
Variable unmarshalEnvelope : list Byte.byte -> APIError -> string + APIError.
Variable unmarshalValue : list Byte.byte -> V -> V * option string.
Variable env : Env.

Local Abbreviation exec := (_doRequest unmarshalEnvelope unmarshalValue env).

Lemma errorFromResponse_empty (status : Z) (header : Header) :
  errorFromResponse unmarshalEnvelope status header [] = ErrAPI (bareError status).
Proof. reflexivity. Qed.

Lemma errorFromResponse_parsed (status : Z) (header : Header)
    (b : list Byte.byte) (decoded : APIError) :
  b <> [] ->
  unmarshalEnvelope b (bareError 0) = inr decoded ->
  errorFromResponse unmarshalEnvelope status header b
  = ErrAPI {| Code := Code decoded; Message := Message decoded;
              StatusCode := status; RawMessage := b;
              retryAfter := retryAfterOf status header |}.
Proof.
  intros Hb Hdec. unfold errorFromResponse. rewrite empty_body, Hdec.
  now destruct b.
Qed.

Lemma errorFromResponse_unparsed (status : Z) (header : Header)
    (b : list Byte.byte) (msg : string) :
  b <> [] ->
  unmarshalEnvelope b (bareError 0) = inl msg ->
  errorFromResponse unmarshalEnvelope status header b
  = ErrWrap ("error unmarshaling response for status code " +:+ itoa status
             +:+ ": " +:+ msg) (ErrForeign msg).
Proof.
  intros Hb Hdec. unfold errorFromResponse. rewrite empty_body, Hdec.
  now destruct b.
Qed.

Lemma exec_error_response (c : Client) (req : Request) (v : option V)
    (eo : bool) (w : World) (status : Z) (header : Header)
    (b : list Byte.byte) :
  transport env (requests w) (authorize c req) = Responds status header b ->
  300 <= status ->
  exec c req v eo w
  = (Some (errorFromResponse unmarshalEnvelope status header b), v,
     send (authorize c req) w).
Proof.
  intros Ht Hs. unfold _doRequest. rewrite Ht.
  now destruct (Z.leb_spec 300 status); [|lia].
Qed.

(** An exchange that [refuses] makes the executor return an error, leave the
    output slot alone and count one request. *)
Lemma exec_refused (c : Client) (req : Request) (v : option V) (eo : bool)
    (w : World) :
  refuses (transport env (requests w) (authorize c req)) = true ->
  exists err, exec c req v eo w = (Some err, v, send (authorize c req) w).
Proof.
  unfold _doRequest, refuses.
  destruct (transport env (requests w) (authorize c req)) as [msg|msg|st h b];
    intros H; eauto.
  rewrite H. eauto.
Qed.

(** Whatever the exchange and the result, the executor hands exactly one
    request to the transport. *)
Lemma exec_world (c : Client) (req : Request) (v : option V) (eo : bool)
    (w : World) :
  worldOf (exec c req v eo w) = send (authorize c req) w.
Proof.
  unfold _doRequest.
  destruct (transport env (requests w) (authorize c req)) as [msg|msg|st h b];
    try reflexivity.
  destruct (300 <=? st); [reflexivity|].
  destruct v as [slot|]; [|reflexivity].
  destruct (eo && (st =? StatusNoContent)); [reflexivity|].
  now destruct (unmarshalValue b slot) as [slot' [msg|]].
Qed.

(** C7, as the code has it. For a response with a status of 300 or more the
    executor returns an error and leaves the output slot alone.  When the
    body is empty, the error is an API error with the status code and every
    other field zero, so its raw body is the empty one.  When the body parses
    as the error envelope, the error is an API error with the status code
    and the raw body.  When the body does not parse, the error is not an API
    error and wraps none: it is the error of the decoder wrapped in a message
    that names the status code, without the body. *)
Theorem error_response_status_and_body (c : Client) (req : Request)
    (v : option V) (eo : bool) (w : World) (status : Z) (header : Header)
    (b : list Byte.byte) :
  transport env (requests w) (authorize c req) = Responds status header b ->
  300 <= status ->
  exists err,
    exec c req v eo w = (Some err, v, send (authorize c req) w)
    /\ (b = [] -> err = ErrAPI (bareError status) /\ carries err status b)
    /\ (forall decoded,
          b <> [] -> unmarshalEnvelope b (bareError 0) = inr decoded ->
          carries err status b
          /\ option_map Code (errors_As err) = Some (Code decoded)
          /\ option_map Message (errors_As err) = Some (Message decoded))
    /\ (forall msg,
          b <> [] -> unmarshalEnvelope b (bareError 0) = inl msg ->
          err = ErrWrap ("error unmarshaling response for status code "
                         +:+ itoa status +:+ ": " +:+ msg) (ErrForeign msg)
          /\ errors_As err = None).
Proof.
  intros Ht Hs. eexists. split; [apply exec_error_response; eassumption|].
  split; [|split].
  - intros ->. split; [reflexivity|].
    exists (bareError status). now rewrite errorFromResponse_empty.
  - intros decoded Hb Hdec.
    rewrite (errorFromResponse_parsed _ _ _ _ Hb Hdec).
    split; [eexists; split; [reflexivity|split; reflexivity]|].
    split; reflexivity.
  - intros msg Hb Hdec.
    rewrite (errorFromResponse_unparsed _ _ _ _ Hb Hdec).
    split; reflexivity.
Qed.

(** C6, as the code has it. For a response with a status below 300 and a
    caller that supplied an output slot there are two cases.  Unless the
    request treats no content as an error and the status is 204, the output
    slot receives the decoding of the body and no API error is returned: the
    result is nil when the decoder succeeds, and otherwise the decoder's
    error wrapped in a message that includes the raw body.  When the request
    treats no content as an error and the status is 204, the executor
    returns the API error no_content with the status 204 and does not
    decode: whatever the body and the decoder are, the output slot is left
    as the caller passed it and one request was sent. *)
Theorem success_decodes_into_slot (c : Client) (req : Request) (slot : V)
    (eo : bool) (w : World) (status : Z) (header : Header)
    (b : list Byte.byte) :
  transport env (requests w) (authorize c req) = Responds status header b ->
  status < 300 ->
  (eo && (status =? StatusNoContent) = false ->
   decodedWithoutAPIError unmarshalValue b slot (exec c req (Some slot) eo w)
   /\ errOf (exec c req (Some slot) eo w)
      = option_map
          (fun msg =>
             ErrWrap ("error unmarshaling response " +:+ string_of_list_byte b
                      +:+ ": " +:+ msg) (ErrForeign msg))
          (snd (unmarshalValue b slot)))
  /\ (eo && (status =? StatusNoContent) = true ->
      exec c req (Some slot) eo w
      = (Some (ErrAPI (noContentError StatusNoContent)), Some slot,
         send (authorize c req) w)
      /\ Code (noContentError StatusNoContent) = "no_content"
      /\ StatusCode (noContentError StatusNoContent) = 204
      /\ ~ decodedWithoutAPIError unmarshalValue b slot
             (exec c req (Some slot) eo w)).
Proof.
  intros Ht Hs. unfold decodedWithoutAPIError, _doRequest.
  rewrite Ht. destruct (Z.leb_spec 300 status); [lia|]. split; intros Hno.
  - rewrite Hno.
    destruct (unmarshalValue b slot) as [slot' [msg|]]; cbn.
    + repeat split. now intros err [= <-].
    + repeat split. discriminate.
  - rewrite Hno. apply andb_prop in Hno as [_ ->%Z.eqb_eq].
    repeat split. intros [_ Hd].
    specialize (Hd _ eq_refl). discriminate Hd.
Qed.

(** C10. For a response with a status below 300 and a caller that passed no
    output slot, the executor returns nil, also when the request treats no
    content as an error and the status is 204; and whatever the slot is, if
    the executor returns an error that is or wraps an API error for such a
    response, then the slot is not nil, the request treats no content as an
    error, the status is 204 and the API error is the no_content one. *)
Theorem nil_slot_succeeds_before_no_content (c : Client) (req : Request)
    (eo : bool) (w : World) (status : Z) (header : Header)
    (b : list Byte.byte) :
  transport env (requests w) (authorize c req) = Responds status header b ->
  status < 300 ->
  exec c req None eo w = (None, None, send (authorize c req) w)
  /\ (forall (v : option V) (err : error) (e : APIError),
        errOf (exec c req v eo w) = Some err ->
        errors_As err = Some e ->
        v <> None /\ eo = true /\ status = StatusNoContent
        /\ e = noContentError StatusNoContent /\ Code e = "no_content").
Proof.
  intros Ht Hs. unfold _doRequest. rewrite Ht.
  destruct (Z.leb_spec 300 status); [lia|]. split; [reflexivity|].
  intros [slot|] err e; [|discriminate].
  destruct (eo && (status =? StatusNoContent)) eqn:Hno.
  - apply andb_prop in Hno as [-> ->%Z.eqb_eq].
    cbn. intros [= <-] [= <-]. repeat split. discriminate.
  - destruct (unmarshalValue b slot) as [slot' [msg|]]; cbn.
    + intros [= <-]. discriminate.
    + discriminate.
Qed.

End Executor.

(** ** The retry loop *)

Lemma rateLimited_Some (err : option error) (e : APIError) :
  rateLimited err = Some e
  <-> exists err',
        err = Some err' /\ errors_As err' = Some e
        /\ StatusCode e = StatusTooManyRequests /\ 0 < retryAfter e < 300.
Proof.
  unfold rateLimited. split.
  - destruct err as [err'|]; [|discriminate].
    destruct (errors_As err') as [a|] eqn:Ha; [|discriminate].
    destruct (StatusCode a =? StatusTooManyRequests) eqn:Hs; [|discriminate].
    destruct (0 <? retryAfter a) eqn:Hp; [|discriminate].
    destruct (retryAfter a <? 5 * 60) eqn:Hc; [|discriminate].
    intros [= <-]. exists err'.
    apply Z.eqb_eq in Hs. apply Z.ltb_lt in Hp, Hc.
    repeat split; try reflexivity; try assumption; lia.
  - intros (err' & -> & -> & Hs & Hp & Hc).
    apply Z.eqb_eq in Hs. apply Z.ltb_lt in Hp.
    assert ((retryAfter e <? 5 * 60) = true) as Hc' by now apply Z.ltb_lt.
    now rewrite Hs, Hp, Hc'.
Qed.

Lemma rateLimited_None (err : error) :
  (errors_As err = None
   \/ (exists e, errors_As err = Some e
                 /\ (StatusCode e <> StatusTooManyRequests
                     \/ retryAfter e <= 0 \/ 300 <= retryAfter e))) ->
  rateLimited (Some err) = None.
Proof.
  unfold rateLimited. intros [->|(e & -> & H)]; [reflexivity|].
  destruct (Z.eqb_spec (StatusCode e) StatusTooManyRequests);
    destruct (Z.ltb_spec 0 (retryAfter e));
    destruct (Z.ltb_spec (retryAfter e) (5 * 60)); try reflexivity; lia.
Qed.

(** Within the bounds the loop accepts, the conversion of the delay to a
    duration does not wrap. *)
Lemma seconds_exact (n : Z) :
  0 < n < 300 -> time.seconds n = n * 1000000000 /\ 0 < time.seconds n.
Proof.
  intros H. unfold time.seconds, wrap64, time.Second.
  rewrite Z.mod_small by lia. lia.
Qed.

(** The delay of an error response is the default unless the status is 429
    and the Retry-After header holds a positive number. *)
Lemma retryAfterOf_default (status : Z) (header : Header) :
  status <> StatusTooManyRequests
  \/ Header_Get header "Retry-After" = EmptyString
  \/ strconv.Atoi (Header_Get header "Retry-After") = None
  \/ (exists n, strconv.Atoi (Header_Get header "Retry-After") = Some n
                /\ n <= 0) ->
  retryAfterOf status header = defaultRetryAfter.
Proof.
  unfold retryAfterOf. intros H.
  destruct (Z.eqb_spec status StatusTooManyRequests) as [Hs|]; [|reflexivity].
  destruct H as [H|[->|[->|(n & -> & Hn)]]]; try reflexivity.
  - contradiction.
  - now destruct (negb _).
  - destruct (negb _); [|reflexivity].
    now destruct (Z.ltb_spec 0 n); [lia|].
Qed.

Lemma retryAfterOf_header (header : Header) (n : Z) :
  strconv.Atoi (Header_Get header "Retry-After") = Some n ->
  0 < n ->
  retryAfterOf StatusTooManyRequests header = n.
Proof.
  unfold retryAfterOf. intros Ha Hn. cbn [Z.eqb StatusTooManyRequests Pos.eqb].
  destruct (String.eqb_spec (Header_Get header "Retry-After") EmptyString)
    as [E|_]; cbn [negb].
  - rewrite E in Ha. discriminate Ha.
  - rewrite Ha. now destruct (Z.ltb_spec 0 n); [|lia].
Qed.

Section Coordinator.

Context {V : Type}.
Variable unmarshalEnvelope : list Byte.byte -> APIError -> string + APIError.
Variable unmarshalValue : list Byte.byte -> V -> V * option string.
Variable newRequestError : string -> string -> option string.
Variable env : Env.

Local Abbreviation exec := (_doRequest unmarshalEnvelope unmarshalValue env).
Local Abbreviation build := (toHTTPRequest newRequestError).
Local Abbreviation loop :=
  (retryLoop unmarshalEnvelope unmarshalValue newRequestError env).
Local Abbreviation call :=
  (doRequest unmarshalEnvelope unmarshalValue newRequestError env).

Lemma loop_break (budget : nat) (c : Client) (req : clientRequest)
    (err : option error) (v : option V) (w : World) :
  rateLimited err = None -> loop budget c req err v w = (err, v, w).
Proof. intros H. destruct budget; cbn [retryLoop]; [|rewrite H]; reflexivity. Qed.

(** The first attempt decides the call when its error is not one the loop
    retries after. *)
Lemma first_attempt_final (c : Client) (req : clientRequest) (r : Request)
    (v v1 : option V) (w w1 : World) (err : option error) :
  build req = inr r ->
  exec c r v (errorOnNoContent req) w = (err, v1, w1) ->
  rateLimited err = None ->
  call c req v w = (err, v1, w1).
Proof.
  intros Hb He Hr. unfold doRequest. rewrite Hb, He. now apply loop_break.
Qed.

(** A request that cannot be built is not sent at all. *)
Lemma unbuilt_request_final (c : Client) (req : clientRequest) (err : error)
    (v : option V) (w : World) :
  build req = inl err -> call c req v w = (Some err, v, w).
Proof.
  intros Hb. unfold doRequest. rewrite Hb. apply loop_break.
  unfold toHTTPRequest in Hb.
  destruct (newRequestError (method req) (url req)); [|discriminate].
  now injection Hb as <-.
Qed.


(** One iteration of the loop, when the timer fires first and the retry
    returns an error: the loop goes on with the [err] it had. *)
Lemma loop_retry_failed (budget : nat) (c : Client) (req : clientRequest)
    (r : Request) (err : option error) (apiErr : APIError) (v : option V)
    (w : World) :
  let w1 := wait (time.seconds (retryAfter apiErr)) TimerFired
              (armed apiErr w) in
  build req = inr r ->
  rateLimited err = Some apiErr ->
  select env (waits w) (time.seconds (retryAfter apiErr)) = TimerWins ->
  errOf (exec c r v (errorOnNoContent req) w1) <> None ->
  loop (S budget) c req err v w
  = loop budget c req err (slotOf (exec c r v (errorOnNoContent req) w1))
      (send (authorize c r) w1).
Proof.
  intros w1 Hb Hr Hs Hx.
  change (loop (S budget) c req err v w)
    with (match rateLimited err with
          | Some apiErr =>
              let d := time.seconds (retryAfter apiErr) in
              match select env (waits (armed apiErr w)) d with
              | DoneWins t =>
                  (Some (ErrContext (ctxErr env)), v,
                   wait t TimerStopped (armed apiErr w))
              | TimerWins =>
                  match build req with
                  | inl err' => (Some err', v, wait d TimerFired (armed apiErr w))
                  | inr r =>
                      match exec c r v (errorOnNoContent req)
                              (wait d TimerFired (armed apiErr w)) with
                      | (None, v, w) => (None, v, w)
                      | (Some err', v, w) => loop budget c req err v w
                      end
                  end
              end
          | None => (err, v, w)
          end).
  rewrite Hr. cbv zeta.
  change (waits (armed apiErr w)) with (waits w). rewrite Hs, Hb.
  fold w1.
  pose proof (exec_world unmarshalEnvelope unmarshalValue env c r v
                (errorOnNoContent req) w1) as Hw.
  destruct (exec c r v (errorOnNoContent req) w1) as [[[err'|] v'] w'].
  - cbn in Hw. now rewrite Hw.
  - now destruct Hx.
Qed.


(** From any state of the loop whose [err] is a rate limit: when the timer
    wins every select and every retry returns an error, the loop uses up its
    budget and returns the [err] it was entered with. *)
Lemma loop_exhausted (c : Client) (req : clientRequest) (r : Request)
    (err : option error) (apiErr : APIError) :
  build req = inr r ->
  rateLimited err = Some apiErr ->
  (forall n d, select env n d = TimerWins) ->
  (forall v w, errOf (exec c r v (errorOnNoContent req) w) <> None) ->
  forall (budget : nat) (v : option V) (w : World),
    exists v' w',
      loop budget c req err v w = (err, v', w')
      /\ requests w' = (requests w + budget)%nat
      /\ waits w' = (waits w + budget)%nat
      /\ waited w'
         = waited w + Z.of_nat budget * time.seconds (retryAfter apiErr).
Proof.
  intros Hb Hr Htimer Hfail budget.
  induction budget as [|budget IH]; intros v w.
  - exists v, w. cbn [retryLoop]. repeat split; lia.
  - rewrite (loop_retry_failed _ _ _ _ _ _ _ _ Hb Hr (Htimer _ _)
               (Hfail _ _)).
    match goal with |- context [loop _ _ _ _ ?v1 ?w1] =>
      set (v2 := v1); set (w2 := w1) end.
    assert (requests w2 = S (requests w) /\ waits w2 = S (waits w)
            /\ waited w2 = waited w + time.seconds (retryAfter apiErr))
      as (Eq & Ew & Et) by (repeat split; reflexivity).
    destruct (IH v2 w2) as (v' & w' & Hl & Hq & Hw & Ht).
    exists v', w'. split; [exact Hl|]. repeat split; lia.
Qed.

(** What the call comes to when the first attempt is rate limited, the
    timer wins every select and every retry returns an error, of whatever
    kind: three retries, each after the delay of the first error, and the
    first error as the result. *)
Lemma call_exhausted (c : Client) (req : clientRequest) (r : Request)
    (v v1 : option V) (w w1 : World) (err : option error) (apiErr : APIError) :
  build req = inr r ->
  exec c r v (errorOnNoContent req) w = (err, v1, w1) ->
  rateLimited err = Some apiErr ->
  (forall n d, select env n d = TimerWins) ->
  (forall v w, errOf (exec c r v (errorOnNoContent req) w) <> None) ->
  exists v' w',
    call c req v w = (err, v', w')
    /\ requests w' = (requests w1 + 3)%nat
    /\ waits w' = (waits w1 + 3)%nat
    /\ waited w' = waited w1 + 3 * time.seconds (retryAfter apiErr).
Proof.
  intros Hb He Hr Htimer Hfail. unfold doRequest. rewrite Hb, He.
  destruct (loop_exhausted c req r err apiErr Hb Hr Htimer Hfail 3 v1 w1)
    as (v' & w' & Hl & Hq & Hw & Ht).
  exists v', w'. repeat split; try assumption; lia.
Qed.


(** The initial attempt ends the call when its error is not an API error,
    or is an API error whose status is not 429. *)
Lemma first_attempt_not_rate_limit (c : Client) (req : clientRequest)
    (r : Request) (v v1 : option V) (w w1 : World) (err : error) :
  build req = inr r ->
  exec c r v (errorOnNoContent req) w = (Some err, v1, w1) ->
  (errors_As err = None
   \/ (exists e, errors_As err = Some e
                 /\ StatusCode e <> StatusTooManyRequests)) ->
  call c req v w = (Some err, v1, w1).
Proof.
  intros Hb He H. apply (first_attempt_final c req r v v1 w w1 _ Hb He).
  apply rateLimited_None. destruct H as [H|(e & H1 & H2)]; eauto.
Qed.

(** The initial attempt ends the call when its error is a 429 whose delay is
    zero or at least 300: one request, no wait. *)
Lemma first_attempt_out_of_bounds (c : Client) (req : clientRequest)
    (r : Request) (v v1 : option V) (w w1 : World) (err : error)
    (e : APIError) :
  build req = inr r ->
  exec c r v (errorOnNoContent req) w = (Some err, v1, w1) ->
  errors_As err = Some e ->
  retryAfter e = 0 \/ 300 <= retryAfter e ->
  call c req v w = (Some err, v1, w1).
Proof.
  intros Hb He Ha H. apply (first_attempt_final c req r v v1 w w1 _ Hb He).
  apply rateLimited_None. right. exists e. split; [exact Ha|]. lia.
Qed.

(** A first answer that is a 429 with an error envelope and the default
    delay ends the call at once, with an error whose delay is 1000. *)
Lemma first_attempt_default_delay (c : Client) (req : clientRequest)
    (r : Request) (v : option V) (w : World) (header : Header)
    (b : list Byte.byte) (decoded : APIError) :
  build req = inr r ->
  transport env (requests w) (authorize c r)
  = Responds StatusTooManyRequests header b ->
  b <> [] ->
  unmarshalEnvelope b (bareError 0) = inr decoded ->
  retryAfterOf StatusTooManyRequests header = defaultRetryAfter ->
  call c req v w
  = (Some (ErrAPI {| Code := Code decoded; Message := Message decoded;
                     StatusCode := StatusTooManyRequests; RawMessage := b;
                     retryAfter := 1000 |}),
     v, send (authorize c r) w).
Proof.
  intros Hb Ht Hne Hdec Hdelay.
  apply (first_attempt_out_of_bounds c req r v v w _ _
           {| Code := Code decoded; Message := Message decoded;
              StatusCode := StatusTooManyRequests; RawMessage := b;
              retryAfter := 1000 |} Hb).
  - rewrite (exec_error_response unmarshalEnvelope unmarshalValue env c r v
               (errorOnNoContent req) w _ _ _ Ht) by (vm_compute; discriminate).
    rewrite (errorFromResponse_parsed unmarshalEnvelope _ _ _ _ Hne Hdec).
    now rewrite Hdelay.
  - reflexivity.
  - right. cbn. lia.
Qed.

End Coordinator.

(** ** The engine on the fixtures *)

Ltac by_evaluation :=
  cbv zeta;
  repeat match goal with |- _ /\ _ => split end;
  intros; vm_compute; reflexivity.

Example httpRequest_is_built :
  toHTTPRequest Fixture.newRequestError Fixture.getTeam
  = inr (Fixture.httpRequest Fixture.getTeam).
Proof. reflexivity. Qed.

Example retry_then_success :
  let r := Fixture.run
             (Fixture.scripted [Fixture.tooManyRequests "2"]
                (Responds 200 ∅ Fixture.teamJSON) Fixture.neverDone)
             Fixture.getTeam (Some Fixture.emptyTeam) in
  errOf r = None
  /\ option_map ID (slotOf r) = Some "team_1"
  /\ requests (worldOf r) = 2%nat
  /\ waited (worldOf r) = 2 * time.Second.
Proof. by_evaluation. Qed.

(** C1, on the code. Every attempt is answered by a 429 whose delay is within
    the bounds (1, 2, 3 and 4 seconds) and the context is never done.  The
    call sends 4 requests and waits 3 times.  The last attempt, the request
    of index 3, is answered by the 429 asking for 4 seconds, whose error
    carries the delay 4; the call returns the error of the first attempt,
    with the delay 1, and each of its waits lasted 1 second. *)
Theorem repeated_rate_limit_returns_first_error :
  let r := Fixture.run Fixture.growingDelays Fixture.getTeam
             (Some Fixture.emptyTeam) in
  requests (worldOf r) = 4%nat
  /\ waits (worldOf r) = 3%nat
  /\ (forall req,
        transport Fixture.growingDelays 3 req = Fixture.tooManyRequests "4")
  /\ errorFromResponse Fixture.unmarshalEnvelope 429
       (Fixture.retryAfterHeader "4") Fixture.rateLimited
     = ErrAPI (Fixture.rateLimitError 4)
  /\ errOf r = Some (ErrAPI (Fixture.rateLimitError 1))
  /\ waited (worldOf r) = 3 * time.seconds 1.
Proof. by_evaluation. Qed.

(** C2, on the code. The first attempt is answered by a 429 asking for 1
    second and every retry by a 500 with an error envelope.  The error of
    the first retry is an API error whose status is 500, not 429; the call
    goes on all the same: it sends 4 requests, waits 3 times, and returns
    the 429 error of the first attempt. *)
Theorem retry_error_does_not_end_the_call :
  let r := Fixture.run Fixture.limitedThenBroken Fixture.getTeam
             (Some Fixture.emptyTeam) in
  (forall req,
      transport Fixture.limitedThenBroken 1 req
      = Responds 500 ∅ Fixture.serverError)
  /\ errorFromResponse Fixture.unmarshalEnvelope 500 ∅ Fixture.serverError
     = ErrAPI Fixture.serverErrorError
  /\ requests (worldOf r) = 4%nat
  /\ waits (worldOf r) = 3%nat
  /\ errOf r = Some (ErrAPI (Fixture.rateLimitError 1)).
Proof. by_evaluation. Qed.

(** The same with a transport failure as the result of the retries: the
    error of a retry that is no API error does not end the call either. *)
Example retry_transport_error_does_not_end_the_call :
  let r := Fixture.run
             (Fixture.scripted [Fixture.tooManyRequests "1"]
                (DoFails "connection refused") Fixture.neverDone)
             Fixture.getTeam (Some Fixture.emptyTeam) in
  requests (worldOf r) = 4%nat
  /\ errOf r = Some (ErrAPI (Fixture.rateLimitError 1)).
Proof. by_evaluation. Qed.

(** C3, on the code. A 429 with an error envelope and no Retry-After header,
    or one that is no number, or one that is zero or negative, gets the
    default delay,
    which is 1000; the loop reads it in seconds, 1000 is not below 300, and
    the call returns the error after one request, without a wait. *)
Theorem default_delay_is_never_waited :
  Forall
    (fun header =>
       let r := Fixture.run (Fixture.limitedWith header) Fixture.getTeam
                  (Some Fixture.emptyTeam) in
       errOf r = Some (ErrAPI (Fixture.rateLimitError 1000))
       /\ rateLimited (errOf r) = None
       /\ requests (worldOf r) = 1%nat
       /\ waits (worldOf r) = 0%nat
       /\ waited (worldOf r) = 0)
    [∅; Fixture.retryAfterHeader "soon"; Fixture.retryAfterHeader "0";
     Fixture.retryAfterHeader "-3"].
Proof. repeat constructor; by_evaluation. Qed.

(** C4, on the code. The first attempt is answered by a 429 asking for 2
    seconds and every retry by a 429 asking for 400 seconds.  The error of
    the first retry is a 429 whose delay, 400, is over the ceiling; the call
    waits and retries all the same: it sends 4 requests, waits 3 times 2
    seconds, and returns the error of the first attempt. *)
Theorem delay_over_ceiling_on_retry_is_ignored :
  let r := Fixture.run Fixture.limitedThenCeiling Fixture.getTeam
             (Some Fixture.emptyTeam) in
  (forall req,
      transport Fixture.limitedThenCeiling 1 req
      = Fixture.tooManyRequests "400")
  /\ errorFromResponse Fixture.unmarshalEnvelope 429
       (Fixture.retryAfterHeader "400") Fixture.rateLimited
     = ErrAPI (Fixture.rateLimitError 400)
  /\ requests (worldOf r) = 4%nat
  /\ waits (worldOf r) = 3%nat
  /\ waited (worldOf r) = 3 * time.seconds 2
  /\ errOf r = Some (ErrAPI (Fixture.rateLimitError 2)).
Proof. by_evaluation. Qed.

(** ** Witnesses and counterexamples *)


(** C6 as stated fails where a 204 is to be treated as an error: with an
    output slot, the answer 204 to a request that sets [errorOnNoContent]
    gives the API error no_content. *)
Lemma no_content_returns_API_error :
  ~ decodedWithoutAPIError Fixture.unmarshalValue [] Fixture.emptyTeam
      (Fixture.exec (Fixture.answering (Responds 204 ∅ []))
         (Fixture.httpRequest Fixture.getSchema) (Some Fixture.emptyTeam)
         true start).
Proof.
  intros [_ H].
  specialize (H (ErrAPI (noContentError 204)) eq_refl). discriminate H.
Qed.

Example no_content_error_returned :
  errOf (Fixture.exec (Fixture.answering (Responds 204 ∅ []))
           (Fixture.httpRequest Fixture.getSchema) (Some Fixture.emptyTeam)
           true start)
  = Some (ErrAPI (noContentError 204)).
Proof. reflexivity. Qed.

Lemma success_decodes_into_slot_witness :
  (slotOf (Fixture.exec (Fixture.answering (Responds 200 ∅ Fixture.teamJSON))
             (Fixture.httpRequest Fixture.getTeam) (Some Fixture.emptyTeam)
             false start)
   = Some {| ID := "team_1"; SensitiveEnvironmentVariablePolicy := None |}
   /\ errOf (Fixture.exec
               (Fixture.answering (Responds 200 ∅ Fixture.teamJSON))
               (Fixture.httpRequest Fixture.getTeam) (Some Fixture.emptyTeam)
               false start)
      = None)
  /\ (errOf (Fixture.exec
               (Fixture.answering (Responds 204 ∅ Fixture.teamJSON))
               (Fixture.httpRequest Fixture.getSchema)
               (Some Fixture.emptyTeam) true start)
      = Some (ErrAPI (noContentError 204))
      /\ slotOf (Fixture.exec
                   (Fixture.answering (Responds 204 ∅ Fixture.teamJSON))
                   (Fixture.httpRequest Fixture.getSchema)
                   (Some Fixture.emptyTeam) true start)
         = Some Fixture.emptyTeam).
Proof.
  split.
  - destruct (success_decodes_into_slot
                Fixture.unmarshalEnvelope Fixture.unmarshalValue
                (Fixture.answering (Responds 200 ∅ Fixture.teamJSON))
                Fixture.client (Fixture.httpRequest Fixture.getTeam)
                Fixture.emptyTeam false start 200 ∅ Fixture.teamJSON)
      as [Hdecoded _].
    + reflexivity.
    + lia.
    + destruct (Hdecoded eq_refl) as [[Hslot _] Herr].
      split; [exact Hslot|exact Herr].
  - destruct (success_decodes_into_slot
                Fixture.unmarshalEnvelope Fixture.unmarshalValue
                (Fixture.answering (Responds 204 ∅ Fixture.teamJSON))
                Fixture.client (Fixture.httpRequest Fixture.getSchema)
                Fixture.emptyTeam true start 204 ∅ Fixture.teamJSON)
      as [_ Hflagged].
    + reflexivity.
    + lia.
    + destruct (Hflagged eq_refl) as [Hexec _].
      split; [exact (f_equal errOf Hexec)|exact (f_equal slotOf Hexec)].
Defined.

(** C7 as stated fails where the body does not parse: the answer 502 with
    the body [oops] gives an error that is no API error and wraps none. *)
Lemma unparsed_body_is_not_carried :
  ~ exists err,
      errOf (Fixture.exec (Fixture.answering (Responds 502 ∅ Fixture.oops))
               (Fixture.httpRequest Fixture.getTeam) (Some Fixture.emptyTeam)
               false start)
      = Some err
      /\ carries err 502 Fixture.oops.
Proof.
  intros (err & He & e & Ha & _). vm_compute in He.
  injection He as <-. discriminate Ha.
Qed.

Example unparsed_body_error :
  errOf (Fixture.exec (Fixture.answering (Responds 502 ∅ Fixture.oops))
           (Fixture.httpRequest Fixture.getTeam) (Some Fixture.emptyTeam)
           false start)
  = Some (ErrWrap
            ("error unmarshaling response for status code 502: "
             +:+ Fixture.notJSON)
            (ErrForeign Fixture.notJSON)).
Proof. reflexivity. Qed.

Lemma error_response_status_and_body_witness :
  exists err,
    Fixture.exec (Fixture.answering (Fixture.tooManyRequests "2"))
      (Fixture.httpRequest Fixture.getTeam) (Some Fixture.emptyTeam) false
      start
    = (Some err, Some Fixture.emptyTeam,
       send (authorize Fixture.client (Fixture.httpRequest Fixture.getTeam))
            start)
    /\ carries err 429 Fixture.rateLimited.
Proof.
  destruct (error_response_status_and_body
              Fixture.unmarshalEnvelope Fixture.unmarshalValue
              (Fixture.answering (Fixture.tooManyRequests "2"))
              Fixture.client (Fixture.httpRequest Fixture.getTeam)
              (Some Fixture.emptyTeam) false start 429
              (Fixture.retryAfterHeader "2") Fixture.rateLimited)
    as (err & He & _ & Hparsed & _).
  - reflexivity.
  - lia.
  - exists err. split; [exact He|].
    refine (proj1 (Hparsed _ _ eq_refl)). discriminate.
Defined.

Lemma nil_slot_succeeds_before_no_content_witness :
  Fixture.exec (Fixture.answering (Responds 204 ∅ []))
    (Fixture.httpRequest Fixture.getSchema) None true start
  = (None, None,
     send (authorize Fixture.client (Fixture.httpRequest Fixture.getSchema))
          start).
Proof.
  apply (nil_slot_succeeds_before_no_content
           Fixture.unmarshalEnvelope Fixture.unmarshalValue
           (Fixture.answering (Responds 204 ∅ []))
           Fixture.client (Fixture.httpRequest Fixture.getSchema)
           true start 204 ∅ []).
  - reflexivity.
  - lia.
Defined.

(** * Further properties of the engine *)

Lemma toHTTPRequest_requestOf (newRequestError : string -> string -> option string)
    (req : clientRequest) (r : Request) :
  toHTTPRequest newRequestError req = inr r -> r = requestOf req.
Proof.
  unfold toHTTPRequest, requestOf.
  destruct (newRequestError (method req) (url req)); [discriminate|].
  intros [= <-]. now destruct (negb _).
Qed.

Lemma toHTTPRequest_accepted (newRequestError : string -> string -> option string)
    (req : clientRequest) :
  newRequestError (method req) (url req) = None ->
  toHTTPRequest newRequestError req = inr (requestOf req).
Proof.
  unfold toHTTPRequest, requestOf. intros ->. now destruct (negb _).
Qed.

Section Bounds.

Context {V : Type}.
Variable unmarshalEnvelope : list Byte.byte -> APIError -> string + APIError.
Variable unmarshalValue : list Byte.byte -> V -> V * option string.
Variable newRequestError : string -> string -> option string.
Variable env : Env.

Local Abbreviation exec := (_doRequest unmarshalEnvelope unmarshalValue env).
Local Abbreviation build := (toHTTPRequest newRequestError).
Local Abbreviation loop :=
  (retryLoop unmarshalEnvelope unmarshalValue newRequestError env).
Local Abbreviation call :=
  (doRequest unmarshalEnvelope unmarshalValue newRequestError env).

(** One iteration of the loop, as the source has it. *)
Lemma loop_unfold (budget : nat) (c : Client) (req : clientRequest)
    (err : option error) (v : option V) (w : World) :
  loop (S budget) c req err v w
  = match rateLimited err with
    | Some apiErr =>
        let d := time.seconds (retryAfter apiErr) in
        match select env (waits w) d with
        | DoneWins t =>
            (Some (ErrContext (ctxErr env)), v,
             wait t TimerStopped (armed apiErr w))
        | TimerWins =>
            match build req with
            | inl err' => (Some err', v, wait d TimerFired (armed apiErr w))
            | inr r =>
                match exec c r v (errorOnNoContent req)
                        (wait d TimerFired (armed apiErr w)) with
                | (None, v, w) => (None, v, w)
                | (Some _, v, w) => loop budget c req err v w
                end
            end
        end
    | None => (err, v, w)
    end.
Proof. reflexivity. Qed.

(** The executor returns some error and some slot, and the world with one
    more request. *)
Lemma exec_eta (c : Client) (r : Request) (v : option V) (eo : bool)
    (w : World) :
  exists e v', exec c r v eo w = (e, v', send (authorize c r) w).
Proof.
  pose proof (exec_world unmarshalEnvelope unmarshalValue env c r v eo w) as H.
  destruct (exec c r v eo w) as [[e v'] w']. cbn in H. subst w'. eauto.
Qed.

Ltac world_simpl :=
  cbn [requests waits waited journal wait armed record send
       worldOf errOf slotOf fst snd sentRequests] in *.

Lemma loop_counts (budget : nat) (c : Client) (req : clientRequest)
    (err : option error) (v : option V) (w : World) :
  let w' := worldOf (loop budget c req err v w) in
  (requests w <= requests w' <= requests w + budget)%nat
  /\ (waits w <= waits w' <= waits w + budget)%nat
  /\ (requests w' - requests w <= waits w' - waits w)%nat
  /\ (waits w' - waits w <= S (requests w' - requests w))%nat.
Proof.
  revert v w. induction budget as [|budget IH]; intros v w.
  - cbn. lia.
  - rewrite loop_unfold.
    destruct (rateLimited err) as [apiErr|]; [|cbn; lia].
    cbv zeta. destruct (select env _ _) as [|t]; [|world_simpl; lia].
    destruct (build req) as [err'|r]; [world_simpl; lia|].
    destruct (exec_eta c r v (errorOnNoContent req)
                (wait (time.seconds (retryAfter apiErr)) TimerFired
                   (armed apiErr w))) as (e & v' & ->).
    destruct e as [e|]; [|world_simpl; lia].
    specialize (IH v' (send (authorize c r)
                         (wait (time.seconds (retryAfter apiErr)) TimerFired
                            (armed apiErr w)))).
    world_simpl. lia.
Qed.

Lemma doRequest_counts (c : Client) (req : clientRequest)
    (v : option V) (w : World) :
  let w' := worldOf (call c req v w) in
  (requests w <= requests w' <= requests w + 4)%nat
  /\ (waits w <= waits w' <= waits w + 3)%nat
  /\ (waits w' - waits w <= requests w' - requests w)%nat
  /\ (requests w' - requests w <= S (waits w' - waits w))%nat.
Proof.
  unfold doRequest.
  destruct (build req) as [err|r] eqn:Hb.
  - rewrite loop_break; [cbn; lia|].
    unfold toHTTPRequest in Hb.
    destruct (newRequestError (method req) (url req)); [|discriminate].
    now injection Hb as <-.
  - destruct (exec_eta c r v (errorOnNoContent req) w) as (e & v' & ->).
    pose proof (loop_counts 3 c req e v' (send (authorize c r) w)) as H.
    cbv zeta in H. world_simpl. cbv zeta. lia.
Qed.

(** X1. Whatever the transport and the context do, one call hands at most
    4 requests to the transport and waits at most 3 times; it never waits
    more often than it has sent requests, and every request but the first
    follows a wait. *)
Theorem doRequest_attempts_bounded (c : Client) (req : clientRequest)
    (v : option V) (w : World) :
  let w' := worldOf (call c req v w) in
  (requests w <= requests w' <= requests w + 4)%nat
  /\ (waits w <= waits w' <= waits w + 3)%nat
  /\ (waits w' - waits w <= requests w' - requests w)%nat
  /\ (requests w' - requests w <= S (waits w' - waits w))%nat.
Proof. apply doRequest_counts. Qed.

Lemma loop_waited (budget : nat) (c : Client) (req : clientRequest)
    (err : option error) (v : option V) (w : World) :
  (forall n d t, 0 < d -> select env n d = DoneWins t -> 0 <= t <= d) ->
  let w' := worldOf (loop budget c req err v w) in
  waited w <= waited w' <= waited w + Z.of_nat budget * 299000000000.
Proof.
  intros Hsel. revert v w. induction budget as [|budget IH]; intros v w.
  - cbn. lia.
  - rewrite loop_unfold.
    destruct (rateLimited err) as [apiErr|] eqn:Hr; [|cbn; lia].
    apply rateLimited_Some in Hr as (err' & _ & _ & _ & Hd).
    destruct (seconds_exact _ Hd) as [Hs Hpos].
    cbv zeta. destruct (select env _ _) as [|t] eqn:Hsl.
    + destruct (build req) as [e|r]; [world_simpl; lia|].
      destruct (exec_eta c r v (errorOnNoContent req)
                  (wait (time.seconds (retryAfter apiErr)) TimerFired
                     (armed apiErr w))) as (e & v' & ->).
      destruct e as [e|]; [|world_simpl; lia].
      specialize (IH v' (send (authorize c r)
                           (wait (time.seconds (retryAfter apiErr)) TimerFired
                              (armed apiErr w)))).
      world_simpl. lia.
    + pose proof (Hsel _ _ _ Hpos Hsl). world_simpl. lia.
Qed.

(** X2. Provided a select never returns later than its timer would have
    fired, one call spends at most 897 seconds, which is less than 15
    minutes, waiting to retry: at most 3 waits of at most 299 seconds. *)
Theorem doRequest_waiting_bounded (c : Client) (req : clientRequest)
    (v : option V) (w : World) :
  (forall n d t, 0 < d -> select env n d = DoneWins t -> 0 <= t <= d) ->
  let w' := worldOf (call c req v w) in
  waited w <= waited w' <= waited w + 897 * time.Second.
Proof.
  intros Hsel. unfold doRequest.
  destruct (build req) as [err|r] eqn:Hb.
  - pose proof (loop_waited 3 c req (Some err) v w Hsel) as H.
    cbv zeta in H. cbv zeta. unfold time.Second. lia.
  - destruct (exec_eta c r v (errorOnNoContent req) w) as (e & v' & ->).
    pose proof (loop_waited 3 c req e v' (send (authorize c r) w) Hsel) as H.
    cbv zeta in H. world_simpl. cbv zeta. unfold time.Second. lia.
Qed.

(** X3. When the first attempt is rate limited with a delay within the
    bounds, the timer fires and the retry succeeds, the call returns nil
    with the slot as the retry left it, after 2 requests and one wait that
    lasted exactly the delay of the error in seconds. *)
Theorem retry_after_delay_then_success (c : Client) (req : clientRequest)
    (r : Request) (v v1 v2 : option V) (w w1 w2 : World)
    (err : option error) (apiErr : APIError) :
  build req = inr r ->
  exec c r v (errorOnNoContent req) w = (err, v1, w1) ->
  rateLimited err = Some apiErr ->
  select env (waits w1) (time.seconds (retryAfter apiErr)) = TimerWins ->
  exec c r v1 (errorOnNoContent req)
    (wait (time.seconds (retryAfter apiErr)) TimerFired (armed apiErr w1))
  = (None, v2, w2) ->
  call c req v w = (None, v2, w2)
  /\ requests w2 = (requests w + 2)%nat
  /\ waits w2 = S (waits w)
  /\ waited w2 = waited w + retryAfter apiErr * time.Second
  /\ 0 < retryAfter apiErr < 300.
Proof.
  intros Hb He Hr Hs He2.
  pose proof (exec_world unmarshalEnvelope unmarshalValue env c r v
                (errorOnNoContent req) w) as Hw1.
  pose proof (exec_world unmarshalEnvelope unmarshalValue env c r v1
                (errorOnNoContent req)
                (wait (time.seconds (retryAfter apiErr)) TimerFired
                   (armed apiErr w1))) as Hw2.
  rewrite He in Hw1. rewrite He2 in Hw2. cbn [worldOf snd] in Hw1, Hw2.
  pose proof Hr as Hr'.
  apply rateLimited_Some in Hr' as (err' & _ & _ & _ & Hd).
  destruct (seconds_exact _ Hd) as [Hsec _].
  split.
  - unfold doRequest. rewrite Hb, He.
    change 3%nat with (S 2). rewrite loop_unfold, Hr. cbv zeta.
    now rewrite Hs, Hb, He2.
  - subst w1 w2. world_simpl. unfold time.Second. repeat split; lia.
Qed.

Lemma exec_nil (c : Client) (r : Request) (v : option V) (eo : bool)
    (w : World) :
  errOf (exec c r v eo w) = None ->
  exists status header b,
    transport env (requests w) (authorize c r) = Responds status header b
    /\ status < 300.
Proof.
  unfold _doRequest.
  destruct (transport env (requests w) (authorize c r)) as [msg|msg|st h b];
    try discriminate.
  destruct (Z.leb_spec 300 st); [discriminate|]. eauto.
Qed.

Lemma loop_nil (budget : nat) (c : Client) (req : clientRequest)
    (err : option error) (v : option V) (w : World) :
  errOf (loop budget c req err v w) = None ->
  err = None
  \/ exists r status header b,
       build req = inr r
       /\ requests (worldOf (loop budget c req err v w)) <> 0%nat
       /\ transport env (pred (requests (worldOf (loop budget c req err v w))))
            (authorize c r)
          = Responds status header b
       /\ status < 300.
Proof.
  revert v w. induction budget as [|budget IH]; intros v w.
  - cbn. auto.
  - rewrite loop_unfold.
    destruct (rateLimited err) as [apiErr|]; [|cbn; auto].
    cbv zeta. destruct (select env _ _) as [|t]; [|discriminate].
    destruct (build req) as [err'|r] eqn:Hb; [discriminate|].
    pose proof (exec_nil c r v (errorOnNoContent req)
                  (wait (time.seconds (retryAfter apiErr)) TimerFired
                     (armed apiErr w))) as Hnil.
    destruct (exec_eta c r v (errorOnNoContent req)
                (wait (time.seconds (retryAfter apiErr)) TimerFired
                   (armed apiErr w))) as (e & v' & He).
    rewrite He in Hnil |- *. destruct e as [e|].
    + intros H. destruct (IH _ _ H) as [->|(r' & H')]; [now left|].
      right. exists r'. exact H'.
    + intros _. right.
      destruct (Hnil eq_refl) as (st & h & b & Ht & Hs).
      exists r, st, h, b. world_simpl. auto.
Qed.

(** X4. A call returns nil only on a success of the transport: when the
    result is nil, the request could be built, at least one request was
    sent, and the answer to the last request sent is a response with a
    status below 300. *)
Theorem nil_only_after_success_response (c : Client) (req : clientRequest)
    (v : option V) (w : World) :
  errOf (call c req v w) = None ->
  exists r status header b,
    build req = inr r
    /\ (requests w < requests (worldOf (call c req v w)))%nat
    /\ transport env (pred (requests (worldOf (call c req v w))))
         (authorize c r)
       = Responds status header b
    /\ status < 300.
Proof.
  unfold doRequest.
  destruct (build req) as [err|r] eqn:Hb.
  - rewrite loop_break; [discriminate|].
    unfold toHTTPRequest in Hb.
    destruct (newRequestError (method req) (url req)); [|discriminate].
    now injection Hb as <-.
  - pose proof (exec_nil c r v (errorOnNoContent req) w) as Hnil.
    destruct (exec_eta c r v (errorOnNoContent req) w) as (e & v' & He).
    rewrite He in Hnil |- *. intros H.
    pose proof (loop_counts 3 c req e v' (send (authorize c r) w)) as Hc.
    cbv zeta in Hc. world_simpl.
    destruct (loop_nil _ _ _ _ _ _ H) as [->|(r' & st & h & b & Hb' & _ & Ht & Hs)].
    + rewrite loop_break in * by reflexivity. world_simpl.
      destruct (Hnil eq_refl) as (st & h & b & Ht & Hs).
      exists r, st, h, b. repeat split; auto.
    + rewrite Hb in Hb'. injection Hb' as <-.
      exists r, st, h, b. repeat split; auto. lia.
Qed.

Lemma repeat_snoc {A} (x : A) (n : nat) (l : list A) :
  repeat x n ++ x :: l = repeat x (S n) ++ l.
Proof. induction n as [|n IH]; [reflexivity|]. cbn. now rewrite IH. Qed.

Lemma loop_sent (budget : nat) (c : Client) (req : clientRequest)
    (r : Request) (err : option error) (v : option V) (w : World) :
  build req = inr r ->
  let w' := worldOf (loop budget c req err v w) in
  sentRequests (journal w')
  = repeat (authorize c r) (requests w' - requests w)
    ++ sentRequests (journal w).
Proof.
  intros Hb. revert v w. induction budget as [|budget IH]; intros v w.
  - cbn [retryLoop]. world_simpl. now rewrite Nat.sub_diag.
  - rewrite loop_unfold.
    destruct (rateLimited err) as [apiErr|];
      [|world_simpl; now rewrite Nat.sub_diag].
    cbv zeta. destruct (select env _ _) as [|t];
      [|world_simpl; now rewrite Nat.sub_diag].
    rewrite Hb.
    destruct (exec_eta c r v (errorOnNoContent req)
                (wait (time.seconds (retryAfter apiErr)) TimerFired
                   (armed apiErr w))) as (e & v' & ->).
    destruct e as [e|].
    + set (w2 := send (authorize c r) _).
      pose proof (loop_counts budget c req err v' w2) as Hc.
      specialize (IH v' w2). cbv zeta in IH, Hc. rewrite IH.
      subst w2. world_simpl. rewrite repeat_snoc. f_equal. f_equal. lia.
    + world_simpl. replace (S (requests w) - requests w)%nat with 1%nat by lia.
      reflexivity.
Qed.

(** The requests of a call: as many copies of the request built from its
    description as the call counted. *)
Lemma call_sent (c : Client) (req : clientRequest) (v : option V) (w : World) :
  let w' := worldOf (call c req v w) in
  sentRequests (journal w')
  = repeat (authorize c (requestOf req)) (requests w' - requests w)
    ++ sentRequests (journal w).
Proof.
  cbv zeta. unfold doRequest.
  destruct (build req) as [err|r] eqn:Hb.
  - rewrite loop_break.
    + cbn [worldOf snd]. now rewrite Nat.sub_diag.
    + unfold toHTTPRequest in Hb.
      destruct (newRequestError (method req) (url req)); [|discriminate].
      now injection Hb as <-.
  - pose proof (toHTTPRequest_requestOf _ _ _ Hb) as <-.
    destruct (exec_eta c r v (errorOnNoContent req) w) as (e & v' & ->).
    set (w1 := send (authorize c r) w).
    pose proof (loop_counts 3 c req e v' w1) as Hc.
    pose proof (loop_sent 3 c req r e v' w1 Hb) as Hs.
    cbv zeta in Hc, Hs. rewrite Hs. subst w1. world_simpl.
    rewrite repeat_snoc. f_equal. f_equal. lia.
Qed.

(** X5. Every request a call hands to the transport is the same request,
    built again from the call's description: it has the method, the URL and
    the body of the description, the user agent of the provider, exactly one
    Authorization value, the bearer token of the client, and the JSON content
    type exactly when the body is not empty. *)
Theorem every_attempt_sends_the_same_request (c : Client)
    (req : clientRequest) (v : option V) (w : World) :
  let w' := worldOf (call c req v w) in
  let x := authorize c (requestOf req) in
  sentRequests (journal w')
  = repeat x (requests w' - requests w) ++ sentRequests (journal w)
  /\ Method x = method req /\ URL x = url req /\ Body x = body req
  /\ Hdr x !! "Authorization" = Some ["Bearer " +:+ token c]
  /\ Hdr x !! "User-Agent" = Some ["terraform-provider-vercel/dev"]
  /\ Hdr x !! "Content-Type"
     = (if String.eqb (body req) EmptyString then None
        else Some ["application/json"]).
Proof.
  cbv zeta. split; [apply call_sent|].
  unfold authorize, requestOf, Header_Add, Header_Set.
  cbn [Method URL Body Hdr].
  destruct (String.eqb (body req) EmptyString); cbn [negb];
    repeat split; now simplify_map_eq.
Qed.

(** X6. A first answer with a status of 300 or more other than 429 ends the
    call at once: one request, no wait, the output slot left alone, and the
    error of that response returned. *)
Theorem error_response_other_than_429_is_final (c : Client)
    (req : clientRequest) (r : Request) (v : option V) (w : World)
    (status : Z) (header : Header) (b : list Byte.byte) :
  build req = inr r ->
  transport env (requests w) (authorize c r) = Responds status header b ->
  300 <= status ->
  status <> StatusTooManyRequests ->
  call c req v w
  = (Some (errorFromResponse unmarshalEnvelope status header b), v,
     send (authorize c r) w).
Proof.
  intros Hb Ht Hs Hne.
  apply (first_attempt_not_rate_limit unmarshalEnvelope unmarshalValue
           newRequestError env c req r v v w _ _ Hb).
  - now apply exec_error_response.
  - unfold errorFromResponse.
    destruct (String.eqb _ _); [right; eexists; split; [reflexivity|exact Hne]|].
    destruct (unmarshalEnvelope b (bareError 0)); [now left|].
    right. eexists. split; [reflexivity|exact Hne].
Qed.

(** X7. A first answer that is a 429 with an empty body ends the call at
    once, whatever its Retry-After header says: the header is read only for
    a body that parses, and the error of an empty body has the delay 0. *)
Theorem rate_limit_with_empty_body_is_final (c : Client)
    (req : clientRequest) (r : Request) (v : option V) (w : World)
    (header : Header) :
  build req = inr r ->
  transport env (requests w) (authorize c r)
  = Responds StatusTooManyRequests header [] ->
  call c req v w
  = (Some (ErrAPI (bareError StatusTooManyRequests)), v,
     send (authorize c r) w).
Proof.
  intros Hb Ht.
  apply (first_attempt_out_of_bounds unmarshalEnvelope unmarshalValue
           newRequestError env c req r v v w _ _
           (bareError StatusTooManyRequests) Hb).
  - rewrite (exec_error_response unmarshalEnvelope unmarshalValue env c r v
               (errorOnNoContent req) w _ _ _ Ht) by (vm_compute; discriminate).
    reflexivity.
  - reflexivity.
  - now left.
Qed.

(** X8. A failure of the transport on the first attempt, in sending the
    request or in reading the body, ends the call at once: one request, no
    wait, and an error that wraps the cause, prefixed by what failed, and
    that no status predicate matches. *)
Theorem transport_failure_is_final (c : Client) (req : clientRequest)
    (r : Request) (v : option V) (w : World) (msg : string) :
  build req = inr r ->
  (transport env (requests w) (authorize c r) = DoFails msg ->
   call c req v w
   = (Some (ErrWrap ("error doing http request: " +:+ msg) (ErrForeign msg)),
      v, send (authorize c r) w))
  /\ (transport env (requests w) (authorize c r) = ReadFails msg ->
      call c req v w
      = (Some (ErrWrap ("error reading response body: " +:+ msg)
                 (ErrForeign msg)),
         v, send (authorize c r) w))
  /\ (forall text status,
        hasStatus (Some (ErrWrap text (ErrForeign msg))) status = false).
Proof.
  intros Hb. repeat split; try reflexivity; intros Ht;
    apply (first_attempt_not_rate_limit unmarshalEnvelope unmarshalValue
             newRequestError env c req r v v w _ _ Hb);
    try (now left); unfold _doRequest; now rewrite Ht.
Qed.

Lemma loop_slot_untouched (budget : nat) (c : Client) (req : clientRequest)
    (err : option error) (v : option V) (w : World) :
  (forall n r', refuses (transport env n r') = true) ->
  err <> None ->
  slotOf (loop budget c req err v w) = v
  /\ errOf (loop budget c req err v w) <> None.
Proof.
  intros Hx Herr. revert w. induction budget as [|budget IH]; intros w.
  - cbn. auto.
  - rewrite loop_unfold.
    destruct (rateLimited err) as [apiErr|]; [|cbn; auto].
    cbv zeta. destruct (select env _ _) as [|t]; [|cbn; split; [auto|discriminate]].
    destruct (build req) as [err'|r]; [cbn; split; [auto|discriminate]|].
    destruct (exec_refused unmarshalEnvelope unmarshalValue env c r v
                (errorOnNoContent req)
                (wait (time.seconds (retryAfter apiErr)) TimerFired
                   (armed apiErr w)) (Hx _ _)) as [e ->].
    apply IH.
Qed.

(** X9. A call whose every exchange is refused (no response, no body, or a
    status of 300 or more) returns an error and leaves the output slot as
    the caller passed it, however the waits end. *)
Theorem refused_call_leaves_slot_untouched (c : Client) (req : clientRequest)
    (v : option V) (w : World) :
  (forall n r', refuses (transport env n r') = true) ->
  slotOf (call c req v w) = v /\ errOf (call c req v w) <> None.
Proof.
  intros Hx. unfold doRequest.
  destruct (build req) as [err|r].
  - now apply loop_slot_untouched.
  - destruct (exec_refused unmarshalEnvelope unmarshalValue env c r v
                (errorOnNoContent req) w (Hx _ _)) as [e ->].
    now apply loop_slot_untouched.
Qed.

Lemma errorFromResponse_status (status : Z) (header : Header)
    (b : list Byte.byte) (e : APIError) :
  errors_As (errorFromResponse unmarshalEnvelope status header b) = Some e ->
  StatusCode e = status.
Proof.
  unfold errorFromResponse. destruct (String.eqb _ _).
  - now intros [= <-].
  - destruct (unmarshalEnvelope b (bareError 0)); [discriminate|].
    now intros [= <-].
Qed.

(** X10. The executor returns an error that [noContent] matches exactly when
    the answer is a response with status 204, the request treats no content
    as an error and the caller passed an output slot. *)
Theorem noContent_iff_flagged_204 (c : Client) (r : Request) (v : option V)
    (eo : bool) (w : World) :
  noContent (errOf (exec c r v eo w)) = true
  <-> (exists header b,
         transport env (requests w) (authorize c r)
         = Responds StatusNoContent header b)
      /\ eo = true /\ v <> None.
Proof.
  unfold _doRequest, noContent, hasStatus. split.
  - destruct (transport env (requests w) (authorize c r)) as [msg|msg|st h b];
      try discriminate.
    destruct (Z.leb_spec 300 st) as [Hs|Hs].
    + cbn [errOf fst].
      destruct (errors_As (errorFromResponse _ st h b)) as [e|] eqn:He;
        [|discriminate].
      apply errorFromResponse_status in He. intros H%Z.eqb_eq.
      unfold StatusNoContent in H. lia.
    + destruct v as [slot|]; [|discriminate].
      destruct eo; cbn [andb].
      * destruct (Z.eqb_spec st StatusNoContent) as [->|]; [eauto 6|].
        destruct (unmarshalValue b slot) as [slot' [m|]]; discriminate.
      * destruct (unmarshalValue b slot) as [slot' [m|]]; discriminate.
  - intros ((h & b & ->) & -> & Hv). destruct v as [slot|]; [|contradiction].
    reflexivity.
Qed.

Lemma retryAfterOf_in_bounds (header : Header) :
  0 < retryAfterOf StatusTooManyRequests header < 300 ->
  exists n,
    strconv.Atoi (Header_Get header "Retry-After") = Some n
    /\ retryAfterOf StatusTooManyRequests header = n.
Proof.
  unfold retryAfterOf. cbn [Z.eqb StatusTooManyRequests Pos.eqb].
  destruct (negb _); [|unfold defaultRetryAfter; lia].
  destruct (strconv.Atoi _) as [n|]; [|unfold defaultRetryAfter; lia].
  destruct (0 <? n); [eauto|unfold defaultRetryAfter; lia].
Qed.

Lemma exec_rate_limited (c : Client) (r : Request) (v : option V) (eo : bool)
    (w : World) (apiErr : APIError) :
  rateLimited (errOf (exec c r v eo w)) = Some apiErr ->
  exists header b decoded,
    transport env (requests w) (authorize c r)
    = Responds StatusTooManyRequests header b
    /\ b <> []
    /\ unmarshalEnvelope b (bareError 0) = inr decoded
    /\ retryAfter apiErr = retryAfterOf StatusTooManyRequests header.
Proof.
  intros H. apply rateLimited_Some in H as (err & He & Ha & Hs & Hd).
  revert He. unfold _doRequest.
  destruct (transport env (requests w) (authorize c r)) as [msg|msg|st h b].
  - intros [= <-]. discriminate Ha.
  - intros [= <-]. discriminate Ha.
  - destruct (Z.leb_spec 300 st).
    + intros [= <-]. unfold errorFromResponse in Ha.
      rewrite empty_body in Ha. destruct b as [|x b].
      * injection Ha as <-. cbn in Hd. lia.
      * destruct (unmarshalEnvelope (x :: b) (bareError 0)) as [m|decoded] eqn:E;
          [discriminate Ha|].
        injection Ha as <-. cbn in Hs. subst st.
        exists h, (x :: b), decoded. repeat split; auto; discriminate.
    + destruct v as [slot|]; [|discriminate].
      destruct (eo && (st =? StatusNoContent)) eqn:Hn.
      * intros [= <-]. injection Ha as <-.
        apply andb_prop in Hn as [_ Hn%Z.eqb_eq]. cbn in Hs.
        unfold StatusNoContent, StatusTooManyRequests in *. lia.
      * destruct (unmarshalValue b slot) as [slot' [m|]];
          [intros [= <-]; discriminate Ha|discriminate].
Qed.

(** X24. A call ever waits exactly when the answer to its first request is
    a 429 with a body that is not empty and parses as the error envelope,
    and a Retry-After header that is a decimal integer greater than 0 and
    less than 300. *)
Theorem waits_iff_first_answer_is_a_usable_rate_limit (c : Client)
    (req : clientRequest) (v : option V) (w : World) :
  waits (worldOf (call c req v w)) <> waits w
  <-> exists r header b decoded n,
        build req = inr r
        /\ transport env (requests w) (authorize c r)
           = Responds StatusTooManyRequests header b
        /\ b <> []
        /\ unmarshalEnvelope b (bareError 0) = inr decoded
        /\ strconv.Atoi (Header_Get header "Retry-After") = Some n
        /\ 0 < n < 300.
Proof.
  unfold doRequest. split.
  - destruct (build req) as [err|r] eqn:Hb.
    + rewrite loop_break; [intros H; now destruct H|].
      unfold toHTTPRequest in Hb.
      destruct (newRequestError (method req) (url req)); [|discriminate].
      now injection Hb as <-.
    + pose proof (exec_rate_limited c r v (errorOnNoContent req) w) as Hrl.
      destruct (exec_eta c r v (errorOnNoContent req) w) as (e & v' & He).
      rewrite He in Hrl |- *. cbn [errOf fst] in Hrl.
      destruct (rateLimited e) as [apiErr|] eqn:Hr.
      * intros _.
        destruct (Hrl apiErr eq_refl) as (h & b & decoded & Ht & Hne & Hdec & Hd).
        apply rateLimited_Some in Hr as (_ & _ & _ & _ & Hbounds).
        rewrite Hd in Hbounds.
        destruct (retryAfterOf_in_bounds h Hbounds) as (n & Hn & Heq).
        rewrite Heq in Hbounds.
        exists r, h, b, decoded, n. repeat split; auto; lia.
      * rewrite loop_break by exact Hr. world_simpl.
        intros H. now destruct H.
  - intros (r & h & b & decoded & n & Hb & Ht & Hne & Hdec & Hn & Hbounds).
    rewrite Hb.
    rewrite (exec_error_response unmarshalEnvelope unmarshalValue env c r v
               (errorOnNoContent req) w _ _ _ Ht) by (vm_compute; discriminate).
    rewrite (errorFromResponse_parsed unmarshalEnvelope _ _ _ _ Hne Hdec).
    rewrite (retryAfterOf_header h n Hn) by lia.
    match goal with |- context [retryLoop _ _ _ _ 3 c req ?e ?v0 ?w0] =>
      set (err := e); set (w1 := w0);
      pose proof (loop_counts 2 c req err) as Hc
    end.
    assert (rateLimited err = Some
              {| Code := Code decoded; Message := Message decoded;
                 StatusCode := StatusTooManyRequests; RawMessage := b;
                 retryAfter := n |}) as Hr.
    { apply rateLimited_Some. eexists.
      repeat split; try reflexivity; cbn [retryAfter]; lia. }
    change 3%nat with (S 2). rewrite loop_unfold, Hr. cbv zeta.
    destruct (select env _ _) as [|t]; [|subst w1; world_simpl; lia].
    rewrite Hb.
    match goal with |- context [exec c r v ?eo ?w2] =>
      destruct (exec_eta c r v eo w2) as (e2 & v2 & ->);
      specialize (Hc v2 (send (authorize c r) w2))
    end.
    cbv zeta in Hc. destruct e2; subst w1; world_simpl; lia.
Qed.

End Bounds.

(** ** The URL builder: different values, different URLs *)

Lemma append_inv_head (p a b : string) : p +:+ a = p +:+ b -> a = b.
Proof.
  induction p as [|c p IH]; [trivial|].
  change (String c (p +:+ a) = String c (p +:+ b) -> a = b).
  intros [= H]. auto.
Qed.

Lemma length_append (a b : string) :
  String.length (a +:+ b) = (String.length a + String.length b)%nat.
Proof.
  induction a as [|c a IH]; [reflexivity|].
  change (S (String.length (a +:+ b)) = S (String.length a + String.length b)).
  now rewrite IH.
Qed.

Lemma append_inv_tail (a b s : string) : a +:+ s = b +:+ s -> a = b.
Proof.
  revert b. induction a as [|c a IH]; intros [|d b] H.
  - reflexivity.
  - apply (f_equal String.length) in H.
    rewrite !length_append in H. cbn [String.length] in H. lia.
  - apply (f_equal String.length) in H.
    rewrite !length_append in H. cbn [String.length] in H. lia.
  - change (String c (a +:+ s) = String d (b +:+ s)) in H.
    injection H as -> H. f_equal. auto.
Qed.

Lemma mem_char_cons (d c : ascii) (s : string) :
  mem_char d (String c s) = Ascii.eqb d c || mem_char d s.
Proof. reflexivity. Qed.

(** Two slash-free strings followed by a slash split a string in one way. *)
Lemma split_at_slash (a b s t : string) :
  mem_char "/" a = false -> mem_char "/" b = false ->
  a +:+ String "/" s = b +:+ String "/" t -> a = b /\ s = t.
Proof.
  revert b. induction a as [|c a IH]; intros [|d b] Ha Hb H.
  - now injection H.
  - change (String "/" s = String d (b +:+ String "/" t)) in H.
    injection H as <- _. discriminate Hb.
  - change (String c (a +:+ String "/" s) = String "/" t) in H.
    injection H as -> _. discriminate Ha.
  - change (String c (a +:+ String "/" s) = String d (b +:+ String "/" t)) in H.
    injection H as -> H.
    rewrite mem_char_cons in Ha, Hb.
    apply orb_false_elim in Ha as [_ Ha]. apply orb_false_elim in Hb as [_ Hb].
    destruct (IH b Ha Hb H) as [-> ->]. auto.
Qed.

Lemma fill_slashLed (next : string) (rest vals : list string) :
  slashLed next = true ->
  exists t, fill next rest vals = String "/" t.
Proof.
  destruct next as [|c next]; [discriminate|].
  destruct c as [[] [] [] [] [] [] [] []]; try discriminate. intros _.
  destruct rest as [|n rest], vals as [|v vals]; cbn [fill]; eauto.
Qed.

Lemma fill_injective (segments : list string) :
  forall (lit : string) (es es' : list string),
    separated segments = true ->
    Forall (fun e => mem_char "/" e = false) es ->
    Forall (fun e => mem_char "/" e = false) es' ->
    length segments = length es -> length segments = length es' ->
    fill lit segments es = fill lit segments es' -> es = es'.
Proof.
  induction segments as [|next rest IH]; intros lit es es' Hsep Hes Hes' Hl Hl' H.
  - destruct es, es'; try discriminate. reflexivity.
  - destruct es as [|e es], es' as [|e' es']; try discriminate.
    cbn [fill] in H. apply append_inv_head in H.
    inversion Hes as [|? ? He Hes1]; inversion Hes' as [|? ? He' Hes1']; subst.
    destruct rest as [|n2 rest].
    + destruct es, es'; try discriminate. cbn [fill] in H.
      apply append_inv_tail in H. now subst.
    + cbn [separated] in Hsep. apply andb_prop in Hsep as [Hled Hsep].
      destruct (fill_slashLed next (n2 :: rest) es Hled) as [t Ht].
      destruct (fill_slashLed next (n2 :: rest) es' Hled) as [t' Ht'].
      pose proof H as H2. rewrite Ht, Ht' in H2.
      destruct (split_at_slash _ _ _ _ He He' H2) as [-> Htt].
      f_equal. apply (IH next es es' Hsep Hes1 Hes1'); try (cbn in *; lia).
      rewrite Ht, Ht'. now rewrite Htt.
Qed.

Lemma PathEscape_injective (a b : string) :
  net_url.PathEscape a = net_url.PathEscape b -> a = b.
Proof.
  intros H.
  pose proof (PathUnescape_PathEscape a) as Ha.
  rewrite H, PathUnescape_PathEscape in Ha. now injection Ha.
Qed.

Lemma map_PathEscape_injective (vals vals' : list string) :
  map net_url.PathEscape vals = map net_url.PathEscape vals' -> vals = vals'.
Proof.
  revert vals'. induction vals as [|v vals IH]; intros [|v' vals'] H;
    try discriminate; [reflexivity|].
  injection H as Hv H. apply PathEscape_injective in Hv. subst. f_equal. auto.
Qed.

Lemma PathEscape_no_slash (vals : list string) :
  Forall (fun e => mem_char "/" e = false) (map net_url.PathEscape vals).
Proof.
  induction vals as [|v vals IH]; constructor; [|exact IH].
  apply inert_no_delimiter; [reflexivity|apply PathEscape_inert].
Qed.

Lemma makeURL_template (c : Client) (lit : string)
    (segments vals : list string) :
  noPercent (baseURL c) = true ->
  noPercent lit = true ->
  forallb noPercent segments = true ->
  length segments = length vals ->
  makeURL c (template lit segments) vals
  = Some (baseURL c +:+ fill lit segments (map net_url.PathEscape vals)).
Proof.
  intros Hbase Hlit Hsegs Hlen.
  rewrite makeURL_format, escapeAll_map, Sprintf_literal by exact Hbase.
  rewrite Sprintf_template; [reflexivity|exact Hlit|exact Hsegs|].
  now rewrite length_map.
Qed.

(** X11. For a template whose placeholders are whole path segments (each
    literal between two placeholders begins with a slash), two lists of
    values that give the same URL are the same list: no value can pass for
    another, or for several others. *)
Theorem makeURL_injective (c : Client) (lit : string)
    (segments vals vals' : list string) :
  noPercent (baseURL c) = true ->
  noPercent lit = true ->
  forallb noPercent segments = true ->
  separated segments = true ->
  length segments = length vals ->
  length segments = length vals' ->
  makeURL c (template lit segments) vals
  = makeURL c (template lit segments) vals' ->
  vals = vals'.
Proof.
  intros Hbase Hlit Hsegs Hsep Hl Hl' H.
  rewrite !makeURL_template in H by assumption.
  injection H as H. apply append_inv_head in H.
  apply map_PathEscape_injective.
  apply (fill_injective segments lit); try assumption;
    try apply PathEscape_no_slash; now rewrite length_map.
Qed.

Lemma makeURL_injective_witness : ["a/b"; "c"] = ["a/b"; "c"].
Proof.
  apply (makeURL_injective (New "t") "/v8/projects/" ["/domains/"; ""]
           ["a/b"; "c"] ["a/b"; "c"]); reflexivity.
Defined.

Example makeURL_keeps_values_apart :
  makeURL (New "t") "/v8/projects/%s/domains/%s" ["a/b"; "c"]
  <> makeURL (New "t") "/v8/projects/%s/domains/%s" ["a"; "b/c"].
Proof. vm_compute. discriminate. Qed.

(** ** The callers of the engine *)

Lemma scoped_query (c : Client) (u team' : string) :
  scoped c u team' = Some (u +:+ teamQuery c team').
Proof.
  unfold scoped, teamQuery.
  destruct (String.eqb (teamID c team') EmptyString); cbn [negb].
  - now rewrite append_empty_r.
  - change (fmt.Sprintf "%s?teamId=%s" [u; teamID c team'])
      with (Some (u +:+ ("?teamId=" +:+ (teamID c team' +:+ EmptyString)))).
    now rewrite append_empty_r.
Qed.

(** Rewrites [makeURL] on a literal template into the filled template. *)
Ltac fill_template c lit segs vals Hbase :=
  let H := fresh "Hurl" in
  pose proof (makeURL_template c lit segs vals Hbase eq_refl eq_refl eq_refl)
    as H;
  let t := eval vm_compute in (template lit segs) in
  change (template lit segs) with t in H;
  rewrite H; clear H; cbn [mbind option_bind].

Section APIFacts.

Context {J : Type}.
Variable unmarshalEnvelope : list Byte.byte -> APIError -> string + APIError.
Variable newRequestError : string -> string -> option string.
Variable env : Env.
Variable unmarshalTeam : list Byte.byte -> Team -> Team * option string.
Variable unmarshalEdgeConfig :
  list Byte.byte -> EdgeConfig.t -> EdgeConfig.t * option string.
Variable unmarshalSchema :
  list Byte.byte -> EdgeConfigSchema.t J
  -> EdgeConfigSchema.t J * option string.
Variable unmarshalProjectDomain :
  list Byte.byte -> ProjectDomainResponse.t
  -> ProjectDomainResponse.t * option string.
Variable mustMarshalSchema : EdgeConfigSchema.t J -> string.

(** A call with nil as its output slot succeeds on any first answer below
    300, whatever the body holds. *)
Lemma discarding_success (c : Client) (req : clientRequest) (s : Session)
    (status : Z) (header : Header) (b : list Byte.byte) :
  newRequestError (method req) (url req) = None ->
  transport env (requests (net s)) (authorize c (requestOf req))
  = Responds status header b ->
  status < 300 ->
  discarding unmarshalEnvelope newRequestError env c req s
  = (None, landed (send (authorize c (requestOf req)) (net s)) s).
Proof.
  intros Hacc Ht Hs. unfold discarding, doRequest.
  rewrite (toHTTPRequest_accepted _ _ Hacc).
  unfold _doRequest. rewrite Ht.
  destruct (Z.leb_spec 300 status); [lia|].
  now rewrite loop_break.
Qed.

(** X12. The four deletions of the client pass nil as their output slot:
    when the client's base URL has no percent sign, the DELETE request is
    accepted and the first answer has a status below 300, each of them
    returns nil after one request, whatever the body of the answer is. *)
Theorem deletions_succeed_on_any_body (c : Client) (s : Session)
    (status : Z) (header : Header) (b : list Byte.byte) :
  noPercent (baseURL c) = true ->
  (forall u, newRequestError "DELETE" u = None) ->
  (forall r, transport env (requests (net s)) r = Responds status header b) ->
  status < 300 ->
  forall id domain team',
    (exists s',
        DeleteTeam unmarshalEnvelope newRequestError env c id s
        = Some (None, s')
        /\ requests (net s') = S (requests (net s)))
    /\ (exists s',
          DeleteEdgeConfig unmarshalEnvelope newRequestError env c id team' s
          = Some (None, s')
          /\ requests (net s') = S (requests (net s)))
    /\ (exists s',
          DeleteEdgeConfigSchema unmarshalEnvelope newRequestError env c id
            team' s
          = Some (None, s')
          /\ requests (net s') = S (requests (net s)))
    /\ (exists s',
          DeleteProjectDomain unmarshalEnvelope newRequestError env c id
            domain team' s
          = Some (None, s')
          /\ requests (net s') = S (requests (net s))).
Proof.
  intros Hbase Hacc Ht Hs id domain team'.
  repeat split.
  - unfold DeleteTeam.
    fill_template c "/v1/teams/"%string [EmptyString] [id] Hbase.
    erewrite discarding_success; [eauto|apply Hacc|apply Ht|exact Hs].
  - unfold DeleteEdgeConfig.
    fill_template c "/v1/edge-config/"%string [EmptyString] [id] Hbase.
    rewrite scoped_query. cbn [mbind option_bind].
    erewrite discarding_success; [eauto|apply Hacc|apply Ht|exact Hs].
  - unfold DeleteEdgeConfigSchema.
    fill_template c "/v1/edge-config/"%string ["/schema"%string] [id] Hbase.
    rewrite scoped_query. cbn [mbind option_bind].
    erewrite discarding_success; [eauto|apply Hacc|apply Ht|exact Hs].
  - unfold DeleteProjectDomain.
    fill_template c "/v8/projects/"%string ["/domains/"%string; EmptyString]
      [id; domain] Hbase.
    rewrite scoped_query. cbn [mbind option_bind].
    erewrite discarding_success; [eauto|apply Hacc|apply Ht|exact Hs].
Qed.

(** X13. The team stored by [WithTeam] is the one the client falls back to:
    asked for the team of the empty id, the client answers with the stored
    team without a request or a log line; the empty team id resolves to the
    id of the stored team and any other id to itself; and storing a team
    changes no URL the client builds. *)
Theorem stored_team_is_the_fallback (c : Client) (t : Team) (s : Session) :
  Client_Team unmarshalEnvelope newRequestError env unmarshalTeam
    (WithTeam c t) EmptyString s
  = Some (t, None, s)
  /\ teamID (WithTeam c t) EmptyString = ID t
  /\ (forall explicit, explicit <> EmptyString ->
        teamID (WithTeam c t) explicit = explicit)
  /\ (forall spec vals, makeURL (WithTeam c t) spec vals = makeURL c spec vals).
Proof.
  repeat split.
  intros explicit H. unfold teamID.
  destruct (String.eqb_spec explicit EmptyString); [contradiction|reflexivity].
Qed.

(** The first attempt of a call that treats no content as an error, on the
    answer 204. *)
Lemma into_no_content {V : Type}
    (unmarshalValue : list Byte.byte -> V -> V * option string)
    (c : Client) (req : clientRequest) (zero : V) (s : Session)
    (header : Header) (b : list Byte.byte) :
  newRequestError (method req) (url req) = None ->
  errorOnNoContent req = true ->
  transport env (requests (net s)) (authorize c (requestOf req))
  = Responds StatusNoContent header b ->
  into unmarshalEnvelope newRequestError env unmarshalValue c req zero s
  = (zero, Some (ErrAPI (noContentError StatusNoContent)),
     landed (send (authorize c (requestOf req)) (net s)) s).
Proof.
  intros Hacc Heo Ht. unfold into, doRequest.
  rewrite (toHTTPRequest_accepted _ _ Hacc).
  unfold _doRequest. rewrite Ht, Heo.
  change (300 <=? StatusNoContent) with false.
  change (true && (StatusNoContent =? StatusNoContent)) with true.
  cbv iota. now rewrite loop_break.
Qed.

(** X14. When the first answer to [GetEdgeConfigSchema] is a 204, whatever
    its body, the result is the zero schema and the API error not_found with
    status 404, which [NotFound] matches, after one request. *)
Theorem missing_schema_is_not_found (c : Client) (id team' : string)
    (s : Session) (header : Header) (b : list Byte.byte) :
  noPercent (baseURL c) = true ->
  (forall u, newRequestError "GET" u = None) ->
  (forall r,
      transport env (requests (net s)) r = Responds StatusNoContent header b) ->
  exists s',
    GetEdgeConfigSchema unmarshalEnvelope newRequestError env unmarshalSchema
      c id team' s
    = Some (EdgeConfigSchema.zero, Some (ErrAPI schemaNotFound), s')
    /\ NotFound (Some (ErrAPI schemaNotFound)) = true
    /\ requests (net s') = S (requests (net s)).
Proof.
  intros Hbase Hacc Ht. unfold GetEdgeConfigSchema.
  fill_template c "/v1/edge-config/"%string ["/schema"%string] [id] Hbase.
  rewrite scoped_query. cbn [mbind option_bind].
  erewrite into_no_content; [|apply Hacc|reflexivity|apply Ht].
  change (noContent (Some (ErrAPI (noContentError StatusNoContent))))
    with true.
  cbv iota. eauto.
Qed.

(** X15. [GetEdgeConfigSchema] never lets the no_content error out: no error
    it returns is matched by [noContent]; and unless it returns its own
    not_found error, the schema it returns has the id that was asked for and
    the resolved team. *)
Theorem schema_error_is_never_no_content (c : Client) (id team' : string)
    (s s' : Session) (e : EdgeConfigSchema.t J) (err : option error) :
  GetEdgeConfigSchema unmarshalEnvelope newRequestError env unmarshalSchema
    c id team' s
  = Some (e, err, s') ->
  noContent err = false
  /\ (err <> Some (ErrAPI schemaNotFound) ->
      EdgeConfigSchema.ID e = id
      /\ EdgeConfigSchema.TeamID e = teamID c team').
Proof.
  unfold GetEdgeConfigSchema.
  destruct (makeURL c _ _) as [u|]; [|discriminate]. cbn [mbind option_bind].
  destruct (scoped c u team') as [u'|]; [|discriminate].
  cbn [mbind option_bind].
  destruct (into _ _ _ _ _ _ _ _) as [[e0 err0] s0].
  destruct (noContent err0) eqn:Hn; intros [= <- <- <-].
  - split; [reflexivity|]. intros H. now destruct H.
  - split; [exact Hn|]. intros _. split; reflexivity.
Qed.

(** X16. What [GetProjectDomain] sends and returns, for a client whose base
    URL has no percent sign: every request of the call is a GET without a
    body to the base URL followed by /v8/projects/, the escaped project,
    /domains/, the escaped domain and, when the resolved team is not empty,
    the query teamId with that team as it is; at most 4 such requests are
    sent; the call logs the URL once; and the team of the result is the
    resolved team, whatever the answer was. *)
Theorem GetProjectDomain_requests (c : Client) (projectID domain team' : string)
    (s : Session) :
  noPercent (baseURL c) = true ->
  let u := (baseURL c +:+ "/v8/projects/" +:+ net_url.PathEscape projectID
            +:+ "/domains/" +:+ net_url.PathEscape domain)
           +:+ teamQuery c team' in
  let x := authorize c
             (requestOf {| method := "GET"; url := u; body := EmptyString;
                           errorOnNoContent := false |}) in
  exists r err s' k,
    GetProjectDomain unmarshalEnvelope newRequestError env
      unmarshalProjectDomain c projectID domain team' s
    = Some (r, err, s')
    /\ ProjectDomainResponse.TeamID r = teamID c team'
    /\ (k <= 4)%nat
    /\ sentRequests (journal (net s'))
       = repeat x k ++ sentRequests (journal (net s))
    /\ Method x = "GET" /\ URL x = u /\ Body x = EmptyString
    /\ logbook s'
       = {| level := LevelInfo; message := "getting project domain";
            fields := [("url", u)] |} :: logbook s.
Proof.
  intros Hbase. cbv zeta. unfold GetProjectDomain.
  fill_template c "/v8/projects/"%string ["/domains/"%string; EmptyString]
    [projectID; domain] Hbase.
  rewrite scoped_query. cbn [mbind option_bind fill map].
  rewrite append_empty_r.
  unfold into.
  match goal with
  | |- context [doRequest ?a ?b ?d ?e ?c' ?req ?v ?w] =>
      pose proof (call_sent a b d e c' req v w) as Hsent;
      pose proof (doRequest_counts a b d e c' req v w) as Hc;
      destruct (doRequest a b d e c' req v w) as [[err slot] w']
  end.
  cbv zeta in Hsent, Hc. cbn [worldOf snd tflog net logbook landed] in *.
  do 4 eexists. split; [reflexivity|]. cbn [ProjectDomainResponse.TeamID net logbook landed].
  split; [reflexivity|]. split; [|split; [exact Hsent|repeat split]].
  lia.
Qed.

End APIFacts.

(** ** The import id of a shared environment variable *)

Lemma SplitByte_length (sep : ascii) (s : string) :
  length (strings.SplitByte sep s) = S (countChar sep s).
Proof.
  induction s as [|c s IH]; [reflexivity|].
  cbn [strings.SplitByte countChar].
  destruct (Ascii.eqb c sep).
  - cbn [length]. now rewrite IH.
  - destruct (strings.SplitByte sep s) as [|first others]; [discriminate IH|].
    cbn [length] in *. lia.
Qed.

Lemma SplitByte_join (sep : ascii) (s : string) :
  strings.JoinByte sep (strings.SplitByte sep s) = s.
Proof.
  induction s as [|c s IH]; [reflexivity|].
  cbn [strings.SplitByte].
  destruct (Ascii.eqb_spec c sep) as [->|Hne].
  - pose proof (SplitByte_length sep s) as Hl.
    destruct (strings.SplitByte sep s) as [|first others]; [discriminate Hl|].
    change (String sep (strings.JoinByte sep (first :: others)) = String sep s).
    now rewrite IH.
  - pose proof (SplitByte_length sep s) as Hl.
    destruct (strings.SplitByte sep s) as [|first others]; [discriminate Hl|].
    destruct others as [|second others].
    + cbn [strings.JoinByte] in *. now rewrite IH.
    + change (String c (strings.JoinByte sep (first :: second :: others))
              = String c s).
      now rewrite IH.
Qed.

Lemma SplitByte_parts (sep : ascii) (s : string) :
  Forall (fun p => countChar sep p = 0%nat) (strings.SplitByte sep s).
Proof.
  induction s as [|c s IH]; [repeat constructor|].
  cbn [strings.SplitByte].
  destruct (Ascii.eqb c sep) eqn:E.
  - constructor; [reflexivity|exact IH].
  - destruct (strings.SplitByte sep s) as [|first others];
      [repeat constructor; cbn; now rewrite E|].
    inversion IH as [|? ? Hf Ho]; subst. constructor; [|exact Ho].
    cbn [countChar]. now rewrite E.
Qed.

Lemma SplitByte_plain (sep : ascii) (s : string) :
  countChar sep s = 0%nat -> strings.SplitByte sep s = [s].
Proof.
  induction s as [|c s IH]; [reflexivity|].
  cbn [countChar strings.SplitByte].
  destruct (Ascii.eqb c sep); [discriminate|].
  intros H. now rewrite IH.
Qed.

Lemma SplitByte_append (sep : ascii) (a b : string) :
  countChar sep a = 0%nat ->
  strings.SplitByte sep (a +:+ String sep b) = a :: strings.SplitByte sep b.
Proof.
  induction a as [|c a IH].
  - intros _. change (EmptyString +:+ String sep b) with (String sep b).
    cbn [strings.SplitByte]. now rewrite Ascii.eqb_refl.
  - cbn [countChar]. destruct (Ascii.eqb c sep) eqn:E; [discriminate|].
    intros H.
    change (String c a +:+ String sep b) with (String c (a +:+ String sep b)).
    cbn [strings.SplitByte]. now rewrite E, IH.
Qed.

(** X17. An import id is accepted exactly when it holds one slash.  The two
    parts of an accepted id hold no slash and, joined by a slash, give the id
    back; the parts of a rejected id are both empty. *)
Theorem splitSharedEnvironmentVariableID_accepts_one_slash (id : string) :
  let '(teamID', envID, ok) := splitSharedEnvironmentVariableID id in
  (ok = true <-> countChar "/" id = 1%nat)
  /\ (ok = true ->
      id = teamID' +:+ String "/" envID
      /\ countChar "/" teamID' = 0%nat /\ countChar "/" envID = 0%nat)
  /\ (ok = false -> teamID' = EmptyString /\ envID = EmptyString).
Proof.
  unfold splitSharedEnvironmentVariableID.
  pose proof (SplitByte_length "/" id) as Hl.
  pose proof (SplitByte_join "/" id) as Hj.
  pose proof (SplitByte_parts "/" id) as Hp.
  destruct (strings.SplitByte "/" id) as [|a [|b [|c rest]]];
    cbn [length] in Hl.
  - discriminate Hl.
  - repeat split; try discriminate. intros H. lia.
  - inversion Hp as [|? ? Ha Hp']; inversion Hp' as [|? ? Hb _]; subst.
    repeat split; auto; try discriminate. lia.
  - repeat split; try discriminate. intros H. lia.
Qed.

(** X18. Splitting undoes joining: a team id and a variable id without a
    slash, joined by a slash, are accepted and split into the same two ids,
    the empty ones included. *)
Theorem splitSharedEnvironmentVariableID_of_joined (teamID' envID : string) :
  countChar "/" teamID' = 0%nat ->
  countChar "/" envID = 0%nat ->
  splitSharedEnvironmentVariableID (teamID' +:+ String "/" envID)
  = (teamID', envID, true).
Proof.
  intros Ht He. unfold splitSharedEnvironmentVariableID.
  now rewrite SplitByte_append, SplitByte_plain.
Qed.

Lemma splitSharedEnvironmentVariableID_of_joined_witness :
  splitSharedEnvironmentVariableID "team_abc/env_123"
  = ("team_abc", "env_123", true)%string.
Proof.
  apply (splitSharedEnvironmentVariableID_of_joined "team_abc" "env_123");
    reflexivity.
Defined.

Example splitSharedEnvironmentVariableID_values :
  splitSharedEnvironmentVariableID "env_123" = (EmptyString, EmptyString, false)
  /\ splitSharedEnvironmentVariableID "a/b/c"
     = (EmptyString, EmptyString, false)
  /\ splitSharedEnvironmentVariableID "/" = (EmptyString, EmptyString, true)
  /\ splitSharedEnvironmentVariableID EmptyString
     = (EmptyString, EmptyString, false).
Proof. repeat split; reflexivity. Qed.

(** ** Ignored files *)

Lemma collect_tokens (l acc : list string) :
  fold_left (fun ignores text => ignores ++ [text]) l acc = acc ++ l.
Proof.
  revert acc. induction l as [|x l IH]; intros acc; cbn [fold_left].
  - now rewrite app_nil_r.
  - rewrite IH, <- app_assoc. reflexivity.
Qed.

(** X19. [GetIgnores] fails only when the file is there and cannot be
    opened: the error then wraps the cause and no list is returned.  In every
    other case the error is nil and the result is the lines of the file, in
    their order, followed by the 28 default patterns, which a .vercelignore
    file can therefore add to but not remove; a missing file gives the
    defaults alone.  An error of the scanner or of closing the file never
    changes the list or the error. *)
Theorem GetIgnores_appends_the_defaults
    (filepath_Join : string -> string -> string)
    (os_Open : string -> OpenResult) (path : string) :
  let '(ignores, err, _) := GetIgnores filepath_Join os_Open path in
  match os_Open (filepath_Join path ".vercelignore") with
  | NotExist => ignores = defaultIgnores /\ err = None
  | OpenFails msg =>
      ignores = []
      /\ err = Some (ErrWrap ("unable to read .vercelignore file: " +:+ msg)
                       (ErrForeign msg))
  | Opened f =>
      ignores = tokens f ++ defaultIgnores
      /\ err = None
      /\ length ignores = (length (tokens f) + 28)%nat
      /\ (forall p, In p defaultIgnores -> In p ignores)
  end.
Proof.
  unfold GetIgnores.
  destruct (os_Open (filepath_Join path ".vercelignore")) as [|msg|f].
  - split; reflexivity.
  - split; reflexivity.
  - rewrite collect_tokens. cbn [app]. repeat split.
    + now rewrite length_app.
    + intros p Hp. apply in_or_app. now right.
Qed.


(** ** The properties above on the fixtures *)

Lemma doRequest_waiting_bounded_witness :
  let w' := worldOf (Fixture.run Sample.cancelledEarly Fixture.getTeam
                       (Some Fixture.emptyTeam)) in
  waited start <= waited w' <= waited start + 897 * time.Second.
Proof.
  apply (doRequest_waiting_bounded Fixture.unmarshalEnvelope
           Fixture.unmarshalValue Fixture.newRequestError
           Sample.cancelledEarly Fixture.client Fixture.getTeam
           (Some Fixture.emptyTeam) start).
  intros n d t Hd. cbn [Sample.cancelledEarly Fixture.scripted select].
  destruct (n =? 1)%nat; [|discriminate]. intros [= <-]. lia.
Defined.

Example cancelledEarly_run :
  let r := Fixture.run Sample.cancelledEarly Fixture.getTeam
             (Some Fixture.emptyTeam) in
  errOf r = Some (ErrContext Canceled)
  /\ requests (worldOf r) = 2%nat
  /\ waited (worldOf r) = 2500000000.
Proof. by_evaluation. Qed.

Lemma retry_after_delay_then_success_witness :
  Fixture.run Sample.limitedThenFound Fixture.getTeam (Some Fixture.emptyTeam)
  = (None, Some Scene.team1,
     send (authorize Fixture.client (Fixture.httpRequest Fixture.getTeam))
       (wait (time.seconds 2) TimerFired
          (armed (Fixture.rateLimitError 2) Scene.afterFirst)))
  /\ waited
       (send (authorize Fixture.client (Fixture.httpRequest Fixture.getTeam))
          (wait (time.seconds 2) TimerFired
             (armed (Fixture.rateLimitError 2) Scene.afterFirst)))
     = waited start + 2 * time.Second.
Proof.
  destruct (retry_after_delay_then_success Fixture.unmarshalEnvelope
              Fixture.unmarshalValue Fixture.newRequestError
              Sample.limitedThenFound Fixture.client Fixture.getTeam
              (Fixture.httpRequest Fixture.getTeam)
              (Some Fixture.emptyTeam) (Some Fixture.emptyTeam)
              (Some Scene.team1) start Scene.afterFirst
              (send (authorize Fixture.client
                       (Fixture.httpRequest Fixture.getTeam))
                 (wait (time.seconds 2) TimerFired
                    (armed (Fixture.rateLimitError 2) Scene.afterFirst)))
              (Some (ErrAPI (Fixture.rateLimitError 2)))
              (Fixture.rateLimitError 2))
    as (Hc & _ & _ & Hw & _).
  - reflexivity.
  - vm_compute. reflexivity.
  - reflexivity.
  - reflexivity.
  - vm_compute. reflexivity.
  - split; [exact Hc|exact Hw].
Defined.

Lemma nil_only_after_success_response_witness :
  exists r status header b,
    toHTTPRequest Fixture.newRequestError Fixture.getTeam = inr r
    /\ transport Sample.limitedThenFound 1 (authorize Fixture.client r)
       = Responds status header b
    /\ status < 300.
Proof.
  destruct (nil_only_after_success_response Fixture.unmarshalEnvelope
              Fixture.unmarshalValue Fixture.newRequestError
              Sample.limitedThenFound Fixture.client Fixture.getTeam
              (Some Fixture.emptyTeam) start)
    as (r & status & header & b & Hb & _ & Ht & Hs).
  - vm_compute. reflexivity.
  - exists r, status, header, b. split; [exact Hb|]. split; [exact Ht|exact Hs].
Defined.

Lemma error_response_other_than_429_is_final_witness :
  Fixture.run (Fixture.answering (Responds 500 ∅ Fixture.serverError))
    Fixture.getTeam (Some Fixture.emptyTeam)
  = (Some (ErrAPI Fixture.serverErrorError), Some Fixture.emptyTeam,
     Scene.afterFirst).
Proof.
  apply (error_response_other_than_429_is_final Fixture.unmarshalEnvelope
           Fixture.unmarshalValue Fixture.newRequestError
           (Fixture.answering (Responds 500 ∅ Fixture.serverError))
           Fixture.client Fixture.getTeam
           (Fixture.httpRequest Fixture.getTeam) (Some Fixture.emptyTeam)
           start 500 ∅ Fixture.serverError).
  - reflexivity.
  - reflexivity.
  - lia.
  - discriminate.
Defined.

Lemma rate_limit_with_empty_body_is_final_witness :
  Fixture.run
    (Fixture.answering (Responds 429 (Fixture.retryAfterHeader "2") []))
    Fixture.getTeam (Some Fixture.emptyTeam)
  = (Some (ErrAPI (bareError 429)), Some Fixture.emptyTeam, Scene.afterFirst).
Proof.
  apply (rate_limit_with_empty_body_is_final Fixture.unmarshalEnvelope
           Fixture.unmarshalValue Fixture.newRequestError
           (Fixture.answering
              (Responds 429 (Fixture.retryAfterHeader "2") []))
           Fixture.client Fixture.getTeam
           (Fixture.httpRequest Fixture.getTeam) (Some Fixture.emptyTeam)
           start (Fixture.retryAfterHeader "2")); reflexivity.
Defined.

Lemma transport_failure_is_final_witness :
  Fixture.run (Fixture.answering (DoFails "connection refused"))
    Fixture.getTeam (Some Fixture.emptyTeam)
  = (Some (ErrWrap "error doing http request: connection refused"
             (ErrForeign "connection refused")),
     Some Fixture.emptyTeam, Scene.afterFirst).
Proof.
  destruct (transport_failure_is_final Fixture.unmarshalEnvelope
              Fixture.unmarshalValue Fixture.newRequestError
              (Fixture.answering (DoFails "connection refused"))
              Fixture.client Fixture.getTeam
              (Fixture.httpRequest Fixture.getTeam) (Some Fixture.emptyTeam)
              start "connection refused" eq_refl) as [Hdo _].
  exact (Hdo eq_refl).
Defined.

Lemma refused_call_leaves_slot_untouched_witness :
  slotOf (Fixture.run Fixture.limitedThenBroken Fixture.getTeam
            (Some Fixture.emptyTeam))
  = Some Fixture.emptyTeam.
Proof.
  refine (proj1 (refused_call_leaves_slot_untouched Fixture.unmarshalEnvelope
                   Fixture.unmarshalValue Fixture.newRequestError
                   Fixture.limitedThenBroken Fixture.client Fixture.getTeam
                   (Some Fixture.emptyTeam) start _)).
  intros n r'. destruct n as [|[|n]]; reflexivity.
Defined.

Lemma deletions_succeed_on_any_body_witness :
  exists s',
    DeleteTeam Fixture.unmarshalEnvelope Fixture.newRequestError
      (Fixture.answering (Responds 200 ∅ Fixture.oops)) Fixture.client
      "team_1" Scene.session
    = Some (None, s')
    /\ requests (net s') = 1%nat.
Proof.
  refine (proj1 (deletions_succeed_on_any_body Fixture.unmarshalEnvelope
                   Fixture.newRequestError
                   (Fixture.answering (Responds 200 ∅ Fixture.oops))
                   Fixture.client Scene.session 200 ∅ Fixture.oops
                   eq_refl _ _ _ "team_1" "example.com" EmptyString)).
  - reflexivity.
  - reflexivity.
  - lia.
Defined.

Lemma missing_schema_is_not_found_witness :
  exists s',
    GetEdgeConfigSchema Fixture.unmarshalEnvelope Fixture.newRequestError
      (Fixture.answering (Responds 204 ∅ [])) Scene.unmarshalSchema
      Fixture.client "ecfg_1" "team_1" Scene.session
    = Some (EdgeConfigSchema.zero, Some (ErrAPI schemaNotFound), s')
    /\ NotFound (Some (ErrAPI schemaNotFound)) = true
    /\ requests (net s') = 1%nat.
Proof.
  apply (missing_schema_is_not_found Fixture.unmarshalEnvelope
           Fixture.newRequestError (Fixture.answering (Responds 204 ∅ []))
           Scene.unmarshalSchema Fixture.client "ecfg_1" "team_1"
           Scene.session ∅ []); reflexivity.
Defined.

Lemma schema_error_is_never_no_content_witness :
  exists e err s',
    GetEdgeConfigSchema Fixture.unmarshalEnvelope Fixture.newRequestError
      (Fixture.answering (Responds 500 ∅ Fixture.serverError))
      Scene.unmarshalSchema Fixture.client "ecfg_1" "team_1" Scene.session
    = Some (e, err, s')
    /\ noContent err = false
    /\ EdgeConfigSchema.ID e = "ecfg_1"
    /\ EdgeConfigSchema.TeamID e = "team_1".
Proof.
  destruct (GetEdgeConfigSchema Fixture.unmarshalEnvelope
              Fixture.newRequestError
              (Fixture.answering (Responds 500 ∅ Fixture.serverError))
              Scene.unmarshalSchema Fixture.client "ecfg_1" "team_1"
              Scene.session) as [[[e err] s']|] eqn:H;
    [|vm_compute in H; discriminate H].
  destruct (schema_error_is_never_no_content Fixture.unmarshalEnvelope
              Fixture.newRequestError
              (Fixture.answering (Responds 500 ∅ Fixture.serverError))
              Scene.unmarshalSchema Fixture.client "ecfg_1" "team_1"
              Scene.session s' e err H) as [Hn Hid].
  exists e, err, s'. split; [reflexivity|]. split; [exact Hn|].
  apply Hid. vm_compute in H. injection H as _ <- _. discriminate.
Defined.

Lemma GetProjectDomain_requests_witness :
  exists r err s' k,
    GetProjectDomain Fixture.unmarshalEnvelope Fixture.newRequestError
      (Fixture.answering (Responds 404 ∅ [])) Scene.unmarshalProjectDomain
      Fixture.client "prj_1" "my site.dev" "team_1" Scene.session
    = Some (r, err, s')
    /\ ProjectDomainResponse.TeamID r = "team_1"
    /\ (k <= 4)%nat
    /\ Forall
         (fun x =>
            URL x
            = "https://api.vercel.com/v8/projects/prj_1/domains/my%20site.dev?teamId=team_1")
         (sentRequests (journal (net s'))).
Proof.
  destruct (GetProjectDomain_requests Fixture.unmarshalEnvelope
              Fixture.newRequestError (Fixture.answering (Responds 404 ∅ []))
              Scene.unmarshalProjectDomain Fixture.client "prj_1"
              "my site.dev" "team_1" Scene.session eq_refl)
    as (r & err & s' & k & Hg & Ht & Hk & Hs & _).
  exists r, err, s', k. split; [exact Hg|]. split; [exact Ht|].
  split; [exact Hk|]. rewrite Hs. cbn [Scene.session net start journal sentRequests].
  rewrite app_nil_r. clear. induction k as [|k IH]; constructor; [reflexivity|exact IH].
Defined.

(** ** Shared environment variables *)

Lemma HasError_app (a b : list diag.Diagnostic) :
  diag.HasError (a ++ b) = diag.HasError a || diag.HasError b.
Proof. apply existsb_app. Qed.

Section SharedEnvironmentVariableFacts.

Variable ElementsAs : types.Set_ -> list diag.Diagnostic * list string.
Variable toTeamID : string -> types.String_.

(** X20. The two conversions of a plan into a request succeed together, and
    exactly when there is no error among the diagnostics passed in and those
    of converting the targets and the project ids.  When they fail the
    requests are the zero values; when they succeed the two requests carry
    the same targets, project ids and type, and the type is sensitive for a
    flag that is known and true and encrypted for any other flag, a null or
    unknown one included. *)
Theorem plan_conversions_agree (e : SharedEnvironmentVariable.t)
    (diags : list diag.Diagnostic) :
  let '(create, okCreate) :=
    toCreateSharedEnvironmentVariableRequest ElementsAs e diags in
  let '(update, okUpdate) :=
    toUpdateSharedEnvironmentVariableRequest ElementsAs e diags in
  let kind :=
    match SharedEnvironmentVariable.Sensitive e with
    | types.BoolValue true => "sensitive"
    | _ => "encrypted"
    end in
  okCreate = okUpdate
  /\ (okCreate = true
      <-> diag.HasError
            (diags
             ++ fst (ElementsAs (SharedEnvironmentVariable.Target e))
             ++ fst (ElementsAs (SharedEnvironmentVariable.ProjectIDs e)))
          = false)
  /\ (okCreate = false ->
      create = CreateSharedEnvironmentVariableRequest.zero
      /\ update = UpdateSharedEnvironmentVariableRequest.zero)
  /\ (okCreate = true ->
      let sent :=
        CreateSharedEnvironmentVariableRequest.EnvironmentVariable create in
      SharedEnvironmentVariableRequest.Type_ sent = kind
      /\ UpdateSharedEnvironmentVariableRequest.Type_ update = kind
      /\ SharedEnvironmentVariableRequest.Target sent
         = UpdateSharedEnvironmentVariableRequest.Target update
      /\ SharedEnvironmentVariableRequest.ProjectIDs sent
         = UpdateSharedEnvironmentVariableRequest.ProjectIDs update).
Proof.
  unfold toCreateSharedEnvironmentVariableRequest,
    toUpdateSharedEnvironmentVariableRequest.
  destruct (ElementsAs (SharedEnvironmentVariable.Target e)) as [ds1 target].
  destruct (ElementsAs (SharedEnvironmentVariable.ProjectIDs e))
    as [ds2 projectIDs].
  cbn [fst]. rewrite !HasError_app.
  destruct (diag.HasError diags), (diag.HasError ds1), (diag.HasError ds2);
    cbn [orb]; repeat split; try discriminate; try reflexivity;
    unfold envVariableType;
    destruct (SharedEnvironmentVariable.Sensitive e) as [| |[]]; reflexivity.
Qed.

(** X21. Creating and reading back: when the plan converts into a request
    and the response carries the type and the key that were sent, the state
    made from the response and the planned value has the key of the plan,
    the sensitivity of the plan (false for a null or unknown flag), and as
    its value the planned value for a sensitive variable, whatever value the
    response holds, and the value of the response otherwise. *)
Theorem created_state_agrees_with_plan (e : SharedEnvironmentVariable.t)
    (diags : list diag.Diagnostic)
    (request : CreateSharedEnvironmentVariableRequest.t)
    (response : SharedEnvironmentVariableResponse.t) :
  toCreateSharedEnvironmentVariableRequest ElementsAs e diags
  = (request, true) ->
  SharedEnvironmentVariableResponse.Type_ response
  = SharedEnvironmentVariableRequest.Type_
      (CreateSharedEnvironmentVariableRequest.EnvironmentVariable request) ->
  map SharedEnvVarRequest.Key
      (SharedEnvironmentVariableRequest.EnvironmentVariables
         (CreateSharedEnvironmentVariableRequest.EnvironmentVariable request))
  = [SharedEnvironmentVariableResponse.Key response] ->
  let state :=
    convertResponseToSharedEnvironmentVariable toTeamID response
      (SharedEnvironmentVariable.Value e) in
  SharedEnvironmentVariable.Key state
  = types.StringValue (types.ValueString (SharedEnvironmentVariable.Key e))
  /\ SharedEnvironmentVariable.Sensitive state
     = types.BoolValue
         (types.ValueBool (SharedEnvironmentVariable.Sensitive e))
  /\ SharedEnvironmentVariable.Value state
     = (if types.ValueBool (SharedEnvironmentVariable.Sensitive e)
        then SharedEnvironmentVariable.Value e
        else types.StringValue
               (SharedEnvironmentVariableResponse.Value response)).
Proof.
  unfold toCreateSharedEnvironmentVariableRequest.
  destruct (ElementsAs (SharedEnvironmentVariable.Target e)) as [ds1 target].
  destruct (diag.HasError (diags ++ ds1)); [discriminate|].
  destruct (ElementsAs (SharedEnvironmentVariable.ProjectIDs e))
    as [ds2 projectIDs].
  destruct (diag.HasError ((diags ++ ds1) ++ ds2)); [discriminate|].
  intros [= <-]. cbn. intros Htype [= Hkey].
  unfold convertResponseToSharedEnvironmentVariable. cbn.
  rewrite Htype, <- Hkey. unfold envVariableType.
  destruct (types.ValueBool (SharedEnvironmentVariable.Sensitive e));
    repeat split.
Qed.

End SharedEnvironmentVariableFacts.

Lemma created_state_agrees_with_plan_witness :
  SharedEnvironmentVariable.Value
    (convertResponseToSharedEnvironmentVariable Plans.toTeamID
       Plans.secretResponse (SharedEnvironmentVariable.Value Plans.secret))
  = types.StringValue "s3cr3t".
Proof.
  destruct (created_state_agrees_with_plan Plans.ElementsAs Plans.toTeamID
              Plans.secret []
              (fst (toCreateSharedEnvironmentVariableRequest Plans.ElementsAs
                      Plans.secret []))
              Plans.secretResponse eq_refl eq_refl eq_refl) as (_ & _ & Hv).
  exact Hv.
Defined.

(** ** The plan of a shared environment variable *)

Lemma Append_keeps_errors (ds new : list diag.Diagnostic) :
  diag.HasError ds = true -> diag.HasError (diag.Append ds new) = true.
Proof.
  unfold diag.Append. revert ds.
  induction new as [|d new IH]; intros ds H; cbn [fold_left]; [exact H|].
  apply IH. destruct (existsb (diag.Equal d) ds); [exact H|].
  rewrite HasError_app, H. reflexivity.
Qed.

Lemma Equal_isError (a b : diag.Diagnostic) :
  diag.Equal a b = true -> diag.isError a = diag.isError b.
Proof.
  unfold diag.Equal, diag.isError.
  destruct (diag.severity a), (diag.severity b); try discriminate; reflexivity.
Qed.

(** Appending an error gives diagnostics that have an error, also when an
    equal diagnostic was there and nothing is added. *)
Lemma Append_error (ds : list diag.Diagnostic) (d : diag.Diagnostic) :
  diag.isError d = true -> diag.HasError (diag.Append ds [d]) = true.
Proof.
  intros Hd. unfold diag.Append. cbn [fold_left].
  destruct (existsb (diag.Equal d) ds) eqn:E.
  - apply existsb_exists in E as (x & Hx & He).
    apply existsb_exists. exists x. split; [exact Hx|].
    now rewrite <- (Equal_isError _ _ He).
  - rewrite HasError_app. cbn. rewrite Hd. apply orb_true_r.
Qed.

Section PlanFacts.

Variable unmarshalEnvelope : list Byte.byte -> APIError -> string + APIError.
Variable newRequestError : string -> string -> option string.
Variable env : Env.
Variable unmarshalTeam : list Byte.byte -> Team -> Team * option string.

Local Abbreviation plan :=
  (ModifyPlan unmarshalEnvelope newRequestError env unmarshalTeam).

(** X22. [ModifyPlan] turns to the API only to look up a team it was given:
    when the session is not the same after the call, the plan was not null,
    it described a variable without an id whose sensitive flag is known and
    false, and it named a team. *)
Theorem ModifyPlan_asks_only_about_a_named_team (c : Client)
    (req : PlanRequest) (diagnostics diagnostics' : list diag.Diagnostic)
    (s s' : Session) :
  plan c req diagnostics s = Some (diagnostics', s') ->
  s' <> s ->
  rawIsNull req = false
  /\ types.ValueString (SharedEnvironmentVariable.ID (snd (planGet req)))
     = EmptyString
  /\ SharedEnvironmentVariable.Sensitive (snd (planGet req))
     = types.BoolValue false
  /\ types.ValueString (SharedEnvironmentVariable.TeamID (snd (planGet req)))
     <> EmptyString.
Proof.
  unfold ModifyPlan.
  destruct (rawIsNull req); [intros [= _ <-] H; now destruct H|].
  destruct (planGet req) as [diags config]. cbn [snd].
  destruct (diag.HasError _); [intros [= _ <-] H; now destruct H|].
  destruct (String.eqb_spec
              (types.ValueString (SharedEnvironmentVariable.ID config))
              EmptyString) as [Hid|]; cbn [negb];
    [|intros [= _ <-] H; now destruct H].
  destruct (SharedEnvironmentVariable.Sensitive config) as [| |[]];
    cbn [types.IsUnknown types.IsNull types.ValueBool orb];
    try (intros [= _ <-] H; now destruct H).
  unfold Client_Team.
  destruct (String.eqb_spec
              (types.ValueString (SharedEnvironmentVariable.TeamID config))
              EmptyString) as [Ht|Ht]; cbn [negb].
  - cbn [mbind option_bind].
    destruct (SensitiveEnvironmentVariablePolicy (team c)) as [policy|];
      [destruct (negb (String.eqb policy "on"))|];
      intros [= _ <-] H; now destruct H.
  - intros _ _. auto.
Qed.

(** X23. For a new variable whose sensitive flag is known and false and
    that names no team, [ModifyPlan] checks the policy of the team stored in
    the client, without a request: the diagnostics are those of the plan,
    with the policy violation on the attribute sensitive added exactly when
    the policy of the stored team is on, and then they have an error. *)
Theorem ModifyPlan_checks_the_stored_team (c : Client) (t : Team)
    (req : PlanRequest) (diagnostics diags : list diag.Diagnostic)
    (config : SharedEnvironmentVariable.t) (s : Session) :
  rawIsNull req = false ->
  planGet req = (diags, config) ->
  diag.HasError (diag.Append diagnostics diags) = false ->
  types.ValueString (SharedEnvironmentVariable.ID config) = EmptyString ->
  SharedEnvironmentVariable.Sensitive config = types.BoolValue false ->
  types.ValueString (SharedEnvironmentVariable.TeamID config) = EmptyString ->
  let before := diag.Append diagnostics diags in
  let forced :=
    match SensitiveEnvironmentVariablePolicy t with
    | Some policy => String.eqb policy "on"
    | None => false
    end in
  plan (WithTeam c t) req diagnostics s
  = Some (if forced then before ++ [policyViolation] else before, s)
  /\ diag.HasError
       (if forced then before ++ [policyViolation] else before)
     = forced.
Proof.
  intros Hnull Hget Herr Hid Hsens Hteam. cbv zeta. unfold ModifyPlan.
  rewrite Hnull, Hget, Herr, Hid, Hsens, Hteam.
  cbn [String.eqb negb types.IsUnknown types.IsNull types.ValueBool orb].
  unfold Client_Team. cbn [String.eqb negb mbind option_bind WithTeam team].
  assert (existsb (diag.Equal policyViolation) (diag.Append diagnostics diags)
          = false) as Hfresh.
  { destruct (existsb _ _) eqn:E; [|reflexivity].
    apply existsb_exists in E as (x & Hx & He).
    apply Equal_isError in He.
    assert (diag.HasError (diag.Append diagnostics diags) = true) as H
      by (apply existsb_exists; exists x; split; [exact Hx|now rewrite <- He]).
    congruence. }
  destruct (SensitiveEnvironmentVariablePolicy t) as [policy|]; [|auto].
  destruct (String.eqb policy "on"); cbn [negb]; [|auto].
  unfold diag.Append at 1. cbn [fold_left]. rewrite Hfresh.
  split; [reflexivity|]. rewrite HasError_app. cbn. apply orb_true_r.
Qed.

End PlanFacts.

Lemma ModifyPlan_checks_the_stored_team_witness :
  ModifyPlan Fixture.unmarshalEnvelope Fixture.newRequestError
    (Fixture.answering (DoFails "offline")) Fixture.unmarshalValue
    (WithTeam Fixture.client Plans.strict)
    (Plans.creating (Plans.plain EmptyString)) [] Scene.session
  = Some ([policyViolation], Scene.session).
Proof.
  apply (ModifyPlan_checks_the_stored_team Fixture.unmarshalEnvelope
           Fixture.newRequestError (Fixture.answering (DoFails "offline"))
           Fixture.unmarshalValue Fixture.client Plans.strict
           (Plans.creating (Plans.plain EmptyString)) [] []
           (Plans.plain EmptyString) Scene.session); reflexivity.
Defined.

Lemma ModifyPlan_asks_only_about_a_named_team_witness :
  SharedEnvironmentVariable.Sensitive (Plans.plain "team_1")
  = types.BoolValue false
  /\ types.ValueString (SharedEnvironmentVariable.TeamID (Plans.plain "team_1"))
     <> EmptyString.
Proof.
  destruct (ModifyPlan Fixture.unmarshalEnvelope Fixture.newRequestError
              (Fixture.answering (Responds 200 ∅ Fixture.teamJSON))
              Fixture.unmarshalValue Fixture.client
              (Plans.creating (Plans.plain "team_1")) [] Scene.session)
    as [[ds' s']|] eqn:H; [|vm_compute in H; discriminate H].
  destruct (ModifyPlan_asks_only_about_a_named_team Fixture.unmarshalEnvelope
              Fixture.newRequestError
              (Fixture.answering (Responds 200 ∅ Fixture.teamJSON))
              Fixture.unmarshalValue Fixture.client
              (Plans.creating (Plans.plain "team_1")) [] ds' Scene.session s'
              H) as (_ & _ & Hs & Ht).
  - vm_compute in H. injection H as _ <-. discriminate.
  - split; [exact Hs|exact Ht].
Defined.

(** ** Reading the Edge Config data source *)

Lemma couldNotGetEdgeConfig_text (team' id : string) (err : error) :
  couldNotGetEdgeConfig team' id err
  = "Could not get Edge Config " +:+ team' +:+ " " +:+ id
    +:+ ", unexpected error: " +:+ Error err.
Proof.
  unfold couldNotGetEdgeConfig.
  transitivity
    ("Could not get Edge Config " +:+ team' +:+ " " +:+ id
     +:+ ", unexpected error: " +:+ Error err +:+ EmptyString);
    [reflexivity|].
  now rewrite append_empty_r.
Qed.

Section DataSourceFacts.

Variable unmarshalEnvelope : list Byte.byte -> APIError -> string + APIError.
Variable newRequestError : string -> string -> option string.
Variable env : Env.
Variable unmarshalEdgeConfig :
  list Byte.byte -> EdgeConfig.t -> EdgeConfig.t * option string.
Variable responseToEdgeConfig : EdgeConfig.t -> EdgeConfigModel.t.
Variable stateSet : EdgeConfigModel.t -> list diag.Diagnostic.

Local Abbreviation get :=
  (GetEdgeConfig unmarshalEnvelope newRequestError env unmarshalEdgeConfig).
Local Abbreviation readFunc :=
  (ReaderBased.readFunc unmarshalEnvelope newRequestError env
     unmarshalEdgeConfig responseToEdgeConfig).
Local Abbreviation built :=
  (ReaderBased.newEdgeConfigDataSource unmarshalEnvelope newRequestError env
     unmarshalEdgeConfig responseToEdgeConfig).
Local Abbreviation direct :=
  (Direct.Read unmarshalEnvelope newRequestError env unmarshalEdgeConfig
     responseToEdgeConfig stateSet).

(** The data source after a series of calls of [Configure], each with its
    provider data and the diagnostics of its response. *)
Local Abbreviation configured calls ds :=
  (fold_left
     (fun ds' (call : ProviderData * list diag.Diagnostic) =>
        fst (ReaderBased.Configure ds' (fst call) (snd call)))
     calls ds).

Lemma Configure_keeps_the_reader (ds : ReaderBased.edgeConfigDataSource)
    (calls : list (ProviderData * list diag.Diagnostic)) :
  ReaderBased.reader_ (configured calls ds) = ReaderBased.reader_ ds.
Proof.
  revert ds. induction calls as [|[pd diags] calls IH]; intros ds;
    [reflexivity|].
  cbn [fold_left fst snd]. rewrite IH.
  unfold ReaderBased.Configure.
  now destruct (dataSourceConfigurer.Configure _ pd diags).
Qed.

(** X25. [Configure] never reaches the client of the reader.  After any
    series of calls of [Configure] on the data source that
    [newEdgeConfigDataSource] builds with a reader, the client of the reader
    is still nil, also when the last call stored a client in the configurer.
    [Read] then returns the diagnostics of a configuration that cannot be
    read, and panics on a nil pointer for every configuration that can,
    before any log line, request or change of the state. *)
Theorem reader_client_is_never_configured
    (calls : list (ProviderData * list diag.Diagnostic))
    (req : ReadRequest EdgeConfigModel.t)
    (resp : ReadResponse EdgeConfigModel.t) (s : Session) :
  let ds := configured calls built in
  reader.client (ReaderBased.reader_ ds) = None
  /\ (forall earlier c diags,
        calls = earlier ++ [(ClientPointer c, diags)] ->
        dataSourceConfigurer.client (ReaderBased.configurer ds) = c)
  /\ ReaderBased.Read stateSet ds req resp s
     = Some (if diag.HasError
                  (diag.Append (Diagnostics resp) (fst (configGet req)))
             then Returns (reporting resp (fst (configGet req)), s)
             else Panics).
Proof.
  cbv zeta. split; [|split].
  - now rewrite Configure_keeps_the_reader.
  - intros earlier c diags ->. rewrite fold_left_app. reflexivity.
  - unfold ReaderBased.Read, reader.Read.
    rewrite Configure_keeps_the_reader.
    destruct (configGet req) as [diags config].
    cbn [fst reporting Diagnostics].
    destruct (diag.HasError (diag.Append (Diagnostics resp) diags));
      reflexivity.
Qed.

(** X26. The data source that reads by itself uses the client that
    [Configure] stored.  A configuration that cannot be read ends the read
    with its diagnostics.  Otherwise, without a stored client the read
    panics on a nil pointer; with one, a failed [GetEdgeConfig] is reported
    as Error reading EdgeConfig, with the team, the id and the text of the
    error in the detail, and the state is left alone, while a successful one
    is logged once and the state set, once, to the mapped result. *)
Theorem direct_read_uses_the_configured_client (pd : ProviderData)
    (diagnostics : list diag.Diagnostic)
    (req : ReadRequest EdgeConfigModel.t)
    (resp : ReadResponse EdgeConfigModel.t) (s : Session) :
  let d := fst (Direct.Configure Direct.newEdgeConfigDataSource pd
                  diagnostics) in
  let config := snd (configGet req) in
  let id := types.ValueString (EdgeConfigModel.ID config) in
  let team' := types.ValueString (EdgeConfigModel.TeamID config) in
  let before := reporting resp (fst (configGet req)) in
  (diag.HasError (Diagnostics before) = true ->
   direct d req resp s = Some (Returns (before, s)))
  /\ (diag.HasError (Diagnostics before) = false ->
      match pd with
      | ClientPointer (Some c) =>
          forall out err s1,
            get c id team' s = Some (out, err, s1) ->
            match err with
            | Some err' =>
                let reported :=
                  diag.AddError (Diagnostics before)
                    "Error reading EdgeConfig"
                    ("Could not get Edge Config " +:+ team' +:+ " " +:+ id
                     +:+ ", unexpected error: " +:+ Error err') in
                direct d req resp s
                = Some (Returns ({| Diagnostics := reported;
                                    stateSets := stateSets resp |}, s1))
                /\ diag.HasError reported = true
            | None =>
                exists s',
                  direct d req resp s
                  = Some (Returns
                            (setting stateSet before
                               (responseToEdgeConfig out), s'))
                  /\ net s' = net s1
                  /\ length (logbook s') = S (length (logbook s1))
            end
      | _ => direct d req resp s = Some Panics
      end).
Proof.
  cbv zeta. unfold Direct.Read.
  destruct (configGet req) as [diags config]. cbn [fst snd].
  split; intros Herr; rewrite Herr; [reflexivity|].
  destruct pd as [|[c|]|typeName]; try reflexivity.
  intros out err s1 Hg.
  cbn [Direct.Configure Direct.newEdgeConfigDataSource Direct.configurer
       dataSourceConfigurer.Configure dataSourceConfigurer.client fst
       GetEdgeConfig_through].
  rewrite Hg. cbn [fmap option_fmap option_map mbind option_bind].
  destruct err as [err'|].
  - rewrite couldNotGetEdgeConfig_text. split; [reflexivity|].
    now apply Append_error.
  - eexists. split; [reflexivity|]. split; reflexivity.
Qed.

(** X27. What a reader that has a client would do.  No reader of the
    sources has one; for a reader and a configurer that hold the same client
    and a configuration that can be read, the two reads agree when
    [GetEdgeConfig] succeeds.  When it fails both report the error, and the
    read that does every step itself leaves the state alone, but the read
    built on [reader] goes on to set the state to the zero Edge Config, since
    its [readFunc] returns a nil error after reporting. *)
Theorem reader_with_a_client_sets_the_zero_state (c : Client)
    (suffix : string) (req : ReadRequest EdgeConfigModel.t)
    (resp : ReadResponse EdgeConfigModel.t) (s s1 : Session)
    (out : EdgeConfig.t) (err : option error) :
  let r := {| reader.client := Some c; reader.readFunc := readFunc |} in
  let d :=
    {| Direct.configurer :=
         {| dataSourceConfigurer.client := Some c;
            dataSourceConfigurer.dataSourceNameSuffix := suffix |} |} in
  let config := snd (configGet req) in
  let before := reporting resp (fst (configGet req)) in
  diag.HasError (Diagnostics before) = false ->
  get c (types.ValueString (EdgeConfigModel.ID config))
    (types.ValueString (EdgeConfigModel.TeamID config)) s
  = Some (out, err, s1) ->
  match err with
  | None => reader.Read stateSet r req resp s = direct d req resp s
  | Some err' =>
      exists reported,
        direct d req resp s
        = Some (Returns ({| Diagnostics := reported;
                            stateSets := stateSets resp |}, s1))
        /\ reader.Read stateSet r req resp s
           = Some (Returns
                     ({| Diagnostics :=
                           diag.Append reported
                             (stateSet EdgeConfigModel.zero);
                         stateSets :=
                           EdgeConfigModel.zero :: stateSets resp |}, s1))
        /\ diag.HasError reported = true
  end.
Proof.
  cbv zeta. unfold Direct.Read, reader.Read, ReaderBased.readFunc.
  destruct (configGet req) as [diags config]. cbn [fst snd].
  intros Herr Hg. rewrite Herr.
  cbn [reader.client reader.readFunc Direct.configurer
       dataSourceConfigurer.client GetEdgeConfig_through].
  rewrite Hg. cbn [fmap option_fmap option_map mbind option_bind].
  destruct err as [err'|]; [|reflexivity].
  eexists. split; [reflexivity|]. split; [reflexivity|].
  now apply Append_error.
Qed.

End DataSourceFacts.

Lemma reader_with_a_client_sets_the_zero_state_witness :
  exists reported s1,
    Direct.Read Fixture.unmarshalEnvelope Fixture.newRequestError
      (Fixture.answering (Responds 500 ∅ Fixture.serverError))
      Reads.unmarshalEdgeConfig Reads.responseToEdgeConfig Reads.stateSet
      {| Direct.configurer :=
           {| dataSourceConfigurer.client := Some Fixture.client;
              dataSourceConfigurer.dataSourceNameSuffix := "_edge_config" |}
      |}
      Reads.request Reads.fresh Scene.session
    = Some (Returns ({| Diagnostics := reported; stateSets := [] |}, s1))
    /\ reader.Read Reads.stateSet
         {| reader.client := Some Fixture.client;
            reader.readFunc :=
              ReaderBased.readFunc Fixture.unmarshalEnvelope
                Fixture.newRequestError
                (Fixture.answering (Responds 500 ∅ Fixture.serverError))
                Reads.unmarshalEdgeConfig Reads.responseToEdgeConfig |}
         Reads.request Reads.fresh Scene.session
       = Some (Returns
                 ({| Diagnostics := diag.Append reported [];
                     stateSets := [EdgeConfigModel.zero] |}, s1))
    /\ diag.HasError reported = true.
Proof.
  pose proof
    (fun s1 =>
       reader_with_a_client_sets_the_zero_state
         Fixture.unmarshalEnvelope Fixture.newRequestError
         (Fixture.answering (Responds 500 ∅ Fixture.serverError))
         Reads.unmarshalEdgeConfig Reads.responseToEdgeConfig
         Reads.stateSet Fixture.client "_edge_config" Reads.request
         Reads.fresh Scene.session s1 EdgeConfig.zero
         (Some (ErrAPI Fixture.serverErrorError)) eq_refl) as H.
  cbv zeta in H.
  edestruct H as (reported & H1 & H2 & H3); [vm_compute; reflexivity|].
  eexists reported, _. split; [exact H1 | split; [exact H2 | exact H3]].
Defined.
